(** * Lead-form AI service: handoff decision engine and context lifecycle

    A shallow embedding of the Python service under
    [src/backend/services/ai/src] and the properties its specification
    states about it.

    - [models/intent.py]            -> [Module intent]
    - [models/conversation.py]      -> [Module conversation]
    - [services/context_service.py] -> [Module context_service]
    - [services/llm_service.py]     -> [Module llm_service]

    The libraries the service calls (pydantic, json, zlib, the model
    provider, Redis, the clock) are interfaces or parts of the state;
    the modules whose names end in [_facts], and [handoff_rule], hold
    the properties.

    Python floats are modelled by canonical rationals [Qc]: comparisons
    against literals are then exact, and arithmetic is the rational
    arithmetic the specification reasons with.  Python [str] values are
    sequences of code points; [bytes] are sequences of octets.  Stateful
    code is written in a state-and-exception monad, so that an exception
    leaves the state exactly as the statements before the [raise] left it. *)

From Stdlib Require Import QArith Qcanon.
From stdpp Require Import gmap strings list fin_maps numbers.

#[local] Set Warnings "-register-all".
#[local] Open Scope Z_scope.

(* ===================================================================== *)
(** ** Python values, exceptions and built-ins *)
(* ===================================================================== *)

Module Py.

(** A Python [str]: a sequence of Unicode code points. *)
Abbreviation str := (list N).

(** A Python [bytes] object: a sequence of octets (each below 256). *)
Abbreviation bytes := (list N).

(** The code points of an ASCII literal written in the source. *)
Definition lit (s : string) : str :=
  Ascii.N_of_ascii <$> String.list_ascii_of_string s.

(** The exception classes the service raises, catches or lets through. *)
Inductive ExcClass :=
| Exception            (* the base class of all of the following *)
| ValueError
| TypeError
| KeyError
| AttributeError
| ValidationError      (* pydantic_core.ValidationError, a ValueError *)
| JSONDecodeError      (* json.JSONDecodeError, a ValueError *)
| UnicodeDecodeError   (* a ValueError *)
| UnicodeEncodeError   (* a ValueError *)
| ZlibError            (* zlib.error *)
| RedisError           (* redis.exceptions.RedisError *)
| APIError             (* openai.error.APIError *)
| RetryError.          (* tenacity.RetryError *)

#[global] Instance ExcClass_eq_dec : EqDecision ExcClass.
Proof. solve_decision. Defined.

Record Exc := mkExc { exc_class : ExcClass; exc_msg : string }.

#[global] Instance Exc_eq_dec : EqDecision Exc.
Proof. solve_decision. Defined.

(** [isinstance(e, cls)]: the class itself or one of its subclasses. *)
Definition subclass (c parent : ExcClass) : bool :=
  bool_decide (c = parent) ||
  match parent, c with
  | Exception, _ => true
  | ValueError, (ValidationError | JSONDecodeError
                 | UnicodeDecodeError | UnicodeEncodeError) => true
  | _, _ => false
  end.

Definition isinstance (e : Exc) (classes : list ExcClass) : bool :=
  existsb (subclass (exc_class e)) classes.

(** The outcome of evaluating an expression or running a statement. *)
Inductive Result (A : Type) :=
| Ok (a : A)
| Raise (e : Exc).
Arguments Ok {A} a.
Arguments Raise {A} e.

Definition is_ok {A} (r : Result A) : bool :=
  match r with Ok _ => true | Raise _ => false end.

Definition rbind {A B} (r : Result A) (k : A → Result B) : Result B :=
  match r with Ok a => k a | Raise e => Raise e end.

#[global] Instance Result_ret : MRet Result := λ A a, Ok a.
#[global] Instance Result_bind : MBind Result := λ A B k r, rbind r k.

(** The values a [Dict[str, Any]] or a parsed JSON document can hold. *)
Inductive Val : Type :=
| VNone
| VBool (b : bool)
| VInt (z : Z)
| VFloat (q : Qc)
| VStr (s : str)
| VList (l : list Val)
| VDict (d : gmap string Val).

Abbreviation Dict := (gmap string Val).

(** Truth value of an object, as in [if x:] and [not x]. *)
Definition truthy (v : Val) : bool :=
  match v with
  | VNone => false
  | VBool b => b
  | VInt z => negb (z =? 0)
  | VFloat q => negb (bool_decide (q = 0%Qc))
  | VStr s => negb (bool_decide (s = []))
  | VList l => match l with [] => false | _ => true end
  | VDict d => negb (bool_decide (size d = 0%nat))
  end.

Definition Qc_ltb (x y : Qc) : bool := bool_decide (x < y)%Qc.
Definition Qc_leb (x y : Qc) : bool := bool_decide (x <= y)%Qc.

Definition Qc_of_Z (z : Z) : Qc := Q2Qc (inject_Z z).

(** [v < x] for a float [x]: numbers (and [bool], a subclass of [int])
    compare by value, everything else raises [TypeError]. *)
Definition lt_float (v : Val) (x : Qc) : Result bool :=
  match v with
  | VFloat q => Ok (Qc_ltb q x)
  | VInt z => Ok (Qc_ltb (Qc_of_Z z) x)
  | VBool b => Ok (Qc_ltb (Qc_of_Z (if b then 1 else 0)) x)
  | _ => Raise (mkExc TypeError "'<' not supported between instances")
  end.

(** [d.get(k, default)] *)
Definition dict_get (d : Dict) (k : string) (dflt : Val) : Val :=
  default dflt (d !! k).

(** [d[k]] on a dict *)
Definition dict_item (d : Dict) (k : string) : Result Val :=
  match d !! k with
  | Some v => Ok v
  | None => Raise (mkExc KeyError k)
  end.

(** [v[k]] for a string key [k] on an arbitrary object: only a dict can
    be indexed by a string. *)
Definition getitem (v : Val) (k : string) : Result Val :=
  match v with
  | VDict d => dict_item d k
  | VList _ =>
      Raise (mkExc TypeError "list indices must be integers or slices, not str")
  | VStr _ => Raise (mkExc TypeError "string indices must be integers")
  | _ => Raise (mkExc TypeError "object is not subscriptable")
  end.

(** [l[i:]]: a negative [i] counts from the end, and the slice is
    clipped to the sequence. *)
Definition slice_from {A} (i : Z) (l : list A) : list A :=
  if i <? 0 then drop (Z.to_nat (Z.of_nat (length l) + i)) l
  else drop (Z.to_nat i) l.

(** [s.startswith(p)] *)
Fixpoint startswith (s p : str) {struct p} : bool :=
  match p, s with
  | [], _ => true
  | c :: p', d :: s' => (c =? d)%N && startswith s' p'
  | _ :: _, [] => false
  end.

(** *** UTF-8, as [str.encode()] and [bytes.decode()] apply it (strict) *)

Definition is_cont (b : N) : bool := ((128 <=? b) && (b <=? 191))%N.

Definition encode_cp (cp : N) : option bytes :=
  (if cp <? 128 then Some [cp]
   else if cp <? 2048 then Some [192 + cp / 64; 128 + cp mod 64]
   else if (55296 <=? cp) && (cp <=? 57343) then None
   else if cp <? 65536 then
     Some [224 + cp / 4096; 128 + (cp / 64) mod 64; 128 + cp mod 64]
   else if cp <? 1114112 then
     Some [240 + cp / 262144; 128 + (cp / 4096) mod 64;
           128 + (cp / 64) mod 64; 128 + cp mod 64]
   else None)%N.

(** [s.encode()] *)
Fixpoint encode (s : str) : Result bytes :=
  match s with
  | [] => Ok []
  | cp :: s' =>
      match encode_cp cp with
      | None => Raise (mkExc UnicodeEncodeError "surrogates not allowed")
      | Some bs => rbind (encode s') (λ r, Ok (bs ++ r))
      end
  end.

Definition decode_error : Exc :=
  mkExc UnicodeDecodeError "'utf-8' codec can't decode byte".

(** [b.decode()] *)
Fixpoint decode (bs : bytes) : Result str :=
  match bs with
  | [] => Ok []
  | b0 :: r0 =>
      if (b0 <? 128)%N then rbind (decode r0) (λ s, Ok (b0 :: s))
      else if ((194 <=? b0) && (b0 <=? 223))%N then
        match r0 with
        | b1 :: r1 =>
            if is_cont b1
            then rbind (decode r1)
                   (λ s, Ok (((b0 - 192) * 64 + (b1 - 128))%N :: s))
            else Raise decode_error
        | _ => Raise decode_error
        end
      else if ((224 <=? b0) && (b0 <=? 239))%N then
        match r0 with
        | b1 :: b2 :: r2 =>
            if is_cont b1 && is_cont b2
               && negb ((b0 =? 224) && (b1 <? 160))%N
               && negb ((b0 =? 237) && (159 <? b1))%N
            then rbind (decode r2)
                   (λ s, Ok (((b0 - 224) * 4096 + (b1 - 128) * 64
                              + (b2 - 128))%N :: s))
            else Raise decode_error
        | _ => Raise decode_error
        end
      else if ((240 <=? b0) && (b0 <=? 244))%N then
        match r0 with
        | b1 :: b2 :: b3 :: r3 =>
            if is_cont b1 && is_cont b2 && is_cont b3
               && negb ((b0 =? 240) && (b1 <? 144))%N
               && negb ((b0 =? 244) && (143 <? b1))%N
            then rbind (decode r3)
                   (λ s, Ok (((b0 - 240) * 262144 + (b1 - 128) * 4096
                              + (b2 - 128) * 64 + (b3 - 128))%N :: s))
            else Raise decode_error
        | _ => Raise decode_error
        end
      else Raise decode_error
  end.

(** [c.isspace()] for a single code point. *)
Definition isspace (c : N) : bool :=
  ((9 <=? c) && (c <=? 13) || (28 <=? c) && (c <=? 32)
   || (c =? 133) || (c =? 160) || (c =? 5760)
   || (8192 <=? c) && (c <=? 8202) || (c =? 8232) || (c =? 8233)
   || (c =? 8239) || (c =? 8287) || (c =? 12288))%N.

Fixpoint lstrip (s : str) : str :=
  match s with
  | c :: s' => if isspace c then lstrip s' else s
  | [] => []
  end.

(** [s.strip()] *)
Definition strip (s : str) : str := reverse (lstrip (reverse (lstrip s))).

(** *** [datetime]: microseconds since 1970-01-01T00:00:00 (naive UTC) *)

Abbreviation datetime := Z.

(** [timedelta.seconds]: the seconds component of the normalised
    (days, seconds, microseconds) triple, always within [0, 86400). *)
Definition timedelta_seconds (d : Z) : Z := (d mod 86400000000) / 1000000.

(** [timedelta.total_seconds() * 1000]: the microseconds over 1000. *)
Definition timedelta_total_ms (d : Z) : Qc := Q2Qc (d # 1000).

Definition digit (d : Z) : N := (48 + Z.to_N (d mod 10))%N.

Definition digits2 (n : Z) : str := [digit (n / 10); digit n].
Definition digits4 (n : Z) : str :=
  [digit (n / 1000); digit (n / 100); digit (n / 10); digit n].
Definition digits6 (n : Z) : str :=
  [digit (n / 100000); digit (n / 10000); digit (n / 1000);
   digit (n / 100); digit (n / 10); digit n].

(** Year, month and day of a day count since the epoch (proleptic
    Gregorian calendar). *)
Definition civil_from_days (days : Z) : Z * Z * Z :=
  let z := days + 719468 in
  let era := z / 146097 in
  let doe := z - era * 146097 in
  let yoe := (doe - doe / 1460 + doe / 36524 - doe / 146096) / 365 in
  let doy := doe - (365 * yoe + yoe / 4 - yoe / 100) in
  let mp := (5 * doy + 2) / 153 in
  let d := doy - (153 * mp + 2) / 5 + 1 in
  let m := if mp <? 10 then mp + 3 else mp - 9 in
  let y := yoe + era * 400 + (if m <=? 2 then 1 else 0) in
  (y, m, d).

(** [dt.isoformat()] *)
Definition isoformat (t : datetime) : str :=
  let days := t / 86400000000 in
  let rest := t mod 86400000000 in
  let '(y, m, d) := civil_from_days days in
  let secs := rest / 1000000 in
  let us := rest mod 1000000 in
  digits4 y ++ lit "-" ++ digits2 m ++ lit "-" ++ digits2 d ++ lit "T"
  ++ digits2 (secs / 3600) ++ lit ":" ++ digits2 ((secs / 60) mod 60)
  ++ lit ":" ++ digits2 (secs mod 60)
  ++ (if us =? 0 then [] else lit "." ++ digits6 us).

(** *** Statements: state passing with exceptions *)

Definition SE (S A : Type) : Type := S → Result A * S.

#[global] Instance SE_ret {S} : MRet (SE S) := λ A a s, (Ok a, s).

#[global] Instance SE_bind {S} : MBind (SE S) := λ A B k m s,
  match m s with
  | (Ok a, s') => k a s'
  | (Raise e, s') => (Raise e, s')
  end.

Definition raise {S A} (e : Exc) : SE S A := λ s, (Raise e, s).

Definition lift {S A} (r : Result A) : SE S A := λ s, (r, s).

Definition get_state {S} : SE S S := λ s, (Ok s, s).

Definition modify {S} (f : S → S) : SE S () := λ s, (Ok (), f s).

(** [try: body  except classes as e: handler e] *)
Definition try_except {S A} (body : SE S A) (classes : list ExcClass)
    (handler : Exc → SE S A) : SE S A := λ s,
  match body s with
  | (Ok a, s') => (Ok a, s')
  | (Raise e, s') =>
      if isinstance e classes then handler e s' else (Raise e, s')
  end.

(** [try: body  except c1 as e: h1 e  except c2 as e: h2 e]: the first
    clause that matches handles the exception, and what a handler raises
    is not handled by the clause after it. *)
Definition try_except2 {S A} (body : SE S A)
    (classes1 : list ExcClass) (handler1 : Exc → SE S A)
    (classes2 : list ExcClass) (handler2 : Exc → SE S A) : SE S A := λ s,
  match body s with
  | (Ok a, s') => (Ok a, s')
  | (Raise e, s') =>
      if isinstance e classes1 then handler1 e s'
      else if isinstance e classes2 then handler2 e s'
      else (Raise e, s')
  end.

End Py.

Import Py.

Example isoformat_epoch : isoformat 0 = lit "1970-01-01T00:00:00".
Proof. reflexivity. Qed.

Example isoformat_sample :
  isoformat 1709210096000250 = lit "2024-02-29T12:34:56.000250".
Proof. reflexivity. Qed.

Example encode_decode_sample :
  encode [104; 233; 8364; 128512]%N
    = Ok [104; 195; 169; 226; 130; 172; 240; 159; 152; 128]%N
  ∧ decode [104; 195; 169; 226; 130; 172; 240; 159; 152; 128]%N
    = Ok [104; 233; 8364; 128512]%N.
Proof. split; reflexivity. Qed.

(* ===================================================================== *)
(** ** External libraries the service calls *)
(* ===================================================================== *)

(** The service only fixes how it calls these libraries; what they
    compute is an interface here.  [Module Reference] below gives small
    executable instances for closed examples. *)

(** pydantic-core's lax conversion of a string to a float field. *)
Class Pydantic := { str_as_float : str → option Qc }.

(** [json.dumps], and the parser behind [json.loads]: the value read,
    or the message of the [JSONDecodeError]. *)
Class Json := {
  json_dumps : Val → str;
  json_decode : str → string + Val
}.

(** [json.loads(s)] for a [str] *)
Definition json_loads {json_lib : Json} (s : str) : Result Val :=
  match json_decode s with
  | inr v => Ok v
  | inl msg => Raise (mkExc JSONDecodeError msg)
  end.

(** [json.loads(b)] for [bytes]: the bytes are decoded first (as UTF-8;
    the detection of UTF-16 and UTF-32 is left out). *)
Definition json_loads_bytes {json_lib : Json} (b : bytes) : Result Val :=
  s ← decode b; json_loads s.

(** [zlib.compress], and the decompressor behind [zlib.decompress]: the
    bytes recovered, or the message of the [zlib.error]. *)
Class Zlib := {
  zlib_compress : bytes → bytes;
  zlib_inflate : bytes → string + bytes
}.

(** [zlib.decompress(b)] *)
Definition zlib_decompress {zlib_lib : Zlib} (b : bytes) : Result bytes :=
  match zlib_inflate b with
  | inr d => Ok d
  | inl msg => Raise (mkExc ZlibError msg)
  end.

(** A call of [openai.ChatCompletion.acreate], by what the service puts
    into it: the system line tells the two kinds of call apart, and the
    user prompt is one of the two templates filled in. *)
Inductive ChatRequest :=
| ClassifierRequest (model : string) (message context : str)
    (temperature : Qc) (max_tokens : Z)
| AssistantRequest (model : string) (message : str) (intent : string)
    (context : str) (temperature : Qc) (max_tokens : Z).

(** The provider: [response.choices[0].message.content] for the n-th
    call made, or the exception the call raises. *)
Class OpenAI := { acreate : nat → ChatRequest → Result str }.

(* ===================================================================== *)
(** ** The data both model files declare *)
(* ===================================================================== *)

(** [class IntentType(str, Enum)], declared with the same members in
    [models/intent.py] and [models/conversation.py]. *)
Inductive IntentType :=
| GREETING | QUESTION | COMPLAINT | REQUEST_HUMAN | FAREWELL | UNKNOWN.

#[global] Instance IntentType_eq_dec : EqDecision IntentType.
Proof. solve_decision. Defined.

Definition IntentType_value (t : IntentType) : string :=
  match t with
  | GREETING => "greeting"
  | QUESTION => "question"
  | COMPLAINT => "complaint"
  | REQUEST_HUMAN => "request_human"
  | FAREWELL => "farewell"
  | UNKNOWN => "unknown"
  end.

Definition IntentType_members : list IntentType :=
  [GREETING; QUESTION; COMPLAINT; REQUEST_HUMAN; FAREWELL; UNKNOWN].

(** The fields of [class Intent(BaseModel)]; both model files declare
    these four fields, with the same types and defaults. *)
Module Intent.
Record t := mk {
  type : IntentType;
  confidence : Qc;
  requires_human : bool;
  metadata : Dict
}.
End Intent.

(** A UUID, by its canonical text ([str(uuid)]). *)
Abbreviation UUID := string.

(** *** pydantic field validation (lax mode) *)

Module pydantic.

Definition validation_error (what : string) : Exc :=
  mkExc ValidationError what.

(** A [str]-valued enum field accepts a member or its value. *)
Definition IntentType_field (v : Val) : option IntentType :=
  match v with
  | VStr s =>
      head (filter (λ t, s = lit (IntentType_value t)) IntentType_members)
  | _ => None
  end.

(** [float = Field(..., ge=0.0, le=1.0)] *)
Definition unit_float_field {pydantic_lib : Pydantic} (v : Val) : option Qc :=
  q ← match v with
      | VFloat q => Some q
      | VInt z => Some (Qc_of_Z z)
      | VBool b => Some (Qc_of_Z (if b then 1 else 0))
      | VStr s => str_as_float s
      | _ => None
      end;
  if Qc_leb 0 q && Qc_leb q 1 then Some q else None.

Definition lower (s : str) : str :=
  (λ c, if (65 <=? c) && (c <=? 90) then c + 32 else c)%N <$> s.

(** [bool] fields accept booleans, 0 and 1, and the usual words. *)
Definition bool_field (v : Val) : option bool :=
  match v with
  | VBool b => Some b
  | VInt z => if z =? 0 then Some false else if z =? 1 then Some true else None
  | VFloat q =>
      if bool_decide (q = 0%Qc) then Some false
      else if bool_decide (q = 1%Qc) then Some true else None
  | VStr s =>
      let w := lower s in
      if bool_decide (w ∈ lit <$> ["0"; "off"; "f"; "false"; "n"; "no"])
      then Some false
      else if bool_decide (w ∈ lit <$> ["1"; "on"; "t"; "true"; "y"; "yes"])
      then Some true else None
  | _ => None
  end.

(** [Dict[str, Any] = Field(default_factory=dict)] *)
Definition dict_field (v : Val) : option Dict :=
  match v with VDict d => Some d | _ => None end.

(** [BaseModel.__init__] on the keywords [data], for the four [Intent]
    fields: [type] and [confidence] are required, the other two have
    defaults, unknown keywords are ignored. *)
Definition Intent_validate {pydantic_lib : Pydantic} (data : Dict)
    : Result Intent.t :=
  match data !! "type" ≫= IntentType_field,
        data !! "confidence" ≫= unit_float_field,
        (match data !! "requires_human" with
         | None => Some false
         | Some v => bool_field v
         end),
        (match data !! "metadata" with
         | None => Some ∅
         | Some v => dict_field v
         end)
  with
  | Some t, Some c, Some h, Some m => Ok (Intent.mk t c h m)
  | _, _, _, _ => Raise (validation_error "validation errors for Intent")
  end.

End pydantic.

(* ===================================================================== *)
(** ** models/intent.py *)
(* ===================================================================== *)

Module intent.

(** [Intent.__init__], called with the keywords [data] *)
Definition Intent_init {pydantic_lib : Pydantic} (utcnow : datetime)
    (data : Dict)
    : Result Intent.t :=
  (* metadata = data.get('metadata', {}) *)
  let metadata := dict_get data "metadata" (VDict ∅) in
  (* metadata.update({...}) *)
  match metadata with
  | VDict d =>
      let metadata :=
        <["model_version" := VStr (lit "1.0.0")]>
          (<["created_at" := VStr (isoformat utcnow)]> d) in
      (* data['metadata'] = metadata; super().__init__ on data *)
      pydantic.Intent_validate (<["metadata" := VDict metadata]> data)
  | _ => Raise (mkExc AttributeError "object has no attribute 'update'")
  end.

(** [Intent.should_handoff(self, confidence_threshold=0.7)] *)
Definition should_handoff (self : Intent.t) (confidence_threshold : Qc)
    : Result bool :=
  if negb (Qc_leb 0 confidence_threshold && Qc_leb confidence_threshold 1)
  then Raise (mkExc ValueError "Confidence threshold must be between 0 and 1")
  else if Intent.requires_human self then Ok true
  else if Qc_ltb (Intent.confidence self) confidence_threshold then Ok true
  else if bool_decide (Intent.type self = REQUEST_HUMAN) then Ok true
  else if bool_decide (Intent.type self = COMPLAINT)
          && Qc_ltb (Intent.confidence self) (Q2Qc (9 # 10)) then Ok true
  else Ok false.

End intent.

(* ===================================================================== *)
(** ** models/conversation.py *)
(* ===================================================================== *)

Module conversation.

Definition MIN_CONFIDENCE : Qc := 0.
Definition MAX_CONFIDENCE : Qc := 1.
Definition DEFAULT_HANDOFF_THRESHOLD : Qc := Q2Qc (7 # 10).
Definition MAX_RESPONSE_TIME_SLA : Qc := Qc_of_Z 500.  (* milliseconds *)

Inductive MessageDirection := INBOUND | OUTBOUND.

Definition MessageDirection_value (d : MessageDirection) : string :=
  match d with INBOUND => "inbound" | OUTBOUND => "outbound" end.

Inductive ConversationStatus := ACTIVE | HUMAN_NEEDED | COMPLETED | ARCHIVED.

#[global] Instance ConversationStatus_eq_dec : EqDecision ConversationStatus.
Proof. solve_decision. Defined.

Definition ConversationStatus_value (s : ConversationStatus) : string :=
  match s with
  | ACTIVE => "active"
  | HUMAN_NEEDED => "human_needed"
  | COMPLETED => "completed"
  | ARCHIVED => "archived"
  end.

(** [Intent(type=..., confidence=..., requires_human=...)]: this class
    has no [__init__] of its own. *)
Definition Intent_init {pydantic_lib : Pydantic} (data : Dict)
    : Result Intent.t :=
  pydantic.Intent_validate data.

(** [Intent.should_handoff(self)] *)
Definition Intent_should_handoff (self : Intent.t) : Result bool :=
  if Intent.requires_human self then Ok true
  else if Qc_ltb (Intent.confidence self) DEFAULT_HANDOFF_THRESHOLD then Ok true
  else if bool_decide (Intent.type self = REQUEST_HUMAN) then Ok true
  else
    rbind (lt_float (dict_get (Intent.metadata self) "sentiment_score"
                       (VFloat 1)) (Q2Qc (3 # 10)))
      (λ low_sentiment,
         if low_sentiment then Ok true
         else if truthy (dict_get (Intent.metadata self) "urgent" (VBool false))
         then Ok true
         else Ok false).

Module Message.
Record t := mk {
  id : UUID;
  conversation_id : UUID;
  content : str;
  direction : MessageDirection;
  ai_confidence : Qc;
  intent : option Intent.t;
  metadata : Dict;
  created_at : datetime;
  updated_at : datetime
}.

Definition set_intent (i : option Intent.t) (m : t) : t :=
  mk (id m) (conversation_id m) (content m) (direction m) (ai_confidence m)
     i (metadata m) (created_at m) (updated_at m).
End Message.

(** [Message(...)] with the keywords the service passes; [id] is a
    required field ([Field(...)]), [content] has [min_length=1] and
    [ai_confidence] is bounded.  The two timestamps default to the
    clock. *)
Definition Message_init (utcnow : datetime) (id : option UUID)
    (conversation_id : UUID) (content : str) (direction : MessageDirection)
    (ai_confidence : Qc) (intent : option Intent.t) : Result Message.t :=
  match id with
  | Some id =>
      if bool_decide (content = []) then
        Raise (pydantic.validation_error
                 "content: String should have at least 1 character")
      else if negb (Qc_leb MIN_CONFIDENCE ai_confidence
                    && Qc_leb ai_confidence MAX_CONFIDENCE) then
        Raise (pydantic.validation_error "ai_confidence: out of range")
      else Ok (Message.mk id conversation_id content direction ai_confidence
                 intent ∅ utcnow utcnow)
  | None => Raise (pydantic.validation_error "id: Field required")
  end.

Definition Intent_to_dict (i : Intent.t) : Val :=
  VDict (<["type" := VStr (lit (IntentType_value (Intent.type i)))]>
        (<["confidence" := VFloat (Intent.confidence i)]>
        (<["requires_human" := VBool (Intent.requires_human i)]>
        (<["metadata" := VDict (Intent.metadata i)]> ∅)))).

(** [Message.to_dict(self)] *)
Definition Message_to_dict (self : Message.t) : Val :=
  let data : Dict :=
    <["id" := VStr (lit (Message.id self))]>
    (<["conversation_id" := VStr (lit (Message.conversation_id self))]>
    (<["content" := VStr (Message.content self)]>
    (<["direction" :=
         VStr (lit (MessageDirection_value (Message.direction self)))]>
    (<["ai_confidence" := VFloat (Message.ai_confidence self)]>
    (<["metadata" := VDict (Message.metadata self)]>
    (<["created_at" := VStr (isoformat (Message.created_at self))]>
    (<["updated_at" := VStr (isoformat (Message.updated_at self))]> ∅)))))))
  in
  match Message.intent self with
  | Some i => VDict (<["intent" := Intent_to_dict i]> data)
  | None => VDict data
  end.

Module Conversation.
Record t := mk {
  id : UUID;
  lead_id : UUID;
  status : ConversationStatus;
  messages : list Message.t;
  current_intent : option Intent.t;
  human_agent_id : option UUID;
  ai_confidence_avg : Qc;
  metadata : Dict;
  created_at : datetime;
  updated_at : datetime
}.

Definition set_status (v : ConversationStatus) (c : t) : t :=
  mk (id c) (lead_id c) v (messages c) (current_intent c)
     (human_agent_id c) (ai_confidence_avg c) (metadata c) (created_at c)
     (updated_at c).
Definition set_messages (v : list Message.t) (c : t) : t :=
  mk (id c) (lead_id c) (status c) v (current_intent c)
     (human_agent_id c) (ai_confidence_avg c) (metadata c) (created_at c)
     (updated_at c).
Definition set_current_intent (v : option Intent.t) (c : t) : t :=
  mk (id c) (lead_id c) (status c) (messages c) v
     (human_agent_id c) (ai_confidence_avg c) (metadata c) (created_at c)
     (updated_at c).
Definition set_ai_confidence_avg (v : Qc) (c : t) : t :=
  mk (id c) (lead_id c) (status c) (messages c) (current_intent c)
     (human_agent_id c) v (metadata c) (created_at c) (updated_at c).
Definition set_updated_at (v : datetime) (c : t) : t :=
  mk (id c) (lead_id c) (status c) (messages c) (current_intent c)
     (human_agent_id c) (ai_confidence_avg c) (metadata c) (created_at c) v.
End Conversation.

(** [Conversation(id=..., lead_id=...)]: a conversation as the
    constructor's defaults leave it. *)
Definition Conversation_init (utcnow : datetime) (id lead_id : UUID)
    : Conversation.t :=
  Conversation.mk id lead_id ACTIVE [] None None 1 ∅ utcnow utcnow.

(** [Conversation.add_message(self, message)]: the statements of the
    method in order, [self] being the state. *)
Definition add_message (utcnow : datetime) (message : Message.t)
    : SE Conversation.t () :=
  self ← get_state;
  if bool_decide (Message.conversation_id message ≠ Conversation.id self)
  then raise (mkExc ValueError "Message belongs to different conversation")
  else
    (* self.messages.append(message) *)
    modify (λ self,
      Conversation.set_messages (Conversation.messages self ++ [message]) self);;
    self ← get_state;
    let message_count := Z.of_nat (length (Conversation.messages self)) in
    modify (Conversation.set_ai_confidence_avg
              ((Conversation.ai_confidence_avg self
                  * Qc_of_Z (message_count - 1)
                + Message.ai_confidence message)
               / Qc_of_Z message_count)%Qc);;
    match Message.intent message with
    | Some i =>
        modify (Conversation.set_current_intent (Some i));;
        handoff ← lift (Intent_should_handoff i);
        if handoff : bool
        then modify (Conversation.set_status HUMAN_NEEDED)
        else mret ()
    | None => mret ()
    end;;
    modify (Conversation.set_updated_at utcnow).

(** [Conversation.should_handoff(self)], the clock being read where the
    method reads it. *)
Definition Conversation_should_handoff (utcnow : datetime)
    (self : Conversation.t) : Result bool :=
  rbind (match Conversation.current_intent self with
         | Some i => Intent_should_handoff i
         | None => Ok false
         end)
    (λ by_intent,
       if by_intent then Ok true
       else if Qc_ltb (Conversation.ai_confidence_avg self)
                 DEFAULT_HANDOFF_THRESHOLD then Ok true
       else if bool_decide (Conversation.status self = HUMAN_NEEDED) then Ok true
       else match list.last (Conversation.messages self) with
            | Some last_message =>
                let response_time :=
                  timedelta_total_ms (utcnow - Message.created_at last_message) in
                Ok (Qc_ltb MAX_RESPONSE_TIME_SLA response_time)
            | None => Ok false
            end).

End conversation.

(* ===================================================================== *)
(** ** services/context_service.py *)
(* ===================================================================== *)

Module context_service.

Import conversation.

(** [self.circuit_breaker] *)
Record CircuitBreaker := mkCircuitBreaker {
  failures : Z;
  last_failure : option datetime;
  threshold : Z;
  reset_timeout : Z
}.

(** What a [ContextService] method can read and change: the fields of
    the object, the module-level error counter, and the world around it
    (the clock and the Redis server behind [self.redis_client]).  An
    entry of the server is a value with the instant it expires at;
    [redis_fault], when set, makes every command raise [RedisError] with
    that message; [redis_commands] counts the commands sent. *)
Record State := mkState {
  context_ttl : Z;
  compression_threshold : Z;
  version : string;
  circuit_breaker : CircuitBreaker;
  ERROR_COUNTER : Z;
  clock : datetime;
  redis : gmap string (str * datetime);
  redis_fault : option string;
  redis_commands : Z
}.

Definition set_circuit_breaker (v : CircuitBreaker) (s : State) : State :=
  mkState (context_ttl s) (compression_threshold s) (version s) v
    (ERROR_COUNTER s) (clock s) (redis s) (redis_fault s) (redis_commands s).
Definition set_ERROR_COUNTER (v : Z) (s : State) : State :=
  mkState (context_ttl s) (compression_threshold s) (version s)
    (circuit_breaker s) v (clock s) (redis s) (redis_fault s)
    (redis_commands s).
Definition set_clock (v : datetime) (s : State) : State :=
  mkState (context_ttl s) (compression_threshold s) (version s)
    (circuit_breaker s) (ERROR_COUNTER s) v (redis s) (redis_fault s)
    (redis_commands s).
Definition set_redis (v : gmap string (str * datetime)) (s : State) : State :=
  mkState (context_ttl s) (compression_threshold s) (version s)
    (circuit_breaker s) (ERROR_COUNTER s) (clock s) v (redis_fault s)
    (redis_commands s).
Definition set_redis_fault (v : option string) (s : State) : State :=
  mkState (context_ttl s) (compression_threshold s) (version s)
    (circuit_breaker s) (ERROR_COUNTER s) (clock s) (redis s) v
    (redis_commands s).
Definition set_redis_commands (v : Z) (s : State) : State :=
  mkState (context_ttl s) (compression_threshold s) (version s)
    (circuit_breaker s) (ERROR_COUNTER s) (clock s) (redis s) (redis_fault s) v.

(** [ContextService.__init__]: the service as the constructor leaves
    it, in front of a given server and clock. *)
Definition init (ttl : Z) (utcnow : datetime)
    (server : gmap string (str * datetime)) : State :=
  mkState ttl 1024 "1.0" (mkCircuitBreaker 0 None 3 30) 0 utcnow server None 0.

(** *** The Redis client *)

Definition redis_command {A} (run : State → A * State) : SE State A := λ s,
  let s := set_redis_commands (redis_commands s + 1) s in
  match redis_fault s with
  | Some msg => (Raise (mkExc RedisError msg), s)
  | None => let '(a, s') := run s in (Ok a, s')
  end.

(** [redis_client.get(key)]: [None] for a key that is absent or expired. *)
Definition redis_get (key : string) : SE State (option str) :=
  redis_command (λ s,
    (match redis s !! key with
     | Some (v, expires) => if clock s <? expires then Some v else None
     | None => None
     end, s)).

(** [redis_client.setex(key, ttl, value)], [ttl] in seconds. *)
Definition redis_setex (key : string) (ttl : Z) (value : str) : SE State bool :=
  redis_command (λ s,
    (true, set_redis (<[key := (value, clock s + ttl * 1000000)]> (redis s)) s)).

(** [redis_client.delete(key)]: the number of keys removed. *)
Definition redis_delete (key : string) : SE State Z :=
  redis_command (λ s,
    (match redis s !! key with
     | Some (v, expires) => if clock s <? expires then 1 else 0
     | None => 0
     end, set_redis (delete key (redis s)) s)).

(** *** The service *)

Definition utcnow : SE State datetime := λ s, (Ok (clock s), s).

Definition ERROR_COUNTER_inc : SE State () :=
  modify (λ s, set_ERROR_COUNTER (ERROR_COUNTER s + 1) s).

Definition context_key (self : State) (conversation_id : UUID) : string :=
  "context:" +:+ version self +:+ ":" +:+ conversation_id.

(** [ContextService._is_circuit_open(self)] *)
Definition _is_circuit_open : SE State bool :=
  self ← get_state;
  let cb := circuit_breaker self in
  match last_failure cb with
  | Some last =>
      if threshold cb <=? failures cb then
        now ← utcnow;
        let elapsed := timedelta_seconds (now - last) in
        if elapsed <? reset_timeout cb then mret true
        else
          modify (set_circuit_breaker
                    (mkCircuitBreaker 0 None (threshold cb) (reset_timeout cb)));;
          mret false
      else mret false
  | None => mret false
  end.

(** [ContextService._record_failure(self)] *)
Definition _record_failure : SE State () :=
  now ← utcnow;
  modify (λ self,
    let cb := circuit_breaker self in
    set_circuit_breaker
      (mkCircuitBreaker (failures cb + 1) (Some now) (threshold cb)
         (reset_timeout cb)) self).

(** The [except RedisError as e] clause the three operations share. *)
Definition on_RedisError {A} (what : string) (e : Exc) : SE State A :=
  ERROR_COUNTER_inc;;
  _record_failure;;
  raise (mkExc RedisError (what +:+ exc_msg e)).

Definition empty_context (now : datetime) : Val :=
  VDict (<["messages" := VList []]>
        (<["metadata" := VDict ∅]>
        (<["created_at" := VStr (isoformat now)]> ∅))).

Section WithLibraries.
Context {json_lib : Json} {zlib_lib : Zlib}.

(** The body of the inner [try] of [get_conversation_context]: the
    stored text, decompressed when it carries the prefix, and parsed. *)
Definition parse_raw_data (raw_data : str) : Result Val :=
  if startswith raw_data (lit "compressed:") then
    let compressed_data := slice_from 10 raw_data in   (* Remove prefix *)
    encoded ← encode compressed_data;
    context_data ← zlib_decompress encoded;
    json_loads_bytes context_data
  else json_loads raw_data.

(** [ContextService.get_conversation_context(self, conversation_id)] *)
Definition get_conversation_context (conversation_id : UUID) : SE State Val :=
  self ← get_state;
  let key := context_key self conversation_id in
  try_except
    (is_open ← _is_circuit_open;
     if is_open : bool then raise (mkExc RedisError "Circuit breaker is open")
     else
       raw_data ← redis_get key;
       match raw_data with
       | None | Some [] =>                       (* if not raw_data: *)
           now ← utcnow;
           mret (empty_context now)
       | Some raw_data =>
           try_except
             (lift (parse_raw_data raw_data))
             [JSONDecodeError; ZlibError]
             (λ e, ERROR_COUNTER_inc;;
                   raise (mkExc ValueError
                            ("Invalid context data: " +:+ exc_msg e)))
       end)
    [RedisError]
    (on_RedisError "Failed to retrieve context: ").

(** [ContextService.update_context(self, conversation_id, context)] *)
Definition update_context (conversation_id : UUID) (context : Val)
    : SE State bool :=
  self ← get_state;
  let key := context_key self conversation_id in
  try_except
    (match context with
     | VDict context =>
         now ← utcnow;
         let context :=
           <["version" := VStr (lit (version self))]>
             (<["updated_at" := VStr (isoformat now)]> context) in
         let context_data := json_dumps (VDict context) in
         let data_size := Z.of_nat (length context_data) in
         context_data ←
           (if compression_threshold self <? data_size then
              encoded ← lift (encode context_data);
              let compressed_data := zlib_compress encoded in
              let compression_ratio :=
                (Qc_of_Z (Z.of_nat (length compressed_data))
                 / Qc_of_Z data_size)%Qc in
              if Qc_ltb compression_ratio (Q2Qc (9 # 10)) then
                decoded ← lift (decode compressed_data);
                mret (lit "compressed:" ++ decoded)
              else mret context_data
            else mret context_data);
         success ← redis_setex key (context_ttl self) context_data;
         mret success
     | _ => raise (mkExc ValueError "Context must be a dictionary")
     end)
    [RedisError]
    (on_RedisError "Failed to update context: ").

End WithLibraries.

(** [ContextService.clear_context(self, conversation_id)] *)
Definition clear_context (conversation_id : UUID) : SE State bool :=
  self ← get_state;
  let key := context_key self conversation_id in
  try_except
    (success ← redis_delete key;
     mret (negb (success =? 0)))
    [RedisError]
    (on_RedisError "Failed to clear context: ").

(** The entry [build_context] makes of one message. *)
Definition message_summary (msg : Message.t) : Val :=
  VDict (<["content" := VStr (Message.content msg)]>
        (<["direction" :=
             VStr (lit (MessageDirection_value (Message.direction msg)))]>
        (<["created_at" := VStr (isoformat (Message.created_at msg))]>
        (<["ai_confidence" := VFloat (Message.ai_confidence msg)]> ∅)))).

(** [ContextService.build_context(self, conversation)]: the method
    reads nothing of [self]; [utcnow] is the clock reading it stamps the
    result with. *)
Definition build_context (utcnow : datetime) (conversation : Conversation.t)
    : Val :=
  let metadata : Dict :=
    <["lead_id" := VStr (lit (Conversation.lead_id conversation))]>
    (<["status" :=
         VStr (lit (ConversationStatus_value (Conversation.status conversation)))]>
    (<["ai_confidence_avg" :=
         VFloat (Conversation.ai_confidence_avg conversation)]>
    (<["message_count" :=
         VInt (Z.of_nat (length (Conversation.messages conversation)))]> ∅)))
  in
  let metadata :=
    match Conversation.current_intent conversation with
    | Some i =>
        <["current_intent" :=
            VDict (<["type" := VStr (lit (IntentType_value (Intent.type i)))]>
                  (<["confidence" := VFloat (Intent.confidence i)]> ∅))]>
          metadata
    | None => metadata
    end in
  VDict (<["messages" :=
            VList (message_summary
                     <$> slice_from (-10) (Conversation.messages conversation))]>
        (<["metadata" := VDict metadata]>
        (<["created_at" := VStr (isoformat utcnow)]> ∅))).

End context_service.

(* ===================================================================== *)
(** ** services/llm_service.py *)
(* ===================================================================== *)

Module llm_service.

Import conversation.

(** What an [LLMService] method can read and change: the fields of the
    object, the [ContextService] it holds (with the world behind it),
    the error counter by label, the inbound message object the caller
    passed, and the calls made to the provider so far. *)
Record State := mkState {
  model : string;
  temperature : Qc;
  max_tokens : Z;
  context_service : context_service.State;
  API_ERRORS : gmap string Z;
  inbound : option Message.t;
  requests : list ChatRequest
}.

Definition set_context_service (v : context_service.State) (s : State) : State :=
  mkState (model s) (temperature s) (max_tokens s) v (API_ERRORS s)
    (inbound s) (requests s).
Definition set_API_ERRORS (v : gmap string Z) (s : State) : State :=
  mkState (model s) (temperature s) (max_tokens s) (context_service s) v
    (inbound s) (requests s).
Definition set_inbound (v : option Message.t) (s : State) : State :=
  mkState (model s) (temperature s) (max_tokens s) (context_service s)
    (API_ERRORS s) v (requests s).
Definition set_requests (v : list ChatRequest) (s : State) : State :=
  mkState (model s) (temperature s) (max_tokens s) (context_service s)
    (API_ERRORS s) (inbound s) v.

(** A [ContextService] method called through [self.context_service]. *)
Definition with_context_service {A} (m : SE context_service.State A)
    : SE State A := λ s,
  let '(r, cs) := m (context_service s) in (r, set_context_service cs s).

Definition API_ERRORS_inc (error_type : string) : SE State () :=
  modify (λ s,
    set_API_ERRORS
      (<[error_type := default 0 (API_ERRORS s !! error_type) + 1]>
         (API_ERRORS s)) s).

(** [except openai.error.APIError: API_ERRORS.labels(...).inc(); raise] *)
Definition count_and_reraise {A} (error_type : string) (e : Exc) : SE State A :=
  API_ERRORS_inc error_type;; raise e.

(** [seq[-5:]] on whatever [context['messages']] holds. *)
Definition last_five (v : Val) : Result Val :=
  match v with
  | VList l => Ok (VList (slice_from (-5) l))
  | VStr s => Ok (VStr (slice_from (-5) s))
  | _ => Raise (mkExc TypeError "object is not subscriptable")
  end.

(** [seq.append(x)] on whatever [context['messages']] holds, the
    context being updated in place. *)
Definition messages_append (context x : Val) : Result Val :=
  rbind (getitem context "messages") (λ messages,
    match context, messages with
    | VDict d, VList l => Ok (VDict (<["messages" := VList (l ++ [x])]> d))
    | _, _ => Raise (mkExc AttributeError "object has no attribute 'append'")
    end).

(** The fixed text of the handoff reply. *)
Definition HANDOFF_REPLY : str := lit "Connecting you with a human agent...".

Section WithLibraries.
Context {pydantic_lib : Pydantic} {json_lib : Json} {zlib_lib : Zlib}
  {openai_lib : OpenAI}.

Definition chat (request : ChatRequest) : SE State str := λ s,
  (acreate (length (requests s)) request,
   set_requests (requests s ++ [request]) s).

(** The body of the inner [try] of [classify_intent]: the reply is
    parsed, its three entries are taken out and the [Intent] is made of
    them. *)
Definition parse_classification (content : str) : Result Intent.t :=
  result ← json_loads content;
  type ← getitem result "type";
  confidence ← getitem result "confidence";
  requires_human ← getitem result "requires_human";
  Intent_init (<["type" := type]>
              (<["confidence" := confidence]>
              (<["requires_human" := requires_human]> ∅))).

(** [Intent(type=IntentType.UNKNOWN, confidence=0.0, requires_human=True)] *)
Definition fallback_intent : Result Intent.t :=
  Intent_init (<["type" := VStr (lit (IntentType_value UNKNOWN))]>
              (<["confidence" := VFloat 0]>
              (<["requires_human" := VBool true]> ∅))).

(** [LLMService.classify_intent(self, message_content, context)] *)
Definition classify_intent (message_content : str) (context : Val)
    : SE State Intent.t :=
  try_except
    (self ← get_state;
     messages ← lift (getitem context "messages");
     recent ← lift (last_five messages);
     content ← chat (ClassifierRequest (model self) message_content
                       (json_dumps recent) (Q2Qc (3 # 10)) 50);
     try_except
       (lift (parse_classification content))
       [JSONDecodeError; KeyError]
       (λ _, lift fallback_intent))
    [APIError]
    (count_and_reraise "classification_error").

(** [LLMService.generate_response(self, message_content, intent, context)] *)
Definition generate_response (message_content : str) (intent : Intent.t)
    (context : Val) : SE State str :=
  try_except
    (self ← get_state;
     messages ← lift (getitem context "messages");
     recent ← lift (last_five messages);
     content ← chat (AssistantRequest (model self) message_content
                       (IntentType_value (Intent.type intent))
                       (json_dumps recent) (temperature self) (max_tokens self));
     let response_text := strip content in
     if bool_decide (response_text = [])
     then raise (mkExc ValueError "Empty response from LLM")
     else mret response_text)
    [APIError]
    (count_and_reraise "generation_error").

(** The body of [LLMService.process_message(self, message, conversation)]:
    one attempt.  The inbound message is the object in [inbound]. *)
Definition process_message_attempt (message : Message.t)
    (conversation : Conversation.t) : SE State (Message.t * Intent.t) :=
  try_except2
    (context ← with_context_service
                 (context_service.get_conversation_context
                    (Conversation.id conversation));
     intent ← classify_intent (Message.content message) context;
     (* message.intent = intent *)
     let message := Message.set_intent (Some intent) message in
     modify (set_inbound (Some message));;
     (* intent.confidence >= 0.7 and not intent.should_handoff() *)
     confident ←
       (if Qc_leb (Q2Qc (7 # 10)) (Intent.confidence intent) then
          handoff ← lift (Intent_should_handoff intent);
          mret (negb handoff)
        else mret false);
     response ←
       (if confident : bool then
          response_text ←
            generate_response (Message.content message) intent context;
          now ← with_context_service context_service.utcnow;
          lift (Message_init now None (Conversation.id conversation)
                  response_text OUTBOUND (Intent.confidence intent)
                  (Some intent))
        else
          (* Handoff to human agent *)
          now ← with_context_service context_service.utcnow;
          lift (Message_init now None (Conversation.id conversation)
                  HANDOFF_REPLY OUTBOUND (Intent.confidence intent)
                  (Some intent)));
     context ← lift (messages_append context (Message_to_dict message));
     context ← lift (messages_append context (Message_to_dict response));
     with_context_service
       (context_service.update_context (Conversation.id conversation)
          context);;
     mret (response, intent))
    [APIError] (count_and_reraise "api_error")
    [Exception] (count_and_reraise "processing_error").

(** [time.sleep]: the clock moves on by the given number of seconds. *)
Definition sleep (seconds : Z) : SE State () :=
  with_context_service
    (modify (λ s,
       context_service.set_clock
         (context_service.clock s + seconds * 1000000) s)).

(** [@retry(stop=stop_after_attempt(3), wait=wait_exponential(multiplier=1,
    min=4, max=10), retry=retry_if_exception_type(openai.error.APIError))]:
    the attempt is run again after an [APIError], after a wait of
    [2^(n-1)] seconds clipped to between 4 and 10; when the last attempt
    fails in that way too, [RetryError] is raised. *)
Fixpoint retrying {A} (attempts_left : nat) (attempt_number : Z)
    (attempt : SE State A) : SE State A :=
  match attempts_left with
  | O => raise (mkExc RetryError "RetryError")
  | S n =>
      try_except attempt [APIError]
        (λ e,
           match n with
           | O => raise (mkExc RetryError "RetryError")
           | _ => sleep (4 `max` (2 ^ (attempt_number - 1) `min` 10));;
                  retrying n (attempt_number + 1) attempt
           end)
  end.

(** [LLMService.process_message(self, message, conversation)] *)
Definition process_message (message : Message.t)
    (conversation : Conversation.t) : SE State (Message.t * Intent.t) :=
  modify (set_inbound (Some message));;
  retrying 3 1 (process_message_attempt message conversation).

End WithLibraries.

End llm_service.

(* ===================================================================== *)
(** ** Reference instances of the library interfaces *)
(* ===================================================================== *)

(** Small executable instances, used to run the service on concrete
    inputs.  [json] reads and writes JSON text with Python's default
    separators and ASCII escapes; [zlib] is a run-length codec behind the
    two-byte header [78 9C] of a zlib stream at the default level, which
    stands in for DEFLATE; [scripted] answers the n-th provider call from
    a list. *)
Module Reference.

(** *** Numbers *)

Fixpoint decimal_digits (fuel : nat) (n : Z) (acc : str) : str :=
  match fuel with
  | O => acc
  | S fuel =>
      let acc := digit n :: acc in
      if n <? 10 then acc else decimal_digits fuel (n / 10) acc
  end.

Definition decimal (n : Z) : str :=
  let a := Z.abs n in
  (if n <? 0 then lit "-" else []) ++ decimal_digits (S (Z.to_nat (Z.log2 a))) a [].

(** The digits after the point of a fraction in [0, 1), at most [fuel]
    of them and at least one. *)
Fixpoint fraction_digits (fuel : nat) (num den : Z) : str :=
  match fuel with
  | O => []
  | S fuel =>
      let d := (num * 10) / den in
      let r := (num * 10) mod den in
      digit d :: (if r =? 0 then [] else fraction_digits fuel r den)
  end.

Definition float_repr (q : Qc) : str :=
  let n := Qnum q in
  let d := Z.pos (Qden q) in
  let a := Z.abs n in
  (if n <? 0 then lit "-" else [])
  ++ decimal (a / d) ++ lit "." ++ fraction_digits 17 (a mod d) d.

Fixpoint take_digits (s : str) : list Z * str :=
  match s with
  | c :: r =>
      if ((48 <=? c) && (c <=? 57))%N
      then let '(ds, r') := take_digits r in (Z.of_N c - 48 :: ds, r')
      else ([], s)
  | [] => ([], [])
  end.

Definition digits_value (ds : list Z) : Z := foldl (λ acc d, acc * 10 + d) 0 ds.

(** A JSON number at the head of [s]: an [int], or a [float] when it
    has a fraction or an exponent. *)
Definition parse_number (s : str) : option (Val * str) :=
  let '(neg, s) := match s with 45%N :: r => (true, r) | _ => (false, s) end in
  let '(int_ds, s) := take_digits s in
  match int_ds with
  | [] => None
  | d0 :: rest_ds =>
      if (d0 =? 0) && negb (bool_decide (rest_ds = [])) then None else
      let sign := if neg : bool then -1 else 1 in
      let '(frac_ds, s, has_frac) :=
        match s with
        | 46%N :: r => let '(ds, r') := take_digits r in (ds, r', true)
        | _ => ([], s, false)
        end in
      if has_frac && bool_decide (frac_ds = []) then None else
      let '(exp, s, has_exp, exp_ok) :=
        match s with
        | (101 | 69)%N :: r =>
            let '(eneg, r) :=
              match r with
              | 45%N :: r' => (true, r')
              | 43%N :: r' => (false, r')
              | _ => (false, r)
              end in
            let '(ds, r') := take_digits r in
            ((if eneg : bool then -1 else 1) * digits_value ds, r', true,
             negb (bool_decide (ds = [])))
        | _ => (0, s, false, true)
        end in
      if negb exp_ok then None
      else if has_frac || has_exp then
        let mantissa :=
          (inject_Z (digits_value (int_ds ++ frac_ds))
           * Qpower 10 (exp - Z.of_nat (length frac_ds)))%Q in
        Some (VFloat (Q2Qc (inject_Z sign * mantissa)), s)
      else Some (VInt (sign * digits_value int_ds), s)
  end.

Definition pydantic : Pydantic := {|
  str_as_float s :=
    match parse_number (strip s) with
    | Some (VFloat q, []) => Some q
    | Some (VInt z, []) => Some (Qc_of_Z z)
    | _ => None
    end
|}.

(** *** JSON text *)

Definition hex_digit (n : N) : N := (if n <? 10 then 48 + n else 87 + n)%N.

Definition u_escape (c : N) : str :=
  [92; 117; hex_digit (c / 4096); hex_digit ((c / 256) mod 16);
   hex_digit ((c / 16) mod 16); hex_digit (c mod 16)]%N.

Definition escape (c : N) : str :=
  (if c =? 34 then [92; 34]
   else if c =? 92 then [92; 92]
   else if c =? 10 then [92; 110]
   else if c =? 13 then [92; 114]
   else if c =? 9 then [92; 116]
   else if c =? 8 then [92; 98]
   else if c =? 12 then [92; 102]
   else if (32 <=? c) && (c <=? 126) then [c]
   else if c <? 65536 then u_escape c
   else u_escape (55296 + (c - 65536) / 1024)
        ++ u_escape (56320 + (c - 65536) mod 1024))%N.

Definition quoted (s : str) : str := [34%N] ++ (s ≫= escape) ++ [34%N].

Fixpoint join (sep : str) (parts : list str) : str :=
  match parts with
  | [] => []
  | [p] => p
  | p :: rest => p ++ sep ++ join sep rest
  end.

Fixpoint dumps (v : Val) : str :=
  match v with
  | VNone => lit "null"
  | VBool b => if b then lit "true" else lit "false"
  | VInt z => decimal z
  | VFloat q => float_repr q
  | VStr s => quoted s
  | VList l => lit "[" ++ join (lit ", ") (dumps <$> l) ++ lit "]"
  | VDict d =>
      lit "{"
      ++ join (lit ", ")
           (map_fold (λ k x acc, (quoted (lit k) ++ lit ": " ++ dumps x) :: acc)
              [] d)
      ++ lit "}"
  end.

Fixpoint skip_ws (s : str) : str :=
  match s with
  | c :: r => if ((c =? 32) || (c =? 9) || (c =? 10) || (c =? 13))%N
              then skip_ws r else s
  | [] => []
  end.

Definition hex_value (c : N) : option N :=
  (if (48 <=? c) && (c <=? 57) then Some (c - 48)
   else if (97 <=? c) && (c <=? 102) then Some (c - 87)
   else if (65 <=? c) && (c <=? 70) then Some (c - 55)
   else None)%N.

(** The characters of a string literal after its opening quote. *)
Fixpoint parse_chars (s : str) : option (str * str) :=
  match s with
  | 34%N :: r => Some ([], r)
  | 92%N :: 117%N :: a :: b :: c :: d :: r =>
      a ← hex_value a; b ← hex_value b; c ← hex_value c; d ← hex_value d;
      '(cs, r') ← parse_chars r;
      Some ((a * 4096 + b * 256 + c * 16 + d)%N :: cs, r')
  | 92%N :: e :: r =>
      c ← (if e =? 34 then Some 34 else if e =? 92 then Some 92
           else if e =? 47 then Some 47 else if e =? 98 then Some 8
           else if e =? 102 then Some 12 else if e =? 110 then Some 10
           else if e =? 114 then Some 13 else if e =? 116 then Some 9
           else None)%N;
      '(cs, r') ← parse_chars r;
      Some (c :: cs, r')
  | c :: r =>
      if (c <? 32)%N then None
      else '(cs, r') ← parse_chars r; Some (c :: cs, r')
  | [] => None
  end.

Definition key_of_str (s : str) : string :=
  String.string_of_list_ascii (Ascii.ascii_of_N <$> s).

Fixpoint parse_elements (n : nat) (value : str → option (Val * str)) (s : str)
    : option (list Val * str) :=
  match n with
  | O => None
  | S n =>
      '(v, r) ← value s;
      match skip_ws r with
      | 44%N :: r' => '(vs, r'') ← parse_elements n value r'; Some (v :: vs, r'')
      | 93%N :: r' => Some ([v], r')
      | _ => None
      end
  end.

Fixpoint parse_members (n : nat) (value : str → option (Val * str)) (s : str)
    : option (Dict * str) :=
  match n with
  | O => None
  | S n =>
      match skip_ws s with
      | 34%N :: r =>
          '(k, r) ← parse_chars r;
          match skip_ws r with
          | 58%N :: r =>
              '(v, r) ← value r;
              match skip_ws r with
              | 44%N :: r' =>
                  '(d, r'') ← parse_members n value r';
                  Some (<[key_of_str k := v]> d, r'')
              | 125%N :: r' => Some ({[key_of_str k := v]}, r')
              | _ => None
              end
          | _ => None
          end
      | _ => None
      end
  end.

Fixpoint parse_value (fuel : nat) (s : str) : option (Val * str) :=
  match fuel with
  | O => None
  | S fuel =>
      match skip_ws s with
      | 110 :: 117 :: 108 :: 108 :: r => Some (VNone, r)
      | 116 :: 114 :: 117 :: 101 :: r => Some (VBool true, r)
      | 102 :: 97 :: 108 :: 115 :: 101 :: r => Some (VBool false, r)
      | 34 :: r => '(cs, r') ← parse_chars r; Some (VStr cs, r')
      | 91 :: r =>
          match skip_ws r with
          | 93 :: r' => Some (VList [], r')
          | _ => '(vs, r') ← parse_elements (S (length r)) (parse_value fuel) r;
                 Some (VList vs, r')
          end
      | 123 :: r =>
          match skip_ws r with
          | 125 :: r' => Some (VDict ∅, r')
          | _ => '(d, r') ← parse_members (S (length r)) (parse_value fuel) r;
                 Some (VDict d, r')
          end
      | s' => parse_number s'
      end%N
  end.

Definition loads (s : str) : string + Val :=
  match parse_value (S (length s)) s with
  | Some (v, r) => if bool_decide (skip_ws r = []) then inr v else inl "Extra data"
  | None => inl "Expecting value"
  end.

Definition json : Json := {|
  json_dumps := dumps;
  json_decode := loads
|}.

(** A text written with ['] where it has the double quote. *)
Definition quotes (s : string) : str :=
  lit s ≫= λ c, if (c =? 39)%N then [34%N] else [c].

(** *** A run-length codec behind a zlib header *)

Fixpoint run_length (b : bytes) : list (N * N) :=
  match b with
  | [] => []
  | x :: r =>
      match run_length r with
      | (n, y) :: runs =>
          if ((x =? y) && (n <? 255))%N then (n + 1, y)%N :: runs
          else (1%N, x) :: (n, y) :: runs
      | [] => [(1%N, x)]
      end
  end.

Definition compress (b : bytes) : bytes :=
  [120; 156]%N ++ (run_length b ≫= λ '(n, x), [n; x]).

Fixpoint expand (b : bytes) : option bytes :=
  match b with
  | n :: x :: r => (replicate (N.to_nat n) x ++.) <$> expand r
  | [] => Some []
  | [_] => None
  end.

Definition decompress (b : bytes) : string + bytes :=
  match b with
  | 120%N :: 156%N :: r =>
      match expand r with
      | Some d => inr d
      | None => inl "incomplete or truncated stream"
      end
  | _ => inl "incorrect header check"
  end.

Definition zlib : Zlib := {|
  zlib_compress := compress;
  zlib_inflate := decompress
|}.

(** *** A provider that answers from a script *)

Definition scripted (script : list (Result str)) : OpenAI := {|
  acreate n _ :=
    default (Raise (mkExc APIError "The server is overloaded")) (script !! n)
|}.

End Reference.

(* ===================================================================== *)
(** ** The intent-level handoff rule *)
(* ===================================================================== *)

Module handoff_rule.

(** The rule as the specification words it: true when ANY of the six
    conditions holds.  A metadata condition holds for a declared value
    only; [True == 1 == 1.0] in Python. *)
Definition spec_shouldHandoff (i : Intent.t) (threshold : Qc) : bool :=
  Intent.requires_human i
  || Qc_ltb (Intent.confidence i) threshold
  || bool_decide (Intent.type i = REQUEST_HUMAN)
  || bool_decide (Intent.type i = COMPLAINT)
     && Qc_ltb (Intent.confidence i) (Q2Qc (9 # 10))
  || match Intent.metadata i !! "sentiment_score" with
     | Some v => match lt_float v (Q2Qc (3 # 10)) with
                 | Ok b => b
                 | Raise _ => false
                 end
     | None => false
     end
  || match Intent.metadata i !! "urgent" with
     | Some (VBool b) => b
     | Some (VInt z) => z =? 1
     | Some (VFloat q) => bool_decide (q = 1%Qc)
     | _ => false
     end.

Definition in_unit_interval (q : Qc) : Prop := (0 <= q)%Qc ∧ (q <= 1)%Qc.

Lemma Qc_ltb_true (x y : Qc) : Qc_ltb x y = true ↔ (x < y)%Qc.
Proof. unfold Qc_ltb. apply bool_decide_eq_true. Qed.

Lemma Qc_ltb_false (x y : Qc) : Qc_ltb x y = false ↔ ¬ (x < y)%Qc.
Proof. unfold Qc_ltb. apply bool_decide_eq_false. Qed.

Lemma Qc_leb_true (x y : Qc) : Qc_leb x y = true ↔ (x <= y)%Qc.
Proof. unfold Qc_leb. apply bool_decide_eq_true. Qed.

Lemma Qc_leb_false (x y : Qc) : Qc_leb x y = false ↔ (y < x)%Qc.
Proof.
  unfold Qc_leb. rewrite bool_decide_eq_false. split.
  - apply Qcnot_le_lt.
  - apply Qclt_not_le.
Qed.

(** What [models/intent.py] computes: the first four conditions, and
    nothing about metadata. *)
Lemma intent_should_handoff_rules (i : Intent.t) (threshold : Qc) :
  in_unit_interval threshold →
  ∃ b, intent.should_handoff i threshold = Ok b
       ∧ (b = true ↔
            Intent.requires_human i = true
            ∨ (Intent.confidence i < threshold)%Qc
            ∨ Intent.type i = REQUEST_HUMAN
            ∨ (Intent.type i = COMPLAINT
               ∧ (Intent.confidence i < Q2Qc (9 # 10))%Qc)).
Proof.
  intros [Hlo Hhi]. unfold intent.should_handoff.
  apply Qc_leb_true in Hlo, Hhi. rewrite Hlo, Hhi. simpl.
  destruct (Intent.requires_human i) eqn:Hh.
  { exists true. split; [done | tauto]. }
  destruct (Qc_ltb (Intent.confidence i) threshold) eqn:Hc.
  { exists true. split; [done |]. apply Qc_ltb_true in Hc. tauto. }
  apply Qc_ltb_false in Hc.
  case_bool_decide as Hr.
  { exists true. split; [done | tauto]. }
  case_bool_decide as Hcomp; simpl.
  - destruct (Qc_ltb (Intent.confidence i) (Q2Qc (9 # 10))) eqn:H9.
    + exists true. split; [done |]. apply Qc_ltb_true in H9. tauto.
    + apply Qc_ltb_false in H9. exists false. split; [done |].
      split; [done |]. intros [? | [? | [? | [_ ?]]]]; done.
  - exists false. split; [done |].
    split; [done |]. intros [? | [? | [? | [? _]]]]; done.
Qed.

(** What [models/conversation.py] computes when no metadata is
    declared: the first three conditions at the fixed threshold. *)
Lemma conversation_should_handoff_plain (i : Intent.t) :
  Intent.metadata i !! "sentiment_score" = None →
  Intent.metadata i !! "urgent" = None →
  conversation.Intent_should_handoff i
  = Ok (Intent.requires_human i
        || Qc_ltb (Intent.confidence i) (Q2Qc (7 # 10))
        || bool_decide (Intent.type i = REQUEST_HUMAN)).
Proof.
  intros Hs Hu. unfold conversation.Intent_should_handoff, dict_get.
  rewrite Hs, Hu. simpl.
  destruct (Intent.requires_human i); [done |].
  unfold conversation.DEFAULT_HANDOFF_THRESHOLD.
  destruct (Qc_ltb (Intent.confidence i) (Q2Qc (7 # 10))); [done |].
  case_bool_decide; done.
Qed.

(** The keywords of a complaint classified at 0.85, and of a question
    classified at 0.95 whose metadata declares it urgent. *)
Definition complaint_085 : Dict :=
  <["type" := VStr (lit "complaint")]>
  (<["confidence" := VFloat (Q2Qc (17 # 20))]>
  (<["requires_human" := VBool false]> ∅)).

Definition urgent_question : Dict :=
  <["type" := VStr (lit "question")]>
  (<["confidence" := VFloat (Q2Qc (19 # 20))]>
  (<["requires_human" := VBool false]>
  (<["metadata" := VDict {["urgent" := VBool true]}]> ∅))).

(** C1.  The two [should_handoff] definitions do not compute one rule
    set.  On a complaint classified at 0.85, the six-condition rule and
    [models/intent.py] hand off while [models/conversation.py] does not;
    on a confident question whose metadata declares [urgent], the
    six-condition rule and [models/conversation.py] hand off while
    [models/intent.py] does not.  Neither definition is the rule. *)
Theorem should_handoff_definitions_disagree {pydantic_lib : Pydantic}
    (utcnow : datetime) :
  let threshold := Q2Qc (7 # 10) in
  (∃ i, intent.Intent_init utcnow complaint_085 = Ok i
        ∧ spec_shouldHandoff i threshold = true
        ∧ intent.should_handoff i threshold = Ok true)
  ∧ (∃ i, conversation.Intent_init complaint_085 = Ok i
          ∧ spec_shouldHandoff i threshold = true
          ∧ conversation.Intent_should_handoff i = Ok false)
  ∧ (∃ i, intent.Intent_init utcnow urgent_question = Ok i
          ∧ spec_shouldHandoff i threshold = true
          ∧ intent.should_handoff i threshold = Ok false)
  ∧ (∃ i, conversation.Intent_init urgent_question = Ok i
          ∧ spec_shouldHandoff i threshold = true
          ∧ conversation.Intent_should_handoff i = Ok true).
Proof.
  repeat split; eexists; (split; [reflexivity | split; reflexivity]).
Qed.

End handoff_rule.

(* ===================================================================== *)
(** ** Construction of an [Intent] in models/intent.py *)
(* ===================================================================== *)

Module intent_facts.

Lemma Intent_validate_metadata {pydantic_lib : Pydantic} (data : Dict)
    (d : Dict) (i : Intent.t) :
  data !! "metadata" = Some (VDict d) →
  pydantic.Intent_validate data = Ok i →
  Intent.metadata i = d.
Proof.
  intros Hm. unfold pydantic.Intent_validate. rewrite Hm. simpl.
  destruct (data !! "type" ≫= pydantic.IntentType_field); [| done].
  destruct (data !! "confidence" ≫= pydantic.unit_float_field); [| done].
  destruct (match data !! "requires_human" with
            | Some v => pydantic.bool_field v
            | None => Some false
            end); [| done].
  intros [= <-]. done.
Qed.

(** C10.  Every [Intent] the constructor of [models/intent.py] returns
    carries, in its metadata, [created_at] (the clock reading in ISO
    format) and [model_version] equal to ['1.0.0'], whatever the caller
    passed as metadata, values under these two keys included; its
    metadata is therefore never empty. *)
Theorem Intent_init_stamps_metadata {pydantic_lib : Pydantic} (utcnow : datetime)
    (data : Dict) (i : Intent.t) :
  intent.Intent_init utcnow data = Ok i →
  Intent.metadata i !! "created_at" = Some (VStr (isoformat utcnow))
  ∧ Intent.metadata i !! "model_version" = Some (VStr (lit "1.0.0"))
  ∧ Intent.metadata i ≠ ∅.
Proof.
  unfold intent.Intent_init. intros Hinit.
  destruct (dict_get data "metadata" (VDict ∅)) as [| | | | | |d]; try done.
  apply Intent_validate_metadata
    with (d := <["model_version" := VStr (lit "1.0.0")]>
                 (<["created_at" := VStr (isoformat utcnow)]> d)) in Hinit;
    [| apply lookup_insert_eq].
  rewrite Hinit. split; [| split].
  - rewrite lookup_insert_ne by done. apply lookup_insert_eq.
  - apply lookup_insert_eq.
  - apply insert_non_empty.
Qed.

(** A caller that passes its own [created_at] and [model_version]. *)
Definition conflicting_keywords : Dict :=
  <["type" := VStr (lit "question")]>
  (<["confidence" := VFloat (Q2Qc (17 # 20))]>
  (<["metadata" :=
       VDict (<["model_version" := VStr (lit "9.9.9")]>
             (<["created_at" := VStr (lit "yesterday")]>
             (<["processing_time_ms" := VInt 150]> ∅)))]> ∅)).

Definition conflicting_intent : Intent.t :=
  Intent.mk QUESTION (Q2Qc (17 # 20)) false
    (<["model_version" := VStr (lit "1.0.0")]>
    (<["created_at" := VStr (lit "2024-02-29T12:34:56.000250")]>
    (<["processing_time_ms" := VInt 150]> ∅))).

#[local] Existing Instance Reference.pydantic.

Lemma Intent_init_stamps_metadata_witness :
  intent.Intent_init 1709210096000250 conflicting_keywords
  = Ok conflicting_intent
  ∧ Intent.metadata conflicting_intent !! "created_at"
    = Some (VStr (isoformat 1709210096000250))
  ∧ Intent.metadata conflicting_intent !! "model_version"
    = Some (VStr (lit "1.0.0"))
  ∧ Intent.metadata conflicting_intent ≠ ∅.
Proof.
  split; [vm_compute; reflexivity |].
  apply (Intent_init_stamps_metadata 1709210096000250 conflicting_keywords
           conflicting_intent).
  vm_compute. reflexivity.
Defined.

(** Without a metadata keyword the two stamps are all there is; a
    metadata keyword that is not a dict, [None] included, is an
    [AttributeError] and no [Intent] is made. *)
Example Intent_init_defaults {pydantic_lib : Pydantic} (utcnow : datetime) :
  intent.Intent_init utcnow
    (<["type" := VStr (lit "greeting")]> (<["confidence" := VInt 1]> ∅))
  = Ok (Intent.mk GREETING 1 false
          (<["model_version" := VStr (lit "1.0.0")]>
          (<["created_at" := VStr (isoformat utcnow)]> ∅)))
  ∧ is_ok (intent.Intent_init utcnow
             (<["type" := VStr (lit "greeting")]>
             (<["confidence" := VInt 1]>
             (<["metadata" := VNone]> ∅)))) = false.
Proof. split; reflexivity. Qed.

End intent_facts.

(* ===================================================================== *)
(** ** The conversation aggregate *)
(* ===================================================================== *)

Module conversation_facts.

Import conversation.

Definition confidence_sum (ms : list Message.t) : Qc :=
  foldr (λ m acc, Message.ai_confidence m + acc)%Qc 0%Qc ms.

(** The conversation after a series of [add_message] calls, each made
    at its own instant, whatever each call returned. *)
Definition after_calls (calls : list (datetime * Message.t))
    (c : Conversation.t) : Conversation.t :=
  foldl (λ c '(utcnow, m), (add_message utcnow m c).2) c calls.

Lemma Qc_of_Z_plus (a b : Z) : Qc_of_Z (a + b) = (Qc_of_Z a + Qc_of_Z b)%Qc.
Proof.
  unfold Qc_of_Z. apply Qc_is_canon. simpl.
  rewrite !Qred_correct. rewrite inject_Z_plus. reflexivity.
Qed.

Lemma Qc_of_Z_nonzero (a : Z) : a ≠ 0 → Qc_of_Z a ≠ 0%Qc.
Proof.
  intros Ha Hq. apply Ha. unfold Qc_of_Z in Hq.
  apply (f_equal this) in Hq. simpl in Hq.
  assert (Hz : inject_Z a == 0)
    by (rewrite <- (Qred_correct (inject_Z a)), Hq; reflexivity).
  unfold Qeq in Hz. simpl in Hz. lia.
Qed.

Lemma confidence_sum_snoc (ms : list Message.t) (m : Message.t) :
  confidence_sum (ms ++ [m]) = (confidence_sum ms + Message.ai_confidence m)%Qc.
Proof.
  unfold confidence_sum. induction ms as [| x ms IH]; simpl.
  - ring.
  - rewrite IH. ring.
Qed.

(** What a call does to the message list and to the average: nothing
    for a message of another conversation, and otherwise the append and
    the re-weighting, whether or not the call then runs to its end. *)
Lemma add_message_state (utcnow : datetime) (m : Message.t) (c : Conversation.t) :
  let c' := (add_message utcnow m c).2 in
  Conversation.id c' = Conversation.id c
  ∧ if bool_decide (Message.conversation_id m ≠ Conversation.id c)
    then c' = c
    else Conversation.messages c' = Conversation.messages c ++ [m]
         ∧ Conversation.ai_confidence_avg c'
           = ((Conversation.ai_confidence_avg c
                 * Qc_of_Z (Z.of_nat (length (Conversation.messages c)))
               + Message.ai_confidence m)
              / Qc_of_Z (Z.of_nat (length (Conversation.messages c)) + 1))%Qc.
Proof.
  unfold add_message, mbind, SE_bind, get_state, modify, raise, lift, mret, SE_ret.
  case_bool_decide as Hid; simpl; [done |].
  rewrite length_app. simpl.
  replace (Z.of_nat (length (Conversation.messages c) + 1) - 1)
    with (Z.of_nat (length (Conversation.messages c))) by lia.
  replace (Z.of_nat (length (Conversation.messages c) + 1))
    with (Z.of_nat (length (Conversation.messages c)) + 1) by lia.
  destruct (Message.intent m) as [i |]; simpl; [| done].
  destruct (Intent_should_handoff i) as [[|] | e]; simpl; done.
Qed.

(** The average times the number of messages is the sum of their
    confidences: true of every conversation without messages, and kept
    by every call. *)
Definition mean_invariant (c : Conversation.t) : Prop :=
  (Conversation.ai_confidence_avg c
   * Qc_of_Z (Z.of_nat (length (Conversation.messages c))))%Qc
  = confidence_sum (Conversation.messages c).

Lemma mean_invariant_empty (c : Conversation.t) :
  Conversation.messages c = [] → mean_invariant c.
Proof.
  unfold mean_invariant. intros ->. unfold confidence_sum. cbn [length foldr].
  change (Qc_of_Z (Z.of_nat 0)) with 0%Qc. ring.
Qed.

Lemma add_message_mean_invariant (utcnow : datetime) (m : Message.t)
    (c : Conversation.t) :
  mean_invariant c → mean_invariant (add_message utcnow m c).2.
Proof.
  intros Hinv. pose proof (add_message_state utcnow m c) as [_ Hst].
  simpl in Hst. case_bool_decide; [by rewrite Hst |].
  destruct Hst as [Hms Havg]. unfold mean_invariant in *.
  rewrite Hms, Havg, confidence_sum_snoc, <- Hinv, length_app. simpl.
  replace (Z.of_nat (length (Conversation.messages c) + 1))
    with (Z.of_nat (length (Conversation.messages c)) + 1) by lia.
  field. apply Qc_of_Z_nonzero. lia.
Qed.

Lemma after_calls_snoc calls utcnow m c :
  after_calls (calls ++ [(utcnow, m)]) c
  = (add_message utcnow m (after_calls calls c)).2.
Proof. unfold after_calls. by rewrite foldl_app. Qed.

Lemma after_calls_mean_invariant calls c :
  mean_invariant c → mean_invariant (after_calls calls c).
Proof.
  induction calls as [| [utcnow m] calls IH] using rev_ind; [done |].
  intros Hc. rewrite after_calls_snoc.
  apply add_message_mean_invariant, IH, Hc.
Qed.

Lemma after_calls_messages calls c :
  Forall (λ call, Message.conversation_id call.2 = Conversation.id c) calls →
  Conversation.id (after_calls calls c) = Conversation.id c
  ∧ Conversation.messages (after_calls calls c)
    = Conversation.messages c ++ calls.*2.
Proof.
  induction calls as [| [utcnow m] calls IH] using rev_ind; intros Hown.
  - simpl. by rewrite app_nil_r.
  - apply Forall_app in Hown as [Hown Hm].
    apply Forall_inv in Hm. simpl in Hm.
    destruct (IH Hown) as [IHid IHms].
    rewrite after_calls_snoc.
    pose proof (add_message_state utcnow m (after_calls calls c)) as [Hid Hst].
    simpl in Hid, Hst.
    rewrite bool_decide_eq_false_2 in Hst by (rewrite IHid; auto).
    destruct Hst as [Hms _]. split; [congruence |].
    rewrite Hms, IHms, fmap_app. simpl. by rewrite app_assoc.
Qed.

(** C3.  Starting from a conversation without messages, after [n >= 1]
    messages of that conversation have been appended through
    [add_message], the message list is exactly these messages and
    [ai_confidence_avg] is their arithmetic mean
    [(c_1 + ... + c_n) / n], in exact rational arithmetic; the average
    the conversation started with does not matter. *)
Theorem add_message_running_mean (c : Conversation.t)
    (calls : list (datetime * Message.t)) :
  Conversation.messages c = [] →
  calls ≠ [] →
  Forall (λ call, Message.conversation_id call.2 = Conversation.id c) calls →
  Conversation.messages (after_calls calls c) = calls.*2
  ∧ Conversation.ai_confidence_avg (after_calls calls c)
    = (confidence_sum calls.*2 / Qc_of_Z (Z.of_nat (length calls)))%Qc.
Proof.
  intros Hempty Hne Hown.
  destruct (after_calls_messages calls c Hown) as [_ Hms].
  rewrite Hempty in Hms. simpl in Hms. split; [done |].
  pose proof (after_calls_mean_invariant calls c (mean_invariant_empty c Hempty))
    as Hinv.
  unfold mean_invariant in Hinv. rewrite Hms, length_fmap in Hinv.
  rewrite <- Hinv. field. apply Qc_of_Z_nonzero.
  destruct calls; [done | simpl; lia].
Qed.

(** Three messages of one conversation, with confidences 0.9, 0.5
    and 1, the second classified as a request for a human. *)
Definition sample_conversation : Conversation.t :=
  Conversation_init 0 "c-1" "lead-1".

Definition sample_message (id : UUID) (conversation_id : UUID)
    (ai_confidence : Qc) (intent : option Intent.t) : Message.t :=
  Message.mk id conversation_id (lit "Hello") INBOUND ai_confidence intent ∅ 0 0.

Definition sample_calls : list (datetime * Message.t) :=
  [(1000000, sample_message "m-1" "c-1" (Q2Qc (9 # 10)) None);
   (2000000, sample_message "m-2" "c-1" (Q2Qc (1 # 2))
               (Some (Intent.mk REQUEST_HUMAN (Q2Qc (9 # 10)) true ∅)));
   (3000000, sample_message "m-3" "c-1" 1 None)].

Lemma add_message_running_mean_witness :
  Conversation.messages (after_calls sample_calls sample_conversation)
  = sample_calls.*2
  ∧ Conversation.ai_confidence_avg (after_calls sample_calls sample_conversation)
    = (confidence_sum sample_calls.*2
       / Qc_of_Z (Z.of_nat (length sample_calls)))%Qc.
Proof.
  apply (add_message_running_mean sample_conversation sample_calls).
  - reflexivity.
  - discriminate.
  - repeat constructor.
Defined.

Example sample_running_mean :
  Conversation.ai_confidence_avg (after_calls sample_calls sample_conversation)
  = Q2Qc (4 # 5)
  ∧ Conversation.status (after_calls sample_calls sample_conversation)
    = HUMAN_NEEDED.
Proof.
  split; [apply Qc_is_canon |]; vm_compute; reflexivity.
Qed.

(** A call for a message of the conversation returns normally unless
    evaluating the handoff rule on its intent raises. *)
Lemma add_message_returns (utcnow : datetime) (m : Message.t) (c : Conversation.t) :
  Message.conversation_id m = Conversation.id c →
  (∀ i, Message.intent m = Some i → is_ok (Intent_should_handoff i) = true) →
  (add_message utcnow m c).1 = Ok ().
Proof.
  intros Hid Hintent.
  unfold add_message, mbind, SE_bind, get_state, modify, raise, lift, mret, SE_ret.
  rewrite bool_decide_eq_false_2 by auto. simpl.
  destruct (Message.intent m) as [i |]; simpl; [| done].
  specialize (Hintent i eq_refl).
  destruct (Intent_should_handoff i) as [[|] | e]; simpl; done.
Qed.

(** C4.  [add_message] for a message whose [conversation_id] is not the
    conversation's [id] raises [ValueError] and leaves the conversation
    exactly as it was: message list, [ai_confidence_avg],
    [current_intent], [status] and every other field. *)
Theorem add_message_rejects_foreign_message (utcnow : datetime)
    (m : Message.t) (c : Conversation.t) :
  Message.conversation_id m ≠ Conversation.id c →
  add_message utcnow m c
  = (Raise (mkExc ValueError "Message belongs to different conversation"), c).
Proof.
  intros Hid.
  unfold add_message, mbind, SE_bind, get_state, raise.
  by rewrite bool_decide_eq_true_2.
Qed.

Lemma add_message_rejects_foreign_message_witness :
  add_message 5000000 (sample_message "m-9" "c-2" (Q2Qc (1 # 10)) None)
    (after_calls sample_calls sample_conversation)
  = (Raise (mkExc ValueError "Message belongs to different conversation"),
     after_calls sample_calls sample_conversation).
Proof.
  apply (add_message_rejects_foreign_message 5000000
           (sample_message "m-9" "c-2" (Q2Qc (1 # 10)) None)
           (after_calls sample_calls sample_conversation)).
  vm_compute. discriminate.
Defined.

End conversation_facts.

(* ===================================================================== *)
(** ** The context projection *)
(* ===================================================================== *)

Module build_context_facts.

Import conversation context_service.

Lemma slice_from_last {A} (n : nat) (l : list A) :
  slice_from (- Z.of_nat (S n)) l = drop (length l - S n) l.
Proof.
  unfold slice_from.
  destruct (Z.ltb_spec (- Z.of_nat (S n)) 0) as [_ | Hge]; [| lia].
  f_equal. lia.
Qed.

(** The summary of the current intent that the projection carries. *)
Definition intent_summary (i : Intent.t) : Val :=
  VDict (<["type" := VStr (lit (IntentType_value (Intent.type i)))]>
        (<["confidence" := VFloat (Intent.confidence i)]> ∅)).

(** C7.  [build_context] changes nothing and depends on the clock only
    for the [created_at] stamp of its result: for every conversation
    there are messages and metadata such that, at every instant, the
    result is made of these and the stamp.  The messages are the
    summaries of the last ten messages of the conversation (of all of
    them when there are fewer), so never more than ten; the metadata
    records the length of the whole message list as [message_count];
    and the entry for the current intent, present exactly when the
    conversation has one, holds its type and its confidence and no other
    key. *)
Theorem build_context_window (c : Conversation.t) :
  ∃ (messages : list Val) (metadata : Dict),
    (∀ utcnow : datetime,
       build_context utcnow c
       = VDict (<["messages" := VList messages]>
               (<["metadata" := VDict metadata]>
               (<["created_at" := VStr (isoformat utcnow)]> ∅))))
    ∧ messages
      = message_summary
          <$> drop (length (Conversation.messages c) - 10) (Conversation.messages c)
    ∧ (length messages ≤ 10)%nat
    ∧ metadata !! "message_count"
      = Some (VInt (Z.of_nat (length (Conversation.messages c))))
    ∧ metadata !! "current_intent"
      = intent_summary <$> Conversation.current_intent c
    ∧ (∀ i : Intent.t,
         ∃ summary : Dict,
           intent_summary i = VDict summary
           ∧ dom summary = ({["type"; "confidence"]} : gset string)).
Proof.
  unfold build_context. do 2 eexists. split; [intros utcnow; reflexivity |].
  change (-10) with (- Z.of_nat 10). rewrite slice_from_last.
  split; [reflexivity |]. split; [| split; [| split]].
  - rewrite length_fmap, length_drop. lia.
  - destruct (Conversation.current_intent c); reflexivity.
  - destruct (Conversation.current_intent c); reflexivity.
  - intros i. eexists. split; [reflexivity |].
    rewrite !dom_insert_L, dom_empty_L. set_solver.
Qed.

(** Twelve messages: the projection keeps the last ten and still counts
    twelve. *)
Example build_context_twelve :
  let c :=
    conversation_facts.after_calls
      ((λ n : nat, (0, conversation_facts.sample_message "m" "c-1" 1 None))
         <$> seq 0 12)
      conversation_facts.sample_conversation in
  ∃ messages metadata rest,
    build_context 0 c
    = VDict (<["messages" := VList messages]>
            (<["metadata" := VDict metadata]> rest))
    ∧ length messages = 10%nat
    ∧ metadata !! "message_count" = Some (VInt 12).
Proof. do 3 eexists. split; [reflexivity |]. split; reflexivity. Qed.

End build_context_facts.

(* ===================================================================== *)
(** ** The context store *)
(* ===================================================================== *)

Module context_store_facts.

Import context_service.

Ltac run_se :=
  unfold get_conversation_context, update_context, clear_context,
    on_RedisError, ERROR_COUNTER_inc, _record_failure, redis_get, redis_setex,
    redis_delete, redis_command, utcnow, try_except, mbind, SE_bind, mret,
    SE_ret, get_state, modify, raise, lift; simpl.

(** The breaker lets a call through, and is left alone, while fewer
    failures than its threshold are recorded. *)
Lemma circuit_closed_below_threshold (s : State) :
  failures (circuit_breaker s) < threshold (circuit_breaker s) →
  _is_circuit_open s = (Ok false, s).
Proof.
  intros Hlt. unfold _is_circuit_open, mbind, SE_bind, get_state, mret, SE_ret.
  destruct (last_failure (circuit_breaker s)); [| done].
  destruct (Z.leb_spec (threshold (circuit_breaker s))
              (failures (circuit_breaker s))); [lia | done].
Qed.

Section WithLibraries.
Context {json_lib : Json} {zlib_lib : Zlib}.

(** The exceptions that reading a payload can raise. *)
Lemma parse_raw_data_raises (raw_data : str) (e : Exc) :
  parse_raw_data raw_data = Raise e →
  exc_class e ∈ [UnicodeEncodeError; ZlibError; UnicodeDecodeError;
                 JSONDecodeError].
Proof.
  assert (Hencode : ∀ s e, encode s = Raise e → exc_class e = UnicodeEncodeError).
  { induction s as [| c s IH]; intros e'; simpl; [done |].
    destruct (encode_cp c); [| by intros [= <-]].
    destruct (encode s); simpl; [done |]. intros [= <-]. by apply IH. }
  assert (Hdecode : ∀ n b e, (length b < n)%nat → decode b = Raise e →
            exc_class e = UnicodeDecodeError).
  { assert (Hstep : ∀ (b : bytes) e (f : str → Result str),
              (∀ e, decode b = Raise e → exc_class e = UnicodeDecodeError) →
              (∀ s, is_ok (f s) = true) →
              rbind (decode b) f = Raise e → exc_class e = UnicodeDecodeError).
    { intros b e' f Hb Hf. destruct (decode b) as [s |] eqn:Hd; simpl.
      - specialize (Hf s). destruct (f s); done.
      - intros [= <-]. by apply Hb. }
    induction n as [| n IH]; intros b e' Hlen; [lia |].
    destruct b as [| b0 r0]; simpl; [done |].
    repeat (case_match; try (intros [= <-]; reflexivity);
            try (apply Hstep; [intros e''; apply IH; simpl in *; lia | done])). }
  unfold parse_raw_data, json_loads_bytes, zlib_decompress, json_loads.
  unfold mbind, Result_bind, rbind.
  destruct (startswith raw_data (lit "compressed:")).
  - destruct (encode _) as [encoded |] eqn:Hen.
    + destruct (zlib_inflate encoded) as [msg | d].
      * intros [= <-]. set_solver.
      * destruct (decode d) as [text |] eqn:Hde.
        -- destruct (json_decode text); [| done]. intros [= <-]. set_solver.
        -- intros [= <-].
           rewrite (Hdecode (S (length d)) d e0 ltac:(lia) Hde). set_solver.
    + intros [= <-]. rewrite (Hencode _ _ Hen). set_solver.
  - destruct (json_decode raw_data); [| done]. intros [= <-]. set_solver.
Qed.

(** What [get_conversation_context] does once the breaker has let the
    call through and the server has answered. *)
Lemma get_conversation_context_answered (s : State) (cid : UUID) :
  failures (circuit_breaker s) < threshold (circuit_breaker s) →
  redis_fault s = None →
  let s1 := set_redis_commands (redis_commands s + 1) s in
  get_conversation_context cid s
  = match redis s !! context_key s cid with
    | Some (raw_data, expires) =>
        if clock s <? expires then
          match raw_data with
          | [] => (Ok (empty_context (clock s)), s1)
          | _ =>
              match parse_raw_data raw_data with
              | Ok context => (Ok context, s1)
              | Raise e =>
                  if isinstance e [JSONDecodeError; ZlibError] then
                    (Raise (mkExc ValueError
                              ("Invalid context data: " +:+ exc_msg e)),
                     set_ERROR_COUNTER (ERROR_COUNTER s + 1) s1)
                  else (Raise e, s1)
              end
          end
        else (Ok (empty_context (clock s)), s1)
    | None => (Ok (empty_context (clock s)), s1)
    end.
Proof.
  intros Hlt Hfault s1.
  unfold get_conversation_context, mbind at 1, SE_bind at 1, get_state at 1.
  unfold try_except at 1, mbind at 1, SE_bind at 1.
  rewrite (circuit_closed_below_threshold s Hlt).
  run_se. rewrite Hfault. simpl.
  destruct (redis s !! context_key s cid) as [[raw_data expires] |]; [| done].
  destruct (clock s <? expires); [| done].
  destruct raw_data as [| c raw_data]; [done |].
  pose proof (parse_raw_data_raises (c :: raw_data)) as Hclass.
  destruct (parse_raw_data (c :: raw_data)) as [context | e]; [done |].
  specialize (Hclass e eq_refl). destruct e as [cls msg]. simpl in Hclass.
  rewrite !elem_of_cons, elem_of_nil in Hclass.
  destruct Hclass as [-> | [-> | [-> | [-> | []]]]]; reflexivity.
Qed.

(** The claim of the specification about reads, in its words: with
    the store in working order, a key never written reads as the empty
    context, and a key whose stored payload fails decompression or
    parsing never reads as a context. *)
Definition spec_get_distinguishes : Prop :=
  ∀ (s : State) (cid : UUID),
    failures (circuit_breaker s) < threshold (circuit_breaker s) →
    redis_fault s = None →
    match redis s !! context_key s cid with
    | None => (get_conversation_context cid s).1 = Ok (empty_context (clock s))
    | Some (raw_data, expires) =>
        clock s < expires →
        is_ok (parse_raw_data raw_data) = false →
        is_ok (get_conversation_context cid s).1 = false
    end.

(** C5, as the code has it.  With the breaker closed and the server
    answering: a key that holds nothing reads as a fresh empty context,
    without error, and so does a key that holds the empty text; a key
    whose payload is not empty and fails decompression or parsing makes
    the read raise, so it never reads as a context; when the failure is
    [zlib.error] or [JSONDecodeError] the error counter is incremented
    and the exception is [ValueError('Invalid context data: ...')]. *)
Theorem get_conversation_context_miss_or_corrupt (s : State) (cid : UUID) :
  failures (circuit_breaker s) < threshold (circuit_breaker s) →
  redis_fault s = None →
  let s1 := set_redis_commands (redis_commands s + 1) s in
  (redis s !! context_key s cid = None →
     get_conversation_context cid s = (Ok (empty_context (clock s)), s1))
  ∧ (∀ expires,
       redis s !! context_key s cid = Some ([], expires) →
       get_conversation_context cid s = (Ok (empty_context (clock s)), s1))
  ∧ (∀ raw_data expires e,
       redis s !! context_key s cid = Some (raw_data, expires) →
       clock s < expires →
       raw_data ≠ [] →
       parse_raw_data raw_data = Raise e →
       is_ok (get_conversation_context cid s).1 = false
       ∧ (isinstance e [JSONDecodeError; ZlibError] = true →
            get_conversation_context cid s
            = (Raise (mkExc ValueError ("Invalid context data: " +:+ exc_msg e)),
               set_ERROR_COUNTER (ERROR_COUNTER s + 1) s1))).
Proof.
  intros Hlt Hfault s1.
  pose proof (get_conversation_context_answered s cid Hlt Hfault) as Hget.
  cbv zeta in Hget. fold s1 in Hget. split; [| split].
  - intros Hkey. by rewrite Hget, Hkey.
  - intros expires Hkey. rewrite Hget, Hkey. by destruct (clock s <? expires).
  - intros raw_data expires e Hkey Hlive Hne Hparse.
    rewrite Hget, Hkey, Hparse.
    destruct (Z.ltb_spec (clock s) expires); [| lia].
    destruct raw_data; [done |].
    by destruct (isinstance e [JSONDecodeError; ZlibError]).
Qed.

(** *** Writing and reading back *)

(** The context as [update_context] serializes it: stamped with the
    clock reading and the version. *)
Definition stamped (s : State) (context : Dict) : Dict :=
  <["version" := VStr (lit (version s))]>
    (<["updated_at" := VStr (isoformat (clock s))]> context).

(** The test [update_context] makes before it stores compressed bytes:
    the serialized text encodes, and the compressed length is below
    nine tenths of the length of the text. *)
Definition compression_beneficial (context_data : str) : Result bool :=
  encoded ← encode context_data;
  Ok (Qc_ltb (Qc_of_Z (Z.of_nat (length (zlib_compress encoded)))
              / Qc_of_Z (Z.of_nat (length context_data)))%Qc
        (Q2Qc (9 # 10))).

(** A payload that is stored as it is, because it is short or because
    compressing it does not pay, reads back as the context that was
    serialized, provided the JSON library reads back what it wrote. *)
Lemma update_then_get_uncompressed (s : State) (cid : UUID) (context : Dict) :
  failures (circuit_breaker s) < threshold (circuit_breaker s) →
  redis_fault s = None →
  0 < context_ttl s →
  let context_data := json_dumps (VDict (stamped s context)) in
  Z.of_nat (length context_data) ≤ compression_threshold s
  ∨ compression_beneficial context_data = Ok false →
  context_data ≠ [] →
  startswith context_data (lit "compressed:") = false →
  json_loads context_data = Ok (VDict (stamped s context)) →
  ∃ s', update_context cid (VDict context) s = (Ok true, s')
        ∧ (get_conversation_context cid s').1 = Ok (VDict (stamped s context)).
Proof.
  intros Hlt Hfault Httl context_data Hplain Hne Hprefix Hloads.
  assert (Hupdate :
    update_context cid (VDict context) s
    = (Ok true,
       set_redis
         (<[context_key s cid :=
              (context_data, clock s + context_ttl s * 1000000)]> (redis s))
         (set_redis_commands (redis_commands s + 1) s))).
  { run_se. fold (stamped s context). fold context_data.
    destruct (Z.ltb_spec (compression_threshold s)
                (Z.of_nat (length context_data))) as [Hlong | Hshort]; simpl.
    - destruct Hplain as [Hshort | Hratio]; [lia |].
      unfold compression_beneficial in Hratio.
      destruct (encode context_data) as [encoded |]; [| done].
      simpl in Hratio. injection Hratio as Hratio.
      simpl. rewrite Hratio. simpl. by rewrite Hfault.
    - by rewrite Hfault. }
  eexists. split; [exact Hupdate |].
  rewrite get_conversation_context_answered by done. simpl.
  unfold context_key. simpl. rewrite lookup_insert_eq.
  destruct (Z.ltb_spec (clock s) (clock s + context_ttl s * 1000000)); [| lia].
  unfold parse_raw_data. rewrite Hprefix, Hloads.
  destruct context_data; done.
Qed.

(** C6.  The compression path does not round-trip.  Whenever
    [update_context] takes it (the serialized context is longer than the
    threshold and compresses below nine tenths), decoding the compressed
    bytes as text fails on the second byte of the zlib header, the call
    raises [UnicodeDecodeError] and nothing is stored; and no stored
    text that carries the prefix can be read back, because only ten of
    the eleven characters of ['compressed:'] are removed and the colon
    is handed to [zlib.decompress].  The hypotheses on zlib are the
    header the default level writes, [78 9C], and the header check. *)
Theorem compression_path_does_not_round_trip (s : State) (cid : UUID)
    (context : Dict) :
  (∀ b, ∃ r, zlib_compress b = 120 :: 156 :: r)%N →
  (∀ r, ∃ msg, zlib_inflate (58 :: r)%N = inl msg) →
  let context_data := json_dumps (VDict (stamped s context)) in
  compression_threshold s < Z.of_nat (length context_data) →
  compression_beneficial context_data = Ok true →
  update_context cid (VDict context) s = (Raise decode_error, s)
  ∧ ∀ payload : str,
      is_ok (parse_raw_data (lit "compressed:" ++ payload)) = false.
Proof.
  intros Hheader Hcheck context_data Hsize Hratio. split.
  - unfold compression_beneficial in Hratio.
    destruct (encode context_data) as [encoded |] eqn:Hencode; [| done].
    simpl in Hratio. injection Hratio as Hratio.
    run_se. fold (stamped s context). fold context_data.
    destruct (Z.ltb_spec (compression_threshold s)
                (Z.of_nat (length context_data))); [| lia].
    simpl. rewrite Hencode. simpl. rewrite Hratio.
    destruct (Hheader encoded) as [r ->]. reflexivity.
  - intros payload. unfold parse_raw_data.
    change (startswith (lit "compressed:" ++ payload) (lit "compressed:"))
      with true.
    change (slice_from 10 (lit "compressed:" ++ payload)) with (58%N :: payload).
    cbn [encode encode_cp N.ltb N.compare Pos.compare Pos.compare_cont].
    destruct (encode payload) as [tail | e]; [| reflexivity].
    simpl. destruct (Hcheck tail) as [msg Hraise].
    unfold mbind, Result_bind, rbind, zlib_decompress. simpl. by rewrite Hraise.
Qed.

(** *** The circuit breaker *)

Lemma circuit_open_within_timeout (s : State) (last : datetime) :
  threshold (circuit_breaker s) ≤ failures (circuit_breaker s) →
  last_failure (circuit_breaker s) = Some last →
  timedelta_seconds (clock s - last) < reset_timeout (circuit_breaker s) →
  _is_circuit_open s = (Ok true, s).
Proof.
  intros Hge Hlast Hrecent.
  unfold _is_circuit_open, utcnow, mbind, SE_bind, get_state, mret, SE_ret.
  rewrite Hlast.
  destruct (Z.leb_spec (threshold (circuit_breaker s))
              (failures (circuit_breaker s))); [| lia].
  destruct (Z.ltb_spec (timedelta_seconds (clock s - last))
              (reset_timeout (circuit_breaker s))); [done | lia].
Qed.

(** The breaker as a read that comes after the timeout leaves it. *)
Definition closed_again (s : State) : State :=
  set_circuit_breaker
    (mkCircuitBreaker 0 None (threshold (circuit_breaker s))
       (reset_timeout (circuit_breaker s))) s.

Lemma circuit_closes_after_timeout (s : State) (last : datetime) :
  threshold (circuit_breaker s) ≤ failures (circuit_breaker s) →
  last_failure (circuit_breaker s) = Some last →
  reset_timeout (circuit_breaker s) ≤ timedelta_seconds (clock s - last) →
  _is_circuit_open s = (Ok false, closed_again s).
Proof.
  intros Hge Hlast Hlate.
  unfold _is_circuit_open, utcnow, modify, mbind, SE_bind, get_state, mret,
    SE_ret.
  rewrite Hlast.
  destruct (Z.leb_spec (threshold (circuit_breaker s))
              (failures (circuit_breaker s))); [| lia].
  destruct (Z.ltb_spec (timedelta_seconds (clock s - last))
              (reset_timeout (circuit_breaker s))); [lia | done].
Qed.

(** A read that finds the timeout over goes on as a read of the
    service with the breaker closed. *)
Lemma get_conversation_context_after_timeout (s : State) (cid : UUID)
    (last : datetime) :
  0 < threshold (circuit_breaker s) ≤ failures (circuit_breaker s) →
  last_failure (circuit_breaker s) = Some last →
  reset_timeout (circuit_breaker s) ≤ timedelta_seconds (clock s - last) →
  get_conversation_context cid s = get_conversation_context cid (closed_again s).
Proof.
  intros [Hpos Hge] Hlast Hlate.
  unfold get_conversation_context, _is_circuit_open, closed_again.
  run_se. rewrite Hlast.
  destruct (Z.leb_spec (threshold (circuit_breaker s))
              (failures (circuit_breaker s))); [| lia].
  destruct (Z.ltb_spec (timedelta_seconds (clock s - last))
              (reset_timeout (circuit_breaker s))); [lia |].
  reflexivity.
Qed.

(** No operation changes the threshold or the timeout of the breaker:
    they stay as the constructor set them, 3 and 30. *)
Definition breaker_settings (s : State) : Z * Z :=
  (threshold (circuit_breaker s), reset_timeout (circuit_breaker s)).

Lemma breaker_settings_kept (s : State) (cid : UUID) (context : Val) :
  breaker_settings (get_conversation_context cid s).2 = breaker_settings s
  ∧ breaker_settings (update_context cid context s).2 = breaker_settings s
  ∧ breaker_settings (clear_context cid s).2 = breaker_settings s.
Proof.
  split; [| split].
  - unfold get_conversation_context, _is_circuit_open. run_se.
    repeat case_match; simplify_eq; reflexivity.
  - run_se. repeat case_match; simplify_eq; reflexivity.
  - run_se. repeat case_match; simplify_eq; reflexivity.
Qed.

(** The exception of a read that the breaker turns away. *)
Definition circuit_open_error : Exc :=
  mkExc RedisError "Failed to retrieve context: Circuit breaker is open".

(** One more failure on the record, made at the clock reading. *)
Definition failure_recorded (s : State) : State :=
  set_circuit_breaker
    (mkCircuitBreaker (failures (circuit_breaker s) + 1) (Some (clock s))
       (threshold (circuit_breaker s)) (reset_timeout (circuit_breaker s)))
    (set_ERROR_COUNTER (ERROR_COUNTER s + 1) s).

(** The seconds the breaker compares are the seconds that have passed,
    as long as less than a day has. *)
Lemma timedelta_seconds_within_a_day (d : Z) :
  0 ≤ d < 86400000000 → timedelta_seconds d = d / 1000000.
Proof. intros Hd. unfold timedelta_seconds. by rewrite Z.mod_small. Qed.

(** C8, as the code has it.  For a service with the constructor's
    threshold 3 and timeout 30: (1) while fewer than 3 failures are on
    the record, a read is sent to the server; when the server fails it,
    the failure is recorded, and when the server answers, the record is
    left as it is, so that failures need not be consecutive to add up.
    (2) With 3 or more failures on the record and less than 30 seconds
    passed since the last one, a read is turned away with
    [RedisError('... Circuit breaker is open')] without a command being
    sent, and being turned away is itself recorded as a failure. (3)
    Once 30 seconds have passed since the last failure (and less than a
    day), a read resets the record, is sent to the server, and leaves the
    record empty when the server answers.  Times are in microseconds. *)
Theorem circuit_breaker_gates_reads (s : State) (cid : UUID) :
  threshold (circuit_breaker s) = 3 →
  reset_timeout (circuit_breaker s) = 30 →
  (failures (circuit_breaker s) < 3 →
     redis_commands (get_conversation_context cid s).2 = redis_commands s + 1
     ∧ (∀ msg, redis_fault s = Some msg →
          get_conversation_context cid s
          = (Raise (mkExc RedisError ("Failed to retrieve context: " +:+ msg)),
             failure_recorded (set_redis_commands (redis_commands s + 1) s)))
     ∧ (redis_fault s = None →
          circuit_breaker (get_conversation_context cid s).2
          = circuit_breaker s))
  ∧ (∀ last,
       3 ≤ failures (circuit_breaker s) →
       last_failure (circuit_breaker s) = Some last →
       0 ≤ clock s - last < 30000000 →
       get_conversation_context cid s
       = (Raise circuit_open_error, failure_recorded s))
  ∧ (∀ last,
       3 ≤ failures (circuit_breaker s) →
       last_failure (circuit_breaker s) = Some last →
       30000000 ≤ clock s - last < 86400000000 →
       redis_commands (get_conversation_context cid s).2 = redis_commands s + 1
       ∧ (redis_fault s = None →
            circuit_breaker (get_conversation_context cid s).2
            = mkCircuitBreaker 0 None 3 30)).
Proof.
  intros Hthreshold Htimeout.
  assert (Hfault : ∀ s' : State, ∀ msg, redis_fault s' = Some msg →
            failures (circuit_breaker s') < threshold (circuit_breaker s') →
            get_conversation_context cid s'
            = (Raise (mkExc RedisError ("Failed to retrieve context: " +:+ msg)),
               failure_recorded (set_redis_commands (redis_commands s' + 1) s'))).
  { intros s' msg Hmsg Hlt.
    unfold get_conversation_context, mbind at 1, SE_bind at 1, get_state at 1.
    unfold try_except at 1, mbind at 1, SE_bind at 1.
    rewrite (circuit_closed_below_threshold s' Hlt).
    run_se. rewrite Hmsg. reflexivity. }
  assert (Hanswer : ∀ s' : State, redis_fault s' = None →
            failures (circuit_breaker s') < threshold (circuit_breaker s') →
            redis_commands (get_conversation_context cid s').2
            = redis_commands s' + 1
            ∧ circuit_breaker (get_conversation_context cid s').2
              = circuit_breaker s').
  { intros s' Hnone Hlt.
    rewrite get_conversation_context_answered by done. cbv zeta.
    destruct (redis s' !! context_key s' cid) as [[raw_data expires] |];
      [| done].
    destruct (clock s' <? expires); [| done].
    destruct raw_data; [done |].
    destruct (parse_raw_data _) as [context | e]; [done |].
    by destruct (isinstance e [JSONDecodeError; ZlibError]). }
  split; [| split].
  - intros Hlt. rewrite <- Hthreshold in Hlt. split; [| split].
    + destruct (redis_fault s) as [msg |] eqn:Hmsg.
      * by rewrite (Hfault s msg).
      * by destruct (Hanswer s Hmsg Hlt) as [-> _].
    + intros msg Hmsg. by apply Hfault.
    + intros Hnone. by destruct (Hanswer s Hnone Hlt) as [_ ->].
  - intros last Hge Hlast Hrecent.
    assert (Hseconds : timedelta_seconds (clock s - last) < 30).
    { rewrite timedelta_seconds_within_a_day by lia.
      apply Z.div_lt_upper_bound; lia. }
    unfold get_conversation_context, mbind at 1, SE_bind at 1, get_state at 1.
    unfold try_except at 1, mbind at 1, SE_bind at 1.
    rewrite (circuit_open_within_timeout s last) by first [assumption | lia].
    reflexivity.
  - intros last Hge Hlast Hlate.
    assert (Hseconds : 30 ≤ timedelta_seconds (clock s - last)).
    { rewrite timedelta_seconds_within_a_day by lia.
      apply Z.div_le_lower_bound; lia. }
    rewrite (get_conversation_context_after_timeout s cid last)
      by first [assumption | lia].
    assert (Hlt : failures (circuit_breaker (closed_again s))
                  < threshold (circuit_breaker (closed_again s)))
      by (simpl; lia).
    split.
    + destruct (redis_fault s) as [msg |] eqn:Hmsg.
      * by rewrite (Hfault (closed_again s) msg).
      * by destruct (Hanswer (closed_again s) Hmsg Hlt) as [-> _].
    + intros Hnone. destruct (Hanswer (closed_again s) Hnone Hlt) as [_ ->].
      simpl. by rewrite Hthreshold, Htimeout.
Qed.

End WithLibraries.

(** A server on which conversation [c-1] holds text that is not JSON,
    conversation [c-2] holds the empty text, and nothing else is
    stored. *)
Definition sample_server : gmap string (str * datetime) :=
  <["context:1.0:c-1" := (Reference.quotes "{'messages': [", 3600000000)]>
  (<["context:1.0:c-2" := ([], 3600000000)]> ∅).

Definition sample_service : State := init 3600 0 sample_server.

#[local] Existing Instance Reference.json.
#[local] Existing Instance Reference.zlib.

Lemma get_conversation_context_miss_or_corrupt_witness :
  (get_conversation_context "c-3" sample_service
   = (Ok (empty_context 0), set_redis_commands 1 sample_service))
  ∧ (get_conversation_context "c-2" sample_service
     = (Ok (empty_context 0), set_redis_commands 1 sample_service))
  ∧ (is_ok (get_conversation_context "c-1" sample_service).1 = false
     ∧ get_conversation_context "c-1" sample_service
       = (Raise (mkExc ValueError "Invalid context data: Expecting value"),
          set_ERROR_COUNTER 1 (set_redis_commands 1 sample_service))).
Proof.
  pose proof (get_conversation_context_miss_or_corrupt sample_service) as Hget.
  split; [| split].
  - apply (Hget "c-3"); [reflexivity | reflexivity | reflexivity].
  - apply (Hget "c-2" eq_refl eq_refl) with (expires := 3600000000). reflexivity.
  - destruct (Hget "c-1" eq_refl eq_refl) as (_ & _ & Hcorrupt).
    destruct (Hcorrupt (Reference.quotes "{'messages': [") 3600000000
                (mkExc JSONDecodeError "Expecting value"))
      as [Hraise Hvalue];
      [reflexivity | reflexivity | discriminate | vm_compute; reflexivity |].
    split; [exact Hraise | apply Hvalue; reflexivity].
Defined.

(** C5, counterexample.  On [sample_service] the payload stored for
    [c-2] is the empty text, which does not parse, and the read returns
    the empty context all the same: written-but-unreadable is taken for
    never-written. *)
Lemma empty_payload_reads_as_never_written :
  ¬ spec_get_distinguishes.
Proof.
  intros Hspec.
  specialize (Hspec sample_service "c-2" eq_refl eq_refl).
  vm_compute in Hspec. specialize (Hspec eq_refl eq_refl). discriminate.
Qed.

(** A context whose serialization is longer than 1024 characters and
    compresses well, and a short one. *)
Definition long_context : Dict :=
  {["messages" := VList [VStr (replicate 1100 97%N)]]}.

Definition short_context : Dict :=
  <["messages" := VList [VStr (lit "Hello"); VInt 2; VBool true; VNone]]>
  (<["metadata" := VDict ∅]> ∅).

Lemma compression_path_does_not_round_trip_witness :
  update_context "c-3" (VDict long_context) sample_service
  = (Raise decode_error, sample_service)
  ∧ ∀ payload : str,
      is_ok (parse_raw_data (lit "compressed:" ++ payload)) = false.
Proof.
  apply (compression_path_does_not_round_trip sample_service "c-3" long_context).
  - intros b. eexists. reflexivity.
  - intros r. eexists. reflexivity.
  - vm_compute. reflexivity.
  - vm_compute. reflexivity.
Defined.

Example update_then_get_short_context :
  ∃ s', update_context "c-3" (VDict short_context) sample_service = (Ok true, s')
        ∧ (get_conversation_context "c-3" s').1
          = Ok (VDict (stamped sample_service short_context)).
Proof.
  apply (update_then_get_uncompressed sample_service "c-3" short_context).
  - reflexivity.
  - reflexivity.
  - reflexivity.
  - left. vm_compute. discriminate.
  - discriminate.
  - reflexivity.
  - vm_compute. reflexivity.
Qed.

(** The world moves on: the clock reads [t] and the server is down
    with the given message, or up. *)
Definition at_time (t : datetime) (fault : option string) (s : State) : State :=
  set_redis_fault fault (set_clock t s).

Definition down : option string := Some "Connection refused".

(** A service whose breaker has three failures on record, the last one
    at second 2; then read at second 10, and at second 40. *)
Definition tripped : State :=
  set_circuit_breaker (mkCircuitBreaker 3 (Some 2000000) 3 30) sample_service.

Lemma circuit_breaker_gates_reads_witness :
  threshold (circuit_breaker tripped) = 3
  ∧ reset_timeout (circuit_breaker tripped) = 30
  ∧ get_conversation_context "c-3" (at_time 1000000 down sample_service)
    = (Raise (mkExc RedisError "Failed to retrieve context: Connection refused"),
       failure_recorded
         (set_redis_commands 1 (at_time 1000000 down sample_service)))
  ∧ get_conversation_context "c-3" (at_time 10000000 None tripped)
    = (Raise circuit_open_error, failure_recorded (at_time 10000000 None tripped))
  ∧ redis_commands
      (get_conversation_context "c-3" (at_time 40000000 None tripped)).2 = 1
  ∧ circuit_breaker
      (get_conversation_context "c-3" (at_time 40000000 None tripped)).2
    = mkCircuitBreaker 0 None 3 30.
Proof.
  split; [reflexivity |]. split; [reflexivity |].
  split; [| split; [| split]].
  - destruct (circuit_breaker_gates_reads
                (at_time 1000000 down sample_service) "c-3" eq_refl eq_refl)
      as (Hclosed & _ & _).
    destruct (Hclosed ltac:(vm_compute; reflexivity)) as (_ & Hfail & _).
    apply (Hfail "Connection refused"). reflexivity.
  - destruct (circuit_breaker_gates_reads
                (at_time 10000000 None tripped) "c-3" eq_refl eq_refl)
      as (_ & Hopen & _).
    apply (Hopen 2000000);
      [vm_compute; discriminate | reflexivity
      | split; vm_compute; [discriminate | reflexivity]].
  - destruct (circuit_breaker_gates_reads
                (at_time 40000000 None tripped) "c-3" eq_refl eq_refl)
      as (_ & _ & Hlate).
    destruct (Hlate 2000000) as [Hsent _];
      [vm_compute; discriminate | reflexivity
      | split; vm_compute; [discriminate | reflexivity] |].
    exact Hsent.
  - destruct (circuit_breaker_gates_reads
                (at_time 40000000 None tripped) "c-3" eq_refl eq_refl)
      as (_ & _ & Hlate).
    destruct (Hlate 2000000) as [_ Hreset];
      [vm_compute; discriminate | reflexivity
      | split; vm_compute; [discriminate | reflexivity] |].
    apply Hreset. reflexivity.
Defined.

(** Beyond a day the code departs from the time that has passed: the
    timeout is compared with [timedelta.seconds], which starts again from
    0 every 24 hours, so that a day and eight seconds after the last
    failure the breaker turns a read away once more, against the comment
    of the method, which asks whether enough time has passed. *)
Example circuit_breaker_seconds_wrap :
  timedelta_seconds (86410000000 - 2000000) = 8
  ∧ (get_conversation_context "c-3" (at_time 86410000000 None tripped)).1
    = Raise circuit_open_error.
Proof. split; reflexivity. Qed.

(** The breaker as the specification words it: open when the last
    three operations, or more, all failed ([true] is a failure). *)
Fixpoint spec_consecutive_failures (outcomes_latest_first : list bool) : nat :=
  match outcomes_latest_first with
  | true :: rest => S (spec_consecutive_failures rest)
  | _ => O
  end.

Definition spec_breaker_open (outcomes_latest_first : list bool) : bool :=
  bool_decide (3 ≤ spec_consecutive_failures outcomes_latest_first)%nat.

(** Reads at seconds 0 and 1 with the server down, at second 2 with the
    server up, at second 3 with the server down. *)
Definition interrupted_failures : State :=
  let read t fault s :=
    (get_conversation_context "c-3" (at_time t fault s)).2 in
  read 3000000 down
    (read 2000000 None
       (read 1000000 down
          (read 0 down sample_service))).

(** A write at second 5, after the read at second 4 was turned away. *)
Definition write_while_open : Result bool * State :=
  update_context "c-3" (VDict short_context)
    (at_time 5000000 None
       (failure_recorded (at_time 4000000 None interrupted_failures))).

(** C8, counterexample.  After two failed reads, a successful read
    and one more failed read, at no point have three operations failed
    in a row, and yet the read at second 4 is turned away without a
    command being sent: the success did not reset the count.  And the
    write at second 5, with the breaker open, is not turned away: it is
    sent to the server and stored. *)
Lemma success_does_not_reset_and_write_is_not_gated :
  spec_breaker_open [true; false; true; true] = false
  ∧ is_ok (get_conversation_context "c-3"
             (at_time 2000000 None
                ((get_conversation_context "c-3"
                    (at_time 1000000 down
                       ((get_conversation_context "c-3"
                           (at_time 0 down sample_service)).2))).2))).1 = true
  ∧ get_conversation_context "c-3" (at_time 4000000 None interrupted_failures)
    = (Raise circuit_open_error,
       failure_recorded (at_time 4000000 None interrupted_failures))
  ∧ redis_commands (failure_recorded (at_time 4000000 None interrupted_failures))
    = redis_commands interrupted_failures
  ∧ write_while_open.1 = Ok true
  ∧ redis_commands write_while_open.2
    = redis_commands (failure_recorded (at_time 4000000 None interrupted_failures))
      + 1
  ∧ is_Some (redis write_while_open.2 !! "context:1.0:c-3").
Proof.
  split; [reflexivity |]. split; [vm_compute; reflexivity |].
  split; [vm_compute; reflexivity |]. split; [reflexivity |].
  split; [vm_compute; reflexivity |]. split; [vm_compute; reflexivity |].
  vm_compute. eexists. reflexivity.
Qed.

End context_store_facts.

(* ===================================================================== *)
(** ** Classification and the reply decision *)
(* ===================================================================== *)

Module llm_facts.

Import conversation llm_service.

Ltac run_llm :=
  unfold classify_intent, generate_response, chat, count_and_reraise,
    API_ERRORS_inc, with_context_service, try_except, mbind, SE_bind, mret,
    SE_ret, get_state, modify, raise, lift; simpl.

Section WithLibraries.
Context {pydantic_lib : Pydantic} {json_lib : Json} {zlib_lib : Zlib}
  {openai_lib : OpenAI}.

(** The intent made when the reply cannot be used. *)
Definition UNKNOWN_INTENT : Intent.t := Intent.mk UNKNOWN 0 true ∅.

Lemma fallback_intent_value : fallback_intent = Ok UNKNOWN_INTENT.
Proof. reflexivity. Qed.

(** The request [classify_intent] sends. *)
Definition classifier_request (s : State) (message_content : str)
    (recent : Val) : ChatRequest :=
  ClassifierRequest (model s) message_content (json_dumps recent)
    (Q2Qc (3 # 10)) 50.

Lemma Intent_validate_raises (data : Dict) (e : Exc) :
  pydantic.Intent_validate data = Raise e →
  e = pydantic.validation_error "validation errors for Intent".
Proof.
  unfold pydantic.Intent_validate. repeat case_match; congruence.
Qed.

Ltac one_of :=
  rewrite ?elem_of_cons, ?elem_of_nil in *; simpl in *; intuition congruence.

(** The exceptions the inner block of [classify_intent] can raise. *)
Lemma parse_classification_raises (content : str) (e : Exc) :
  parse_classification content = Raise e →
  exc_class e ∈ [JSONDecodeError; TypeError; KeyError; ValidationError].
Proof.
  assert (Hitem : ∀ v k e, getitem v k = Raise e →
            exc_class e ∈ [TypeError; KeyError]).
  { intros v k e'. destruct v as [| | | | | | d]; simpl;
      try (intros [= <-]; one_of).
    unfold dict_item. destruct (d !! k); [done |]. intros [= <-]. one_of. }
  unfold parse_classification, json_loads, mbind, Result_bind, rbind.
  destruct (json_decode content) as [msg | result];
    [intros [= <-]; one_of |].
  destruct (getitem result "type") eqn:Htype;
    [| intros [= <-]; apply Hitem in Htype; one_of].
  destruct (getitem result "confidence") eqn:Hconfidence;
    [| intros [= <-]; apply Hitem in Hconfidence; one_of].
  destruct (getitem result "requires_human") eqn:Hhuman;
    [| intros [= <-]; apply Hitem in Hhuman; one_of].
  intros Hinit. apply Intent_validate_raises in Hinit as ->. one_of.
Qed.

(** What [classify_intent] does once the request is made and answered:
    exactly the exceptions [JSONDecodeError] and [KeyError] of the inner
    block are turned into the fallback intent. *)
Lemma classify_intent_answered (s : State) (message_content : str)
    (context messages recent : Val) (content : str) :
  getitem context "messages" = Ok messages →
  last_five messages = Ok recent →
  acreate (length (requests s)) (classifier_request s message_content recent)
  = Ok content →
  classify_intent message_content context s
  = (match parse_classification content with
     | Ok intent => Ok intent
     | Raise e =>
         if isinstance e [JSONDecodeError; KeyError] then Ok UNKNOWN_INTENT
         else Raise e
     end,
     set_requests
       (requests s ++ [classifier_request s message_content recent]) s).
Proof.
  intros Hmessages Hrecent Hanswer. run_llm.
  rewrite Hmessages. simpl. rewrite Hrecent. simpl.
  unfold classifier_request in Hanswer. rewrite Hanswer. simpl.
  pose proof (parse_classification_raises content) as Hclass.
  destruct (parse_classification content) as [intent | e]; [done |].
  specialize (Hclass e eq_refl). destruct e as [cls msg]. simpl in Hclass.
  rewrite !elem_of_cons, elem_of_nil in Hclass.
  destruct Hclass as [-> | [-> | [-> | [-> | []]]]]; reflexivity.
Qed.

(** C9.  A reply that is JSON but not of the expected shape makes
    [classify_intent] raise instead of returning the fallback intent:
    [TypeError] when the reply is not a JSON object, and pydantic's
    [ValidationError] when it is an object with the three keys of which
    one holds a value the [Intent] fields do not accept.  Only a reply
    that is not JSON, or an object that lacks one of the keys, gives the
    fallback intent. *)
Theorem classify_intent_raises_on_wrong_shape (s : State)
    (message_content : str) (context messages recent : Val) (content : str)
    (v : Val) :
  getitem context "messages" = Ok messages →
  last_five messages = Ok recent →
  acreate (length (requests s)) (classifier_request s message_content recent)
  = Ok content →
  json_decode content = inr v →
  let s' :=
    set_requests
      (requests s ++ [classifier_request s message_content recent]) s in
  match v with
  | VDict d =>
      ∀ type confidence requires_human,
        d !! "type" = Some type →
        d !! "confidence" = Some confidence →
        d !! "requires_human" = Some requires_human →
        is_ok (Intent_init (<["type" := type]>
                           (<["confidence" := confidence]>
                           (<["requires_human" := requires_human]> ∅))))
        = false →
        classify_intent message_content context s
        = (Raise (pydantic.validation_error "validation errors for Intent"), s')
  | _ =>
      ∃ msg, classify_intent message_content context s
             = (Raise (mkExc TypeError msg), s')
  end.
Proof.
  intros Hmessages Hrecent Hanswer Hdecode s'.
  rewrite (classify_intent_answered s message_content context messages recent
             content Hmessages Hrecent Hanswer).
  fold s'. unfold parse_classification, json_loads. rewrite Hdecode.
  destruct v as [| b | z | q | text | l | d];
    try (eexists; reflexivity).
  intros type confidence requires_human Htype Hconfidence Hhuman Hinvalid.
  unfold mbind, Result_bind, rbind, getitem, dict_item.
  rewrite Htype, Hconfidence, Hhuman.
  destruct (Intent_init _) as [intent | e] eqn:Hinit; [done |].
  apply Intent_validate_raises in Hinit as ->. reflexivity.
Qed.

(** The replies that do give the fallback intent. *)
Lemma classify_intent_falls_back (s : State) (message_content : str)
    (context messages recent : Val) (content : str) :
  getitem context "messages" = Ok messages →
  last_five messages = Ok recent →
  acreate (length (requests s)) (classifier_request s message_content recent)
  = Ok content →
  match json_decode content with
  | inl _ => True
  | inr (VDict d) =>
      d !! "type" = None ∨ d !! "confidence" = None
      ∨ d !! "requires_human" = None
  | inr _ => False
  end →
  (classify_intent message_content context s).1 = Ok UNKNOWN_INTENT.
Proof.
  intros Hmessages Hrecent Hanswer Hshape.
  rewrite (classify_intent_answered s message_content context messages recent
             content Hmessages Hrecent Hanswer).
  simpl. unfold parse_classification, json_loads.
  destruct (json_decode content) as [msg | v]; [done |].
  destruct v as [| | | | | | d]; try done.
  unfold mbind, Result_bind, rbind, getitem, dict_item.
  destruct (d !! "type"); [| done].
  destruct (d !! "confidence"); [| done].
  destruct (d !! "requires_human"); [| done].
  destruct Hshape as [? | [? | ?]]; done.
Qed.

(** *** The reply decision *)

Lemma Intent_validate_no_metadata (data : Dict) (i : Intent.t) :
  data !! "metadata" = None →
  pydantic.Intent_validate data = Ok i →
  Intent.metadata i = ∅.
Proof.
  intros Hm. unfold pydantic.Intent_validate. rewrite Hm.
  destruct (data !! "type" ≫= pydantic.IntentType_field); [| done].
  destruct (data !! "confidence" ≫= pydantic.unit_float_field); [| done].
  destruct (match data !! "requires_human" with
            | Some v => pydantic.bool_field v
            | None => Some false
            end); [| done].
  by intros [= <-].
Qed.

(** A classification that returns has asked the provider once, has
    changed nothing else, and carries no metadata. *)
Lemma classify_intent_returns (s s2 : State) (message_content : str)
    (context : Val) (intent : Intent.t) :
  classify_intent message_content context s = (Ok intent, s2) →
  ∃ messages recent,
    getitem context "messages" = Ok messages
    ∧ last_five messages = Ok recent
    ∧ s2 = set_requests
             (requests s ++ [classifier_request s message_content recent]) s
    ∧ Intent.metadata intent = ∅.
Proof.
  destruct (getitem context "messages") as [messages |] eqn:Hmessages;
    [| run_llm; rewrite Hmessages; simpl; by repeat case_match].
  destruct (last_five messages) as [recent |] eqn:Hrecent;
    [| run_llm; rewrite Hmessages; simpl; rewrite Hrecent; simpl;
       by repeat case_match].
  destruct (acreate (length (requests s))
              (classifier_request s message_content recent))
    as [content |] eqn:Hanswer.
  - rewrite (classify_intent_answered s message_content context messages
               recent content Hmessages Hrecent Hanswer).
    intros [= Hintent <-]. exists messages, recent.
    split; [done |]. split; [done |]. split; [done |].
    destruct (parse_classification content) as [i |] eqn:Hparse.
    + injection Hintent as <-. revert Hparse.
      unfold parse_classification, mbind, Result_bind, rbind.
      repeat case_match; try done.
      by apply Intent_validate_no_metadata.
    + destruct (_ || _); [| done]. by injection Hintent as <-.
  - run_llm. rewrite Hmessages. simpl. rewrite Hrecent. simpl.
    unfold classifier_request in Hanswer. rewrite Hanswer. simpl.
    by repeat case_match.
Qed.

(** A computation that raises on every state. *)
Definition never_returns {S A} (m : SE S A) : Prop :=
  ∀ s, is_ok (m s).1 = false.

Lemma never_returns_bind {S A B} (m : SE S A) (k : A → SE S B) :
  (∀ a, never_returns (k a)) → never_returns (m ≫= k).
Proof.
  intros Hk s. unfold mbind, SE_bind.
  destruct (m s) as [[a | e] s']; [apply Hk | done].
Qed.

Lemma never_returns_bind_l {S A B} (m : SE S A) (k : A → SE S B) :
  never_returns m → never_returns (m ≫= k).
Proof.
  intros Hm s. unfold mbind, SE_bind.
  specialize (Hm s). by destruct (m s) as [[a | e] s'].
Qed.

Lemma never_returns_try {S A} (body : SE S A) (classes : list ExcClass)
    (handler : Exc → SE S A) :
  never_returns body → (∀ e, never_returns (handler e)) →
  never_returns (try_except body classes handler).
Proof.
  intros Hbody Hhandler s. unfold try_except.
  specialize (Hbody s). destruct (body s) as [[a | e] s']; [done |].
  destruct (isinstance e classes); [apply Hhandler | done].
Qed.

Lemma never_returns_try2 {S A} (body : SE S A)
    (classes1 classes2 : list ExcClass) (handler1 handler2 : Exc → SE S A) :
  never_returns body →
  (∀ e, never_returns (handler1 e)) → (∀ e, never_returns (handler2 e)) →
  never_returns (try_except2 body classes1 handler1 classes2 handler2).
Proof.
  intros Hbody Hhandler1 Hhandler2 s. unfold try_except2.
  specialize (Hbody s). destruct (body s) as [[a | e] s']; [done |].
  destruct (isinstance e classes1); [apply Hhandler1 |].
  destruct (isinstance e classes2); [apply Hhandler2 | done].
Qed.

Lemma never_returns_reraise {A} (error_type : string) (e : Exc) :
  never_returns (count_and_reraise (A := A) error_type e).
Proof. intros s. reflexivity. Qed.

(** The outbound message is built without an [id], a required field:
    the constructor raises whatever else it is given. *)
Lemma Message_init_without_id (utcnow : datetime) (conversation_id : UUID)
    (content : str) (direction : MessageDirection) (ai_confidence : Qc)
    (intent : option Intent.t) :
  Message_init utcnow None conversation_id content direction ai_confidence
    intent
  = Raise (pydantic.validation_error "id: Field required").
Proof. reflexivity. Qed.

Lemma process_message_attempt_never_returns (message : Message.t)
    (conversation : Conversation.t) :
  never_returns (process_message_attempt message conversation).
Proof.
  unfold process_message_attempt.
  apply never_returns_try2; try apply never_returns_reraise.
  apply never_returns_bind. intros context.
  apply never_returns_bind. intros intent.
  apply never_returns_bind. intros _.
  apply never_returns_bind. intros confident.
  apply never_returns_bind_l. destruct confident.
  - apply never_returns_bind. intros response_text.
    apply never_returns_bind. by intros now s.
  - apply never_returns_bind. by intros now s.
Qed.

(** The request [generate_response] sends. *)
Definition assistant_request (s : State) (message_content : str)
    (intent : Intent.t) (recent : Val) : ChatRequest :=
  AssistantRequest (model s) message_content
    (IntentType_value (Intent.type intent)) (json_dumps recent)
    (temperature s) (max_tokens s).

(** C2.  One attempt of [process_message], once the context is loaded
    and the intent classified.  The generator is asked, once, exactly
    when the confidence is at least 0.7 and [should_handoff] (the
    definition of [models/conversation.py]) is false; otherwise no
    request is made.  On both paths the inbound message object has been
    given the intent.  But no outbound message is ever returned: the
    [Message] is built without its required [id], so that the handoff
    path always ends in pydantic's [ValidationError], and the generation
    path in that error or in one raised while generating. *)
Theorem process_message_attempt_decides_then_raises (s : State)
    (message : Message.t) (conversation : Conversation.t) (context : Val)
    (cs1 : context_service.State) (intent : Intent.t) (s2 : State) :
  context_service.get_conversation_context (Conversation.id conversation)
    (context_service s) = (Ok context, cs1) →
  classify_intent (Message.content message) context (set_context_service cs1 s)
  = (Ok intent, s2) →
  let run := process_message_attempt message conversation s in
  let asked := drop (length (requests s2)) (requests run.2) in
  (asked ≠ [] ↔
     (Q2Qc (7 # 10) <= Intent.confidence intent)%Qc
     ∧ Intent_should_handoff intent = Ok false)
  ∧ (asked = []
     ∨ ∃ recent,
         asked = [assistant_request s (Message.content message) intent recent])
  ∧ is_ok run.1 = false
  ∧ (asked = [] →
       run.1 = Raise (pydantic.validation_error "id: Field required"))
  ∧ inbound run.2 = Some (Message.set_intent (Some intent) message).
Proof.
  intros Hget Hclassify run asked.
  destruct (classify_intent_returns _ _ _ _ _ Hclassify)
    as (messages & recent & Hmessages & Hrecent & -> & Hmetadata).
  pose proof (handoff_rule.conversation_should_handoff_plain intent) as Hrule.
  rewrite Hmetadata in Hrule. specialize (Hrule eq_refl eq_refl).
  assert (Hrun :
    ∃ r requests',
      run = (r, requests')
      ∧ is_ok r = false
      ∧ inbound requests' = Some (Message.set_intent (Some intent) message)
      ∧ if Qc_leb (Q2Qc (7 # 10)) (Intent.confidence intent)
           && negb (Intent.requires_human intent
                    || Qc_ltb (Intent.confidence intent) (Q2Qc (7 # 10))
                    || bool_decide (Intent.type intent = REQUEST_HUMAN))
        then requests requests'
             = (requests s
                ++ [classifier_request (set_context_service cs1 s)
                      (Message.content message) recent])
               ++ [assistant_request s (Message.content message) intent recent]
        else requests requests'
             = requests s
               ++ [classifier_request (set_context_service cs1 s)
                     (Message.content message) recent]
             ∧ r = Raise (pydantic.validation_error "id: Field required")).
  { subst run. unfold process_message_attempt.
    unfold try_except2. unfold mbind at 1, SE_bind at 1.
    unfold with_context_service at 1. rewrite Hget.
    unfold mbind at 1, SE_bind at 1. rewrite Hclassify.
    run_llm. rewrite Hrule.
    destruct (Qc_leb (Q2Qc (7 # 10)) (Intent.confidence intent)); simpl;
      [| by eexists _, _].
    destruct (Intent.requires_human intent
              || Qc_ltb (Intent.confidence intent) (Q2Qc (7 # 10))
              || bool_decide (Intent.type intent = REQUEST_HUMAN)); simpl;
      [by eexists _, _ |].
    rewrite Hmessages. simpl. rewrite Hrecent. simpl.
    destruct (acreate _ _) as [content | [[] msg]]; simpl;
      try (by eexists _, _).
    destruct (bool_decide (strip content = [])); simpl; by eexists _, _. }
  destruct Hrun as (r & s' & Hrun & Hraise & Hinbound & Hrequests).
  subst asked. rewrite Hrun. simpl.
  pose proof (handoff_rule.Qc_leb_true (Q2Qc (7 # 10)) (Intent.confidence intent))
    as Hconfident.
  rewrite Hrule.
  destruct (Qc_leb (Q2Qc (7 # 10)) (Intent.confidence intent));
    destruct (Intent.requires_human intent
              || Qc_ltb (Intent.confidence intent) (Q2Qc (7 # 10))
              || bool_decide (Intent.type intent = REQUEST_HUMAN));
    simpl in Hrequests.
  - destruct Hrequests as [-> ->]. rewrite drop_all.
    repeat split; try done; [by intros [_ [=]] | by left].
  - rewrite Hrequests, drop_app_length.
    repeat split; try done; [by apply Hconfident | by right; eexists].
  - destruct Hrequests as [-> ->]. rewrite drop_all.
    repeat split; try done; [| by left].
    intros [Hc _]. by apply Hconfident in Hc.
  - destruct Hrequests as [-> ->]. rewrite drop_all.
    repeat split; try done; [| by left].
    intros [Hc _]. by apply Hconfident in Hc.
Qed.

(** Under its [@retry] decorator too, [process_message] raises on
    every input: it never returns an outbound message. *)
Lemma process_message_never_returns (message : Message.t)
    (conversation : Conversation.t) :
  never_returns (process_message message conversation).
Proof.
  unfold process_message. apply never_returns_bind. intros _.
  generalize 1. generalize 3%nat.
  induction n as [| n IH]; intros attempt_number; simpl; [by intros s |].
  apply never_returns_try; [apply process_message_attempt_never_returns |].
  intros e. destruct n; [by intros s |].
  apply never_returns_bind. intros _. apply IH.
Qed.

End WithLibraries.

#[local] Existing Instance Reference.pydantic.
#[local] Existing Instance Reference.json.
#[local] Existing Instance Reference.zlib.

(** A service in front of the sample store, before any call. *)
Definition sample_llm : State :=
  mkState "gpt-4" (Q2Qc (7 # 10)) 150 context_store_facts.sample_service ∅
    None [].

Definition no_history : Val := context_service.empty_context 0.

(** A reply that is a JSON array, and one whose type is not an intent
    type. *)
Definition array_reply : OpenAI := Reference.scripted [Ok (lit "[]")].

Definition bogus_type_reply : OpenAI :=
  Reference.scripted
    [Ok (Reference.quotes
           "{'type': 'bogus', 'confidence': 0.9, 'requires_human': false}")].

Lemma classify_intent_raises_on_wrong_shape_witness :
  json_decode (lit "[]") = inr (VList [])
  ∧ ∃ msg,
      classify_intent (openai_lib := array_reply) (lit "Hello") no_history
        sample_llm
      = (Raise (mkExc TypeError msg),
         set_requests
           [classifier_request sample_llm (lit "Hello") (VList [])] sample_llm).
Proof.
  split; [reflexivity |].
  apply (classify_intent_raises_on_wrong_shape (openai_lib := array_reply)
           sample_llm (lit "Hello") no_history (VList []) (VList [])
           (lit "[]") (VList []));
    reflexivity.
Defined.

Example classify_intent_bogus_type :
  (classify_intent (openai_lib := bogus_type_reply) (lit "Hello") no_history
     sample_llm).1
  = Raise (pydantic.validation_error "validation errors for Intent").
Proof. vm_compute. reflexivity. Qed.

Example classify_intent_not_json :
  (classify_intent
     (openai_lib := Reference.scripted [Ok (lit "I think it is a greeting")])
     (lit "Hello") no_history sample_llm).1
  = Ok UNKNOWN_INTENT.
Proof. vm_compute. reflexivity. Qed.

(** An inbound message of conversation [c-3], and replies that
    classify it as a confident greeting (followed by the generated
    text), as a request for a human, and as a complaint at 0.85. *)
Definition conversation_c3 : Conversation.t := Conversation_init 0 "c-3" "lead-1".

Definition inbound_hello : Message.t :=
  conversation_facts.sample_message "m-1" "c-3" 1 None.

Definition greeting_reply : OpenAI :=
  Reference.scripted
    [Ok (Reference.quotes
           "{'type': 'greeting', 'confidence': 0.95, 'requires_human': false}");
     Ok (lit " Hi there! ")].

Definition human_reply : OpenAI :=
  Reference.scripted
    [Ok (Reference.quotes
           "{'type': 'request_human', 'confidence': 0.9, 'requires_human': true}")].

Definition complaint_reply : OpenAI :=
  Reference.scripted
    [Ok (Reference.quotes
           "{'type': 'complaint', 'confidence': 0.85, 'requires_human': false}");
     Ok (lit "We are sorry to hear that.")].

Definition greeting_intent : Intent.t :=
  Intent.mk GREETING (Q2Qc (95 # 100)) false ∅.

Definition asked_after_classification (run : Result (Message.t * Intent.t) * State)
    : list ChatRequest :=
  drop 1 (requests run.2).

Definition greeting_attempt : Result (Message.t * Intent.t) * State :=
  process_message_attempt (openai_lib := greeting_reply) inbound_hello
    conversation_c3 sample_llm.

Lemma process_message_attempt_decides_then_raises_witness :
  context_service.get_conversation_context "c-3" (context_service sample_llm)
  = (Ok no_history,
     context_service.set_redis_commands 1 context_store_facts.sample_service)
  ∧ asked_after_classification greeting_attempt
    = [assistant_request sample_llm (lit "Hello") greeting_intent (VList [])]
  ∧ is_ok greeting_attempt.1 = false
  ∧ inbound greeting_attempt.2
    = Some (Message.set_intent (Some greeting_intent) inbound_hello).
Proof.
  split; [reflexivity |].
  destruct (process_message_attempt_decides_then_raises
              (openai_lib := greeting_reply) sample_llm inbound_hello
              conversation_c3 no_history
              (context_service.set_redis_commands 1
                 context_store_facts.sample_service)
              greeting_intent
              (set_requests
                 [classifier_request sample_llm (lit "Hello") (VList [])]
                 (set_context_service
                    (context_service.set_redis_commands 1
                       context_store_facts.sample_service) sample_llm)))
    as (Hasked & Hrequest & Hraise & _ & Hinbound);
    [reflexivity | vm_compute; reflexivity |].
  split; [| split; assumption].
  destruct Hrequest as [Hnone | [recent Hone]].
  - exfalso. apply Hasked; [| exact Hnone].
    split; [vm_compute; discriminate | reflexivity].
  - vm_compute. reflexivity.
Defined.

(** The three replies, run: the greeting is answered by the generator
    and the attempt then fails on the outbound message; the request for
    a human makes no further request and fails in the same way; the
    complaint at 0.85 is sent to the generator. *)
Example process_message_greeting :
  let run := process_message (openai_lib := greeting_reply) inbound_hello
               conversation_c3 sample_llm in
  run.1 = Raise (pydantic.validation_error "id: Field required")
  ∧ length (requests run.2) = 2%nat
  ∧ API_ERRORS run.2 !! "processing_error" = Some 1.
Proof. vm_compute. repeat split. Qed.

Example process_message_request_human :
  let run := process_message (openai_lib := human_reply) inbound_hello
               conversation_c3 sample_llm in
  run.1 = Raise (pydantic.validation_error "id: Field required")
  ∧ length (requests run.2) = 1%nat.
Proof. vm_compute. repeat split. Qed.

Example process_message_complaint :
  let run := process_message (openai_lib := complaint_reply) inbound_hello
               conversation_c3 sample_llm in
  run.1 = Raise (pydantic.validation_error "id: Field required")
  ∧ length (requests run.2) = 2%nat.
Proof. vm_compute. repeat split. Qed.

End llm_facts.

(* ===================================================================== *)
(** ** Text: stripping whitespace *)
(* ===================================================================== *)

Module text_facts.

(** [lstrip] removes a run of whitespace and nothing else. *)
Lemma lstrip_split (s : str) :
  ∃ spaces, s = spaces ++ lstrip s ∧ Forall (λ c, isspace c = true) spaces.
Proof.
  induction s as [| c s (spaces & Hs & Hspaces)]; [by exists [] |].
  simpl. destruct (isspace c) eqn:Hc.
  - exists (c :: spaces). split; [simpl; by f_equal | by constructor].
  - by exists [].
Qed.

Lemma lstrip_head (s : str) (c : N) (r : str) :
  lstrip s = c :: r → isspace c = false.
Proof.
  induction s as [| d s IH]; simpl; [done |].
  destruct (isspace d) eqn:Hd; [exact IH |]. by intros [= <- _].
Qed.

Lemma lstrip_spaces (s : str) :
  Forall (λ c, isspace c = true) s → lstrip s = [].
Proof.
  induction 1 as [| c s Hc _ IH]; [done |]. simpl. by rewrite Hc.
Qed.

Lemma lstrip_nil (s : str) :
  lstrip s = [] → Forall (λ c, isspace c = true) s.
Proof.
  intros Hs. destruct (lstrip_split s) as (spaces & Heq & Hspaces).
  rewrite Hs, app_nil_r in Heq. by subst.
Qed.

Lemma lstrip_fixed (s : str) (c : N) (r : str) :
  s = c :: r → isspace c = false → lstrip s = s.
Proof. intros -> Hc. simpl. by rewrite Hc. Qed.

(** [strip] gives the empty text exactly on texts made of whitespace
    only (the empty text among them). *)
Lemma strip_nil (s : str) :
  strip s = [] ↔ Forall (λ c, isspace c = true) s.
Proof.
  unfold strip. split.
  - intros Hs. apply (f_equal reverse) in Hs.
    rewrite reverse_involutive in Hs. simpl in Hs.
    apply lstrip_nil in Hs. rewrite Forall_reverse in Hs.
    destruct (lstrip s) as [| c r] eqn:Hl; [by apply lstrip_nil |].
    apply lstrip_head in Hl. apply Forall_inv in Hs. congruence.
  - intros Hs. by rewrite (lstrip_spaces s Hs).
Qed.

(** What is left after [strip] neither starts nor ends with
    whitespace. *)
Lemma strip_ends (s : str) :
  (∀ c, head (strip s) = Some c → isspace c = false)
  ∧ (∀ c, list.last (strip s) = Some c → isspace c = false).
Proof.
  unfold strip. set (t := lstrip s).
  destruct (lstrip_split (reverse t)) as (spaces & Hsplit & Hspaces).
  set (u := lstrip (reverse t)) in *. split.
  - intros c Hc.
    assert (Ht : t = reverse u ++ reverse spaces).
    { rewrite <- reverse_app, <- Hsplit. by rewrite reverse_involutive. }
    destruct (reverse u) as [| d r] eqn:Hu; [done |].
    injection Hc as ->. rewrite Ht in *. by eapply lstrip_head.
  - intros c Hc. rewrite last_reverse in Hc.
    destruct u as [| d r] eqn:Hu; [done |].
    injection Hc as ->. by eapply lstrip_head.
Qed.

Lemma strip_strip (s : str) : strip (strip s) = strip s.
Proof.
  destruct (strip s) as [| c r] eqn:Hs; [done |].
  pose proof (strip_ends s) as [Hhead Hlast]. rewrite Hs in Hhead, Hlast.
  unfold strip. rewrite (lstrip_fixed (c :: r) c r eq_refl (Hhead c eq_refl)).
  destruct (reverse (c :: r)) as [| d r'] eqn:Hr.
  { apply (f_equal reverse) in Hr. by rewrite reverse_involutive in Hr. }
  assert (Hd : list.last (c :: r) = Some d).
  { rewrite <- (reverse_involutive (c :: r)), Hr, last_reverse. done. }
  rewrite (lstrip_fixed (d :: r') d r' eq_refl (Hlast d Hd)).
  by rewrite <- Hr, reverse_involutive.
Qed.

End text_facts.

(* ===================================================================== *)
(** ** The two handoff rules: order properties and where they agree *)
(* ===================================================================== *)

Module handoff_facts.

Import handoff_rule.

(** The same intent classified with another confidence. *)
Definition with_confidence (confidence : Qc) (i : Intent.t) : Intent.t :=
  Intent.mk (Intent.type i) confidence (Intent.requires_human i)
    (Intent.metadata i).

(** X1 ([models/intent.py], [Intent.should_handoff]): the decision is
    monotone.  An intent that is handed off at some confidence and some
    threshold is still handed off when it is classified with a lower
    confidence, and when the caller raises the threshold (within the
    valid range). *)
Theorem should_handoff_monotone (i : Intent.t) (confidence threshold threshold' : Qc) :
  in_unit_interval threshold →
  in_unit_interval threshold' →
  (confidence <= Intent.confidence i)%Qc →
  (threshold <= threshold')%Qc →
  intent.should_handoff i threshold = Ok true →
  intent.should_handoff (with_confidence confidence i) threshold' = Ok true.
Proof.
  intros Ht Ht' Hc Hle Hi.
  destruct (intent_should_handoff_rules i threshold Ht) as (b & Hb & Hrule).
  destruct (intent_should_handoff_rules (with_confidence confidence i)
              threshold' Ht') as (b' & Hb' & Hrule').
  rewrite Hb'. f_equal. apply Hrule'. simpl.
  assert (b = true) as -> by congruence.
  destruct (proj1 Hrule eq_refl) as [? | [Hlt | [? | [? Hlt]]]].
  - by left.
  - right; left. eapply Qcle_lt_trans; [exact Hc |].
    eapply Qclt_le_trans; [exact Hlt | exact Hle].
  - by right; right; left.
  - right; right; right. split; [done |]. by eapply Qcle_lt_trans.
Qed.

Definition confident_complaint : Intent.t :=
  Intent.mk COMPLAINT (Q2Qc (17 # 20)) false ∅.

Lemma should_handoff_monotone_witness :
  intent.should_handoff confident_complaint (Q2Qc (7 # 10)) = Ok true
  ∧ intent.should_handoff (with_confidence (Q2Qc (3 # 4)) confident_complaint)
      (Q2Qc (4 # 5)) = Ok true.
Proof.
  split; [reflexivity |].
  apply (should_handoff_monotone confident_complaint (Q2Qc (3 # 4))
           (Q2Qc (7 # 10)) (Q2Qc (4 # 5)));
    first [ reflexivity | split; by vm_compute | by vm_compute ].
Defined.

(** X2 ([models/conversation.py], [Intent.should_handoff]): the rule the
    conversation uses is monotone in the confidence too, metadata
    included: lowering the confidence of an intent that is handed off
    never cancels the handoff (and never makes the rule raise). *)
Theorem Intent_should_handoff_monotone (i : Intent.t) (confidence : Qc) :
  (confidence <= Intent.confidence i)%Qc →
  conversation.Intent_should_handoff i = Ok true →
  conversation.Intent_should_handoff (with_confidence confidence i) = Ok true.
Proof.
  intros Hc. unfold conversation.Intent_should_handoff. simpl.
  destruct (Intent.requires_human i); [done |].
  destruct (Qc_ltb confidence conversation.DEFAULT_HANDOFF_THRESHOLD) eqn:Hlow;
    [done |].
  apply Qc_ltb_false in Hlow.
  destruct (Qc_ltb (Intent.confidence i) conversation.DEFAULT_HANDOFF_THRESHOLD)
    eqn:Hlow'; [| done].
  apply Qc_ltb_true in Hlow'. destruct Hlow. by eapply Qcle_lt_trans.
Qed.

Definition unhappy_question : Intent.t :=
  Intent.mk QUESTION (Q2Qc (19 # 20)) false
    {[ "sentiment_score" := VFloat (Q2Qc (1 # 10)) ]}.

Lemma Intent_should_handoff_monotone_witness :
  conversation.Intent_should_handoff unhappy_question = Ok true
  ∧ conversation.Intent_should_handoff
      (with_confidence (Q2Qc (4 # 5)) unhappy_question) = Ok true.
Proof.
  split; [reflexivity |].
  apply (Intent_should_handoff_monotone unhappy_question (Q2Qc (4 # 5)));
    [by vm_compute | reflexivity].
Defined.

(** X3 (both [should_handoff] methods): on an intent whose metadata
    declares neither a sentiment score nor urgency, the two rules give
    the same answer at the default threshold 0.7, except for a complaint
    classified with a confidence in [0.7, 0.9) that does not already
    require a human: the complaint rule of [models/intent.py] is the only
    difference there. *)
Theorem should_handoff_definitions_agree (i : Intent.t) :
  Intent.metadata i !! "sentiment_score" = None →
  Intent.metadata i !! "urgent" = None →
  ¬ (Intent.type i = COMPLAINT
     ∧ Intent.requires_human i = false
     ∧ (Q2Qc (7 # 10) <= Intent.confidence i)%Qc
     ∧ (Intent.confidence i < Q2Qc (9 # 10))%Qc) →
  intent.should_handoff i conversation.DEFAULT_HANDOFF_THRESHOLD
  = conversation.Intent_should_handoff i.
Proof.
  intros Hs Hu Hcomplaint.
  rewrite (conversation_should_handoff_plain i Hs Hu).
  unfold intent.should_handoff, conversation.DEFAULT_HANDOFF_THRESHOLD.
  replace (Qc_leb 0 (Q2Qc (7 # 10))) with true by (symmetry; by apply Qc_leb_true).
  replace (Qc_leb (Q2Qc (7 # 10)) 1) with true by (symmetry; by apply Qc_leb_true).
  simpl.
  destruct (Intent.requires_human i) eqn:Hh; [done |].
  destruct (Qc_ltb (Intent.confidence i) (Q2Qc (7 # 10))) eqn:Hlow; [done |].
  case_bool_decide as Hr; [done |]. simpl.
  case_bool_decide as Hc; [| done]. simpl.
  destruct (Qc_ltb (Intent.confidence i) (Q2Qc (9 # 10))) eqn:H9; [| done].
  destruct Hcomplaint. apply Qc_ltb_true in H9. apply Qc_ltb_false in Hlow.
  repeat split; try done. by apply Qcnot_lt_le.
Qed.

Lemma should_handoff_definitions_agree_witness :
  intent.should_handoff (with_confidence (Q2Qc (19 # 20)) confident_complaint)
    conversation.DEFAULT_HANDOFF_THRESHOLD
  = conversation.Intent_should_handoff
      (with_confidence (Q2Qc (19 # 20)) confident_complaint).
Proof.
  apply (should_handoff_definitions_agree
           (with_confidence (Q2Qc (19 # 20)) confident_complaint));
    [reflexivity | reflexivity |].
  intros (_ & _ & _ & Hlt). by vm_compute in Hlt.
Defined.

End handoff_facts.

(* ===================================================================== *)
(** ** The conversation aggregate: what every call to [add_message] keeps *)
(* ===================================================================== *)

Module conversation_invariants.

Import conversation conversation_facts handoff_rule.

(** The conversation once the message is appended and the average
    re-weighted, the first two statements of [add_message]. *)
Definition appended (m : Message.t) (c : Conversation.t) : Conversation.t :=
  Conversation.set_ai_confidence_avg
    ((Conversation.ai_confidence_avg c
        * Qc_of_Z (Z.of_nat (length (Conversation.messages c)))
      + Message.ai_confidence m)
     / Qc_of_Z (Z.of_nat (length (Conversation.messages c)) + 1))%Qc
    (Conversation.set_messages (Conversation.messages c ++ [m]) c).

(** The whole effect of a call for a message of the conversation. *)
Lemma add_message_owned (utcnow : datetime) (m : Message.t) (c : Conversation.t) :
  Message.conversation_id m = Conversation.id c →
  add_message utcnow m c
  = match Message.intent m with
    | None => (Ok (), Conversation.set_updated_at utcnow (appended m c))
    | Some i =>
        match Intent_should_handoff i with
        | Ok true =>
            (Ok (), Conversation.set_updated_at utcnow
                      (Conversation.set_status HUMAN_NEEDED
                         (Conversation.set_current_intent (Some i) (appended m c))))
        | Ok false =>
            (Ok (), Conversation.set_updated_at utcnow
                      (Conversation.set_current_intent (Some i) (appended m c)))
        | Raise e =>
            (Raise e, Conversation.set_current_intent (Some i) (appended m c))
        end
    end.
Proof.
  intros Hid.
  unfold add_message, appended, mbind, SE_bind, get_state, modify, raise, lift,
    mret, SE_ret.
  rewrite bool_decide_eq_false_2 by auto. simpl.
  rewrite length_app. simpl.
  replace (Z.of_nat (length (Conversation.messages c) + 1) - 1)
    with (Z.of_nat (length (Conversation.messages c))) by lia.
  replace (Z.of_nat (length (Conversation.messages c) + 1))
    with (Z.of_nat (length (Conversation.messages c)) + 1) by lia.
  destruct (Message.intent m) as [i |]; simpl; [| done].
  destruct (Intent_should_handoff i) as [[|] | e]; simpl; done.
Qed.

Lemma add_message_foreign (utcnow : datetime) (m : Message.t) (c : Conversation.t) :
  Message.conversation_id m ≠ Conversation.id c →
  (add_message utcnow m c).2 = c.
Proof.
  intros Hid. pose proof (add_message_state utcnow m c) as [_ Hst].
  simpl in Hst. by rewrite bool_decide_eq_true_2 in Hst.
Qed.

Lemma Qc_of_Z_nonneg (n : nat) : (0 <= Qc_of_Z (Z.of_nat n))%Qc.
Proof.
  unfold Qc_of_Z, Qcle. simpl.
  rewrite (Qred_correct (inject_Z (Z.of_nat n))).
  unfold Qle. simpl. lia.
Qed.

Lemma Qc_of_Z_succ (z : Z) : Qc_of_Z (z + 1) = (Qc_of_Z z + 1)%Qc.
Proof. by rewrite Qc_of_Z_plus. Qed.

(** A weighted mean of two numbers of the unit interval lies in it. *)
Lemma weighted_mean_bounds (a x n : Qc) :
  in_unit_interval a → in_unit_interval x → (0 <= n)%Qc →
  in_unit_interval ((a * n + x) / (n + 1))%Qc.
Proof.
  intros [Ha0 Ha1] [Hx0 Hx1] Hn.
  assert (Hpos : (0 < n + 1)%Qc).
  { apply Qclt_le_trans with 1%Qc; [done |].
    rewrite <- (Qcplus_0_l 1) at 1. apply Qcplus_le_compat; [done |].
    apply Qcle_refl. }
  assert (Hne : (n + 1)%Qc ≠ 0%Qc).
  { intros Heq. rewrite Heq in Hpos. by apply Qclt_not_eq in Hpos. }
  assert (Han0 : (0 <= a * n)%Qc).
  { rewrite <- (Qcmult_0_l n). by apply Qcmult_le_compat_r. }
  assert (Han1 : (a * n <= n)%Qc).
  { rewrite <- (Qcmult_1_l n) at 2. by apply Qcmult_le_compat_r. }
  split; apply Qcmult_lt_0_le_reg_r with (n + 1)%Qc; try done.
  - replace ((a * n + x) / (n + 1) * (n + 1))%Qc with (a * n + x)%Qc
      by (field; done).
    rewrite Qcmult_0_l. rewrite <- (Qcplus_0_r 0). by apply Qcplus_le_compat.
  - replace ((a * n + x) / (n + 1) * (n + 1))%Qc with (a * n + x)%Qc
      by (field; done).
    rewrite Qcmult_1_l. by apply Qcplus_le_compat.
Qed.

Lemma after_calls_id calls c :
  Conversation.id (after_calls calls c) = Conversation.id c.
Proof.
  induction calls as [| [utcnow m] calls IH] using rev_ind; [done |].
  rewrite after_calls_snoc.
  pose proof (add_message_state utcnow m (after_calls calls c)) as [Hid _].
  simpl in Hid. congruence.
Qed.

(** X4 ([Conversation.add_message]): [ai_confidence_avg] never leaves
    the unit interval.  If it lies in [0, 1] and so does the confidence of
    every message passed to [add_message], it lies in [0, 1] after any
    series of calls, those that raise included. *)
Theorem add_message_average_in_unit_interval (c : Conversation.t)
    (calls : list (datetime * Message.t)) :
  in_unit_interval (Conversation.ai_confidence_avg c) →
  Forall (λ call, in_unit_interval (Message.ai_confidence call.2)) calls →
  in_unit_interval (Conversation.ai_confidence_avg (after_calls calls c)).
Proof.
  intros Hc. induction calls as [| [utcnow m] calls IH] using rev_ind; [done |].
  intros Hcalls. apply Forall_app in Hcalls as [Hcalls Hm].
  apply Forall_inv in Hm. simpl in Hm. specialize (IH Hcalls).
  rewrite after_calls_snoc.
  pose proof (add_message_state utcnow m (after_calls calls c)) as [_ Hst].
  simpl in Hst. case_bool_decide; [by rewrite Hst |].
  destruct Hst as [_ ->]. rewrite Qc_of_Z_succ.
  apply weighted_mean_bounds; [done | done | apply Qc_of_Z_nonneg].
Qed.

Lemma add_message_average_in_unit_interval_witness :
  in_unit_interval
    (Conversation.ai_confidence_avg (after_calls sample_calls sample_conversation)).
Proof.
  apply (add_message_average_in_unit_interval sample_conversation sample_calls).
  - split; by vm_compute.
  - repeat constructor; by vm_compute.
Defined.

(** X5 ([Conversation.add_message]): [current_intent] is the intent of
    the latest appended message that carries one, and the intent the
    conversation had before when none does; messages without an intent
    never clear it. *)
Theorem current_intent_is_latest (c : Conversation.t)
    (calls : list (datetime * Message.t)) :
  Forall (λ call, Message.conversation_id call.2 = Conversation.id c) calls →
  Conversation.current_intent (after_calls calls c)
  = from_option Some (Conversation.current_intent c)
      (list.last (omap Message.intent calls.*2)).
Proof.
  induction calls as [| [utcnow m] calls IH] using rev_ind; [done |].
  intros Hown. apply Forall_app in Hown as [Hown Hm].
  apply Forall_inv in Hm. simpl in Hm. specialize (IH Hown).
  rewrite after_calls_snoc, fmap_app, omap_app. simpl.
  rewrite add_message_owned by (by rewrite after_calls_id).
  destruct (Message.intent m) as [i |]; simpl.
  - rewrite last_snoc. simpl.
    destruct (Intent_should_handoff i) as [[|] | e]; done.
  - by rewrite app_nil_r.
Qed.

Lemma current_intent_is_latest_witness :
  Conversation.current_intent (after_calls sample_calls sample_conversation)
  = Some (Intent.mk REQUEST_HUMAN (Q2Qc (9 # 10)) true ∅).
Proof.
  apply (current_intent_is_latest sample_conversation sample_calls).
  repeat constructor.
Defined.

(** Whether a call for this message switches the conversation to
    [HUMAN_NEEDED]: the message is accepted and the rule holds of its
    intent. *)
Definition hands_off (c : Conversation.t) (m : Message.t) : bool :=
  bool_decide (Message.conversation_id m = Conversation.id c)
  && match Message.intent m with
     | Some i => match Intent_should_handoff i with
                 | Ok true => true
                 | _ => false
                 end
     | None => false
     end.

Lemma add_message_status (utcnow : datetime) (m : Message.t) (c : Conversation.t) :
  Conversation.status (add_message utcnow m c).2
  = if hands_off c m then HUMAN_NEEDED else Conversation.status c.
Proof.
  unfold hands_off. case_bool_decide as Hid; simpl.
  - rewrite add_message_owned by done.
    destruct (Message.intent m) as [i |]; simpl; [| done].
    destruct (Intent_should_handoff i) as [[|] | e]; done.
  - by rewrite add_message_foreign.
Qed.

(** X6 ([Conversation.add_message]): the only change the method ever
    makes to [status] is to [HUMAN_NEEDED].  After any series of calls
    the status is [HUMAN_NEEDED] if one of the accepted messages had an
    intent to hand off, and the status the conversation started with
    otherwise: nothing a later message says brings a conversation back
    from [HUMAN_NEEDED], and a [COMPLETED] or [ARCHIVED] conversation is
    moved to [HUMAN_NEEDED] like any other. *)
Theorem add_message_status_only_escalates (c : Conversation.t)
    (calls : list (datetime * Message.t)) :
  Conversation.status (after_calls calls c)
  = if existsb (hands_off c) calls.*2 then HUMAN_NEEDED
    else Conversation.status c.
Proof.
  induction calls as [| [utcnow m] calls IH] using rev_ind; [done |].
  rewrite after_calls_snoc, fmap_app, existsb_app. simpl.
  rewrite add_message_status.
  replace (hands_off (after_calls calls c) m) with (hands_off c m)
    by (unfold hands_off; by rewrite after_calls_id).
  rewrite IH. rewrite orb_false_r.
  destruct (hands_off c m), (existsb (hands_off c) calls.*2); done.
Qed.

(** The rule of [models/conversation.py] raises only on the comparison
    of a declared sentiment score that is not a number. *)
Lemma Intent_should_handoff_raises (i : Intent.t) (e : Exc) :
  Intent_should_handoff i = Raise e →
  exc_class e = TypeError
  ∧ ∃ v, Intent.metadata i !! "sentiment_score" = Some v
         ∧ is_ok (lt_float v (Q2Qc (3 # 10))) = false.
Proof.
  unfold Intent_should_handoff, dict_get.
  destruct (Intent.requires_human i); [done |].
  destruct (Qc_ltb _ _); [done |].
  case_bool_decide; [done |].
  destruct (Intent.metadata i !! "sentiment_score") as [v |] eqn:Hv; simpl.
  - destruct v; simpl;
      try (destruct (Qc_ltb _ _); [done |];
           destruct (truthy _); done);
      intros [= <-]; split; try done; eexists; split; done.
  - destruct (truthy _); done.
Qed.

(** X7 ([Conversation.add_message]): the method is not atomic.  When
    the handoff rule raises on the intent of an accepted message (a
    [TypeError], from a sentiment score that is not a number), the error
    leaves [add_message] after the message has been appended, the average
    re-weighted and [current_intent] replaced, and before [status] and
    [updated_at] are touched. *)
Theorem add_message_partial_update (utcnow : datetime) (m : Message.t)
    (c : Conversation.t) (i : Intent.t) (e : Exc) :
  Message.conversation_id m = Conversation.id c →
  Message.intent m = Some i →
  Intent_should_handoff i = Raise e →
  (add_message utcnow m c).1 = Raise e
  ∧ exc_class e = TypeError
  ∧ Conversation.messages (add_message utcnow m c).2
    = Conversation.messages c ++ [m]
  ∧ Conversation.ai_confidence_avg (add_message utcnow m c).2
    = Conversation.ai_confidence_avg (appended m c)
  ∧ Conversation.current_intent (add_message utcnow m c).2 = Some i
  ∧ Conversation.status (add_message utcnow m c).2 = Conversation.status c
  ∧ Conversation.updated_at (add_message utcnow m c).2
    = Conversation.updated_at c.
Proof.
  intros Hid Hi He. rewrite add_message_owned by done. rewrite Hi, He.
  apply Intent_should_handoff_raises in He as [He _]. done.
Qed.

Definition mistyped_sentiment : Intent.t :=
  Intent.mk QUESTION (Q2Qc (19 # 20)) false
    {[ "sentiment_score" := VStr (lit "low") ]}.

Definition mistyped_message : Message.t :=
  sample_message "m-4" "c-1" (Q2Qc (19 # 20)) (Some mistyped_sentiment).

Lemma add_message_partial_update_witness :
  (add_message 4000000 mistyped_message sample_conversation).1
  = Raise (mkExc TypeError "'<' not supported between instances")
  ∧ Conversation.messages
      (add_message 4000000 mistyped_message sample_conversation).2
    = [mistyped_message]
  ∧ Conversation.updated_at
      (add_message 4000000 mistyped_message sample_conversation).2 = 0.
Proof.
  pose proof (add_message_partial_update 4000000 mistyped_message
                sample_conversation mistyped_sentiment
                (mkExc TypeError "'<' not supported between instances")
                eq_refl eq_refl eq_refl)
    as (Hraise & _ & Hmessages & _ & _ & _ & Hupdated).
  split; [exact Hraise |]. split; [exact Hmessages | exact Hupdated].
Defined.

(** X8 ([Conversation.add_message] then [Conversation.should_handoff]):
    a handoff is permanent.  Once one of the accepted messages had an
    intent to hand off, [should_handoff] answers [True] at every instant
    and whatever messages followed, as long as the rule can be evaluated
    on every intent that was passed. *)
Theorem handoff_is_permanent (c : Conversation.t)
    (calls : list (datetime * Message.t)) (utcnow : datetime) :
  Forall (λ call, Message.conversation_id call.2 = Conversation.id c) calls →
  Forall (λ call, ∀ i, Message.intent call.2 = Some i →
                       is_ok (Intent_should_handoff i) = true) calls →
  existsb (hands_off c) calls.*2 = true →
  Conversation_should_handoff utcnow (after_calls calls c) = Ok true.
Proof.
  intros Hown Heval Hsome.
  assert (Hinv : Conversation.status (after_calls calls c) = HUMAN_NEEDED
                 ∧ ∀ i, Conversation.current_intent (after_calls calls c) = Some i →
                        is_ok (Intent_should_handoff i) = true).
  { clear utcnow. revert Hown Heval Hsome.
    induction calls as [| [utcnow m] calls IH] using rev_ind; [done |].
    intros Hown Heval.
    apply Forall_app in Hown as [Hown Hm]. apply Forall_inv in Hm.
    apply Forall_app in Heval as [Heval Hi]. apply Forall_inv in Hi.
    simpl in Hm, Hi.
    rewrite after_calls_snoc, fmap_app, existsb_app. simpl.
    rewrite orb_false_r. intros Hsome.
    rewrite add_message_owned by (by rewrite after_calls_id).
    unfold hands_off in Hsome at 2.
    destruct (Message.intent m) as [i |] eqn:Hintent.
    - specialize (Hi i eq_refl).
      destruct (Intent_should_handoff i) as [[|] | e] eqn:Hrule; [| | done].
      + simpl. split; [done |]. intros ? [= <-]. by rewrite Hrule.
      + rewrite andb_false_r, orb_false_r in Hsome.
        destruct (IH Hown Heval Hsome) as [IHstatus _].
        simpl. split; [done |]. intros ? [= <-]. by rewrite Hrule.
    - rewrite andb_false_r, orb_false_r in Hsome.
      destruct (IH Hown Heval Hsome) as [IHstatus IHintent]. done. }
  destruct Hinv as [Hstatus Hintent].
  unfold Conversation_should_handoff. rewrite Hstatus.
  destruct (Conversation.current_intent (after_calls calls c)) as [i |].
  - specialize (Hintent i eq_refl).
    destruct (Intent_should_handoff i) as [[|] | e]; [done | | done].
    simpl. by destruct (Qc_ltb _ _).
  - simpl. by destruct (Qc_ltb _ _).
Qed.

(** A request for a human followed by a confident greeting. *)
Definition request_then_greeting : list (datetime * Message.t) :=
  [(1000000, sample_message "m-1" "c-1" (Q2Qc (9 # 10))
               (Some (Intent.mk REQUEST_HUMAN (Q2Qc (9 # 10)) false ∅)));
   (2000000, sample_message "m-2" "c-1" 1
               (Some (Intent.mk GREETING 1 false ∅)))].

Lemma handoff_is_permanent_witness :
  Conversation_should_handoff 2000001
    (after_calls request_then_greeting sample_conversation) = Ok true.
Proof.
  apply (handoff_is_permanent sample_conversation request_then_greeting 2000001).
  - repeat constructor.
  - repeat constructor; simpl; by intros ? [= <-].
  - reflexivity.
Defined.

Lemma response_time_over_SLA (d : Z) :
  Qc_ltb MAX_RESPONSE_TIME_SLA (timedelta_total_ms d) = bool_decide (500000 < d).
Proof.
  unfold Qc_ltb. apply bool_decide_ext.
  unfold MAX_RESPONSE_TIME_SLA, Qc_of_Z, timedelta_total_ms, Qclt. simpl.
  rewrite (Qred_correct (d # 1000)). unfold Qlt. simpl. lia.
Qed.

(** X9 ([Conversation.should_handoff]): the response-time rule.  For a
    conversation that no other rule hands off (its current intent does
    not, its average confidence is at least 0.7 and its status is not
    [HUMAN_NEEDED]), [should_handoff] is [True] exactly when more than 500
    milliseconds have passed since the last message was created; at
    exactly 500 ms it is still [False]. *)
Theorem should_handoff_after_SLA (utcnow : datetime) (c : Conversation.t)
    (last_message : Message.t) :
  match Conversation.current_intent c with
  | Some i => Intent_should_handoff i = Ok false
  | None => True
  end →
  (DEFAULT_HANDOFF_THRESHOLD <= Conversation.ai_confidence_avg c)%Qc →
  Conversation.status c ≠ HUMAN_NEEDED →
  list.last (Conversation.messages c) = Some last_message →
  Conversation_should_handoff utcnow c
  = Ok (bool_decide (500000 < utcnow - Message.created_at last_message)).
Proof.
  intros Hintent Havg Hstatus Hlast. unfold Conversation_should_handoff.
  replace (match Conversation.current_intent c with
           | Some i => Intent_should_handoff i
           | None => Ok false
           end) with (Ok false : Result bool)
    by (by destruct (Conversation.current_intent c)).
  simpl.
  rewrite (proj2 (Qc_ltb_false _ _)) by (by apply Qcle_not_lt).
  rewrite bool_decide_eq_false_2 by done.
  by rewrite Hlast, response_time_over_SLA.
Qed.

Definition greeted : Conversation.t :=
  after_calls [(1000000, sample_message "m-1" "c-1" 1 None)] sample_conversation.

Lemma should_handoff_after_SLA_witness :
  Conversation_should_handoff 500000 greeted = Ok false
  ∧ Conversation_should_handoff 500001 greeted = Ok true.
Proof.
  split.
  - apply (should_handoff_after_SLA 500000 greeted
             (sample_message "m-1" "c-1" 1 None));
      [exact I | by vm_compute | discriminate | reflexivity].
  - apply (should_handoff_after_SLA 500001 greeted
             (sample_message "m-1" "c-1" 1 None));
      [exact I | by vm_compute | discriminate | reflexivity].
Defined.

End conversation_invariants.

(* ===================================================================== *)
(** ** The context store: deleting, expiry, isolation, the open breaker *)
(* ===================================================================== *)

Module context_store_invariants.

Import context_service context_store_facts.

(** Whether the server holds a value under the key that has not
    expired. *)
Definition live (s : State) (key : string) : bool :=
  match redis s !! key with
  | Some (_, expires) => clock s <? expires
  | None => false
  end.

(** What [clear_context] does when the server answers: one command,
    whatever the breaker says. *)
Lemma clear_context_answered (s : State) (cid : UUID) :
  redis_fault s = None →
  clear_context cid s
  = (Ok (live s (context_key s cid)),
     set_redis (delete (context_key s cid) (redis s))
       (set_redis_commands (redis_commands s + 1) s)).
Proof.
  intros Hfault. unfold live. run_se. rewrite Hfault.
  destruct (redis s !! context_key s cid) as [[v expires] |]; [| done].
  by destruct (clock s <? expires).
Qed.

Section WithLibraries.
Context {json_lib : Json} {zlib_lib : Zlib}.

Lemma encode_raises (s : str) (e : Exc) :
  encode s = Raise e → exc_class e = UnicodeEncodeError.
Proof.
  revert e. induction s as [| c s IH]; intros e; simpl; [done |].
  destruct (encode_cp c); [| by intros [= <-]].
  destruct (encode s); simpl; [done |]. intros [= <-]. by apply IH.
Qed.

Lemma decode_raises (b : bytes) (e : Exc) :
  decode b = Raise e → exc_class e = UnicodeDecodeError.
Proof.
  assert (Hstep : ∀ (b : bytes) e (f : str → Result str),
            (∀ e, decode b = Raise e → exc_class e = UnicodeDecodeError) →
            (∀ s, is_ok (f s) = true) →
            rbind (decode b) f = Raise e → exc_class e = UnicodeDecodeError).
  { intros b' e' f Hb Hf. destruct (decode b') as [s |] eqn:Hd; simpl.
    - specialize (Hf s). destruct (f s); done.
    - intros [= <-]. by apply Hb. }
  remember (S (length b)) as n eqn:Hn.
  assert (Hlen : (length b < n)%nat) by lia. clear Hn.
  revert b e Hlen. induction n as [| n IH]; intros b e Hlen; [lia |].
  destruct b as [| b0 r0]; simpl; [done |].
  repeat (case_match; try (intros [= <-]; reflexivity);
          try (apply Hstep; [intros e''; apply IH; simpl in *; lia | done])).
Qed.

(** *** Reads and the breaker *)

(** [_is_circuit_open] always answers; it changes nothing but the
    breaker, and nothing at all when it answers that the breaker is
    open. *)
Lemma is_circuit_open_answers (s : State) :
  ∃ open, (_is_circuit_open s).1 = Ok open
          ∧ (open = true → (_is_circuit_open s).2 = s)
          ∧ redis (_is_circuit_open s).2 = redis s
          ∧ clock (_is_circuit_open s).2 = clock s
          ∧ redis_fault (_is_circuit_open s).2 = redis_fault s.
Proof.
  unfold _is_circuit_open, utcnow, modify, mbind, SE_bind, get_state, mret,
    SE_ret.
  repeat case_match; simplify_eq; eexists; by repeat split.
Qed.

(** Its answer depends on the breaker and on the clock only. *)
Lemma is_circuit_open_same (s s' : State) :
  circuit_breaker s' = circuit_breaker s →
  clock s' = clock s →
  (_is_circuit_open s').1 = (_is_circuit_open s).1.
Proof.
  intros Hcb Hclock.
  unfold _is_circuit_open, utcnow, modify, mbind, SE_bind, get_state, mret,
    SE_ret.
  simpl. rewrite Hcb.
  destruct (last_failure (circuit_breaker s)) as [last |]; [| done].
  destruct (threshold (circuit_breaker s) <=? failures (circuit_breaker s));
    [| done].
  simpl. rewrite Hclock.
  by destruct (timedelta_seconds (clock s - last)
               <? reset_timeout (circuit_breaker s)).
Qed.

(** A read while the breaker is open: turned away, and recorded as a
    failure. *)
Lemma get_conversation_context_turned_away (s : State) (cid : UUID) :
  (_is_circuit_open s).1 = Ok true →
  get_conversation_context cid s = (Raise circuit_open_error, failure_recorded s).
Proof.
  intros Hopen.
  destruct (is_circuit_open_answers s) as (open & Hanswer & Hsame & _).
  assert (open = true) as -> by congruence. specialize (Hsame eq_refl).
  unfold get_conversation_context, mbind at 1, SE_bind at 1, get_state at 1.
  unfold try_except at 1, mbind at 1, SE_bind at 1.
  destruct (_is_circuit_open s) as [r s0]. simpl in *. by subst.
Qed.

(** What the server's answer reads as: the method after the breaker
    has let the read through. *)
Definition answer (s : State) (cid : UUID) : Result Val :=
  match redis s !! context_key s cid with
  | Some (raw_data, expires) =>
      if clock s <? expires then
        match raw_data with
        | [] => Ok (empty_context (clock s))
        | _ =>
            match parse_raw_data raw_data with
            | Ok context => Ok context
            | Raise e =>
                if isinstance e [JSONDecodeError; ZlibError] then
                  Raise (mkExc ValueError
                           ("Invalid context data: " +:+ exc_msg e))
                else Raise e
            end
        end
      else Ok (empty_context (clock s))
  | None => Ok (empty_context (clock s))
  end.

(** A read that the breaker lets through, the server answering. *)
Lemma get_conversation_context_let_through (s : State) (cid : UUID) :
  (_is_circuit_open s).1 = Ok false →
  redis_fault s = None →
  (get_conversation_context cid s).1 = answer s cid.
Proof.
  intros Hclosed Hfault.
  destruct (is_circuit_open_answers s)
    as (open & _ & _ & Hredis & Hclock & Hfault0).
  unfold get_conversation_context, mbind at 1, SE_bind at 1, get_state at 1.
  unfold try_except at 1, mbind at 1, SE_bind at 1.
  destruct (_is_circuit_open s) as [r s0]. simpl in Hclosed, Hredis, Hclock,
    Hfault0. subst r.
  unfold answer. run_se. rewrite Hfault0, Hfault, Hredis, Hclock. simpl.
  destruct (redis s !! context_key s cid) as [[raw_data expires] |];
    [| simpl; by rewrite Hclock].
  destruct (clock s <? expires); [| simpl; by rewrite Hclock].
  destruct raw_data as [| c raw_data]; [simpl; by rewrite Hclock |].
  pose proof (parse_raw_data_raises (c :: raw_data)) as Hclass.
  destruct (parse_raw_data (c :: raw_data)) as [context | e]; [done |].
  specialize (Hclass e eq_refl). destruct e as [cls msg]. simpl in Hclass.
  rewrite !elem_of_cons, elem_of_nil in Hclass.
  destruct Hclass as [-> | [-> | [-> | [-> | []]]]]; reflexivity.
Qed.

(** X10 ([ContextService.clear_context], then
    [get_conversation_context]): with the server answering,
    [clear_context] sends its command whatever state the breaker is in
    and returns whether a live context was removed: [False], not an
    error, when there was none; clearing again returns [False].  A read
    that follows returns the empty context when the breaker lets it
    through ([_is_circuit_open] answers [False]), and is turned away with
    the circuit-open [RedisError] when the breaker is open. *)
Theorem clear_context_then_read (s : State) (cid : UUID) :
  redis_fault s = None →
  (clear_context cid s).1 = Ok (live s (context_key s cid))
  ∧ (clear_context cid (clear_context cid s).2).1 = Ok false
  ∧ ((_is_circuit_open s).1 = Ok false →
     (get_conversation_context cid (clear_context cid s).2).1
     = Ok (empty_context (clock s)))
  ∧ ((_is_circuit_open s).1 = Ok true →
     (get_conversation_context cid (clear_context cid s).2).1
     = Raise circuit_open_error).
Proof.
  intros Hfault. rewrite (clear_context_answered s cid Hfault).
  split; [done |]. split; [| split].
  - rewrite clear_context_answered by done. simpl. unfold live, context_key.
    simpl. by rewrite lookup_delete_eq.
  - intros Hclosed. cbn [snd].
    rewrite get_conversation_context_let_through;
      [| by rewrite <- Hclosed; apply is_circuit_open_same | done].
    unfold answer, context_key. simpl. by rewrite lookup_delete_eq.
  - intros Hopen. cbn [snd].
    rewrite get_conversation_context_turned_away;
      [done | by rewrite <- Hopen; apply is_circuit_open_same].
Qed.

(** A context whose serialization does not exceed the compression
    threshold is stored as it is, for [context_ttl] seconds; the breaker
    is not asked. *)
Lemma update_context_stored (s : State) (cid : UUID) (context : Dict) :
  redis_fault s = None →
  Z.of_nat (length (json_dumps (VDict (stamped s context))))
    ≤ compression_threshold s →
  update_context cid (VDict context) s
  = (Ok true,
     set_redis
       (<[context_key s cid :=
            (json_dumps (VDict (stamped s context)),
             clock s + context_ttl s * 1000000)]> (redis s))
       (set_redis_commands (redis_commands s + 1) s)).
Proof.
  intros Hfault Hshort. run_se. fold (stamped s context).
  destruct (Z.ltb_spec (compression_threshold s)
              (Z.of_nat (length (json_dumps (VDict (stamped s context))))));
    [lia |].
  simpl. by rewrite Hfault.
Qed.

Lemma update_context_failed (s : State) (cid : UUID) (context : Dict)
    (msg : string) :
  redis_fault s = Some msg →
  Z.of_nat (length (json_dumps (VDict (stamped s context))))
    ≤ compression_threshold s →
  update_context cid (VDict context) s
  = (Raise (mkExc RedisError ("Failed to update context: " +:+ msg)),
     failure_recorded (set_redis_commands (redis_commands s + 1) s)).
Proof.
  intros Hfault Hshort. run_se. fold (stamped s context).
  destruct (Z.ltb_spec (compression_threshold s)
              (Z.of_nat (length (json_dumps (VDict (stamped s context))))));
    [lia |].
  simpl. by rewrite Hfault.
Qed.

Lemma clear_context_failed (s : State) (cid : UUID) (msg : string) :
  redis_fault s = Some msg →
  clear_context cid s
  = (Raise (mkExc RedisError ("Failed to clear context: " +:+ msg)),
     failure_recorded (set_redis_commands (redis_commands s + 1) s)).
Proof. intros Hfault. run_se. by rewrite Hfault. Qed.

(** The text [update_context] hands to [setex]: the stamped context
    serialized and, above the size threshold, compressed when that pays
    (the statements of the method between the type check and the
    [setex]). *)
Definition payload (s : State) (context : Dict) : Result str :=
  let context_data := json_dumps (VDict (stamped s context)) in
  let data_size := Z.of_nat (length context_data) in
  if compression_threshold s <? data_size then
    encoded ← encode context_data;
    let compressed_data := zlib_compress encoded in
    let compression_ratio :=
      (Qc_of_Z (Z.of_nat (length compressed_data)) / Qc_of_Z data_size)%Qc in
    if Qc_ltb compression_ratio (Q2Qc (9 # 10)) then
      decoded ← decode compressed_data;
      Ok (lit "compressed:" ++ decoded)
    else Ok context_data
  else Ok context_data.

(** The context as the server holds it after a write. *)
Definition written (s : State) (cid : UUID) (context_data : str) : State :=
  set_redis
    (<[context_key s cid :=
         (context_data, clock s + context_ttl s * 1000000)]> (redis s))
    (set_redis_commands (redis_commands s + 1) s).

Lemma payload_raises (s : State) (context : Dict) (e : Exc) :
  payload s context = Raise e →
  exc_class e = UnicodeEncodeError ∨ exc_class e = UnicodeDecodeError.
Proof.
  unfold payload, mbind, Result_bind, rbind.
  repeat case_match; try done; intros [= <-];
    match goal with
    | H : encode _ = Raise _ |- _ => apply encode_raises in H; by left
    | H : decode _ = Raise _ |- _ => apply decode_raises in H; by right
    end.
Qed.

(** [update_context] on a dict, whatever the breaker holds: the payload
    is prepared, and then one command is sent. *)
Lemma update_context_unfolded (s : State) (cid : UUID) (context : Dict) :
  update_context cid (VDict context) s
  = match payload s context with
    | Raise e => (Raise e, s)
    | Ok context_data =>
        match redis_fault s with
        | Some msg =>
            (Raise (mkExc RedisError ("Failed to update context: " +:+ msg)),
             failure_recorded (set_redis_commands (redis_commands s + 1) s))
        | None => (Ok true, written s cid context_data)
        end
    end.
Proof.
  pose proof (payload_raises s context) as Hclass.
  unfold payload, written in *. run_se. fold (stamped s context) in *.
  unfold mbind, Result_bind, rbind in *.
  destruct (compression_threshold s
            <? Z.of_nat (length (json_dumps (VDict (stamped s context)))));
    simpl in *.
  - destruct (encode (json_dumps (VDict (stamped s context))))
      as [encoded | e]; simpl in *.
    + destruct (Qc_ltb _ _); simpl in *.
      * destruct (decode (zlib_compress encoded)) as [decoded | e]; simpl in *.
        -- by destruct (redis_fault s).
        -- destruct (Hclass e eq_refl) as [-> | ->]; done.
      * by destruct (redis_fault s).
    + destruct (Hclass e eq_refl) as [-> | ->]; done.
  - by destruct (redis_fault s).
Qed.

(** X11 ([ContextService.update_context], [clear_context]): writes and
    deletes never consult the breaker, and feed it.  In every state of
    the breaker, open included, [clear_context] sends its command, and
    [update_context] on a dict sends its command unless preparing the
    payload raises ([UnicodeEncodeError] or [UnicodeDecodeError], on the
    compression path), in which case that error leaves the method with no
    command sent and nothing recorded.  When the server fails the
    command, the call raises [RedisError] with the operation's prefix,
    the error counter goes up by one and one more failure is recorded at
    the clock reading; when the server answers, the write is stored, the
    delete is done, and the breaker is left as it was. *)
Theorem writes_feed_the_breaker (s : State) (cid : UUID) (context : Dict) :
  redis_commands (clear_context cid s).2 = redis_commands s + 1
  ∧ (∀ msg, redis_fault s = Some msg →
       clear_context cid s
       = (Raise (mkExc RedisError ("Failed to clear context: " +:+ msg)),
          failure_recorded (set_redis_commands (redis_commands s + 1) s)))
  ∧ (redis_fault s = None →
       is_ok (clear_context cid s).1 = true
       ∧ circuit_breaker (clear_context cid s).2 = circuit_breaker s)
  ∧ match payload s context with
    | Raise e =>
        update_context cid (VDict context) s = (Raise e, s)
        ∧ (exc_class e = UnicodeEncodeError ∨ exc_class e = UnicodeDecodeError)
    | Ok context_data =>
        redis_commands (update_context cid (VDict context) s).2
        = redis_commands s + 1
        ∧ (∀ msg, redis_fault s = Some msg →
             update_context cid (VDict context) s
             = (Raise (mkExc RedisError ("Failed to update context: " +:+ msg)),
                failure_recorded
                  (set_redis_commands (redis_commands s + 1) s)))
        ∧ (redis_fault s = None →
             update_context cid (VDict context) s
             = (Ok true, written s cid context_data))
    end.
Proof.
  split; [| split; [| split]].
  - destruct (redis_fault s) as [msg |] eqn:Hfault.
    + by rewrite (clear_context_failed s cid msg Hfault).
    + by rewrite (clear_context_answered s cid Hfault).
  - intros msg Hfault. by apply clear_context_failed.
  - intros Hfault. by rewrite (clear_context_answered s cid Hfault).
  - rewrite update_context_unfolded.
    pose proof (payload_raises s context) as Hclass.
    destruct (payload s context) as [context_data | e]; [| by auto].
    destruct (redis_fault s) as [msg |]; simpl.
    + split; [done |]. split; [by intros ? [= <-] | done].
    + split; [done |]. split; done.
Qed.

(** What a write or a delete leaves alone when the server answers:
    everything but the server's entry under the conversation's key and
    the count of commands. *)
Definition same_but_key (key : string) (s s' : State) : Prop :=
  circuit_breaker s' = circuit_breaker s
  ∧ ERROR_COUNTER s' = ERROR_COUNTER s
  ∧ clock s' = clock s
  ∧ version s' = version s
  ∧ redis_fault s' = redis_fault s
  ∧ ∀ k, k ≠ key → redis s' !! k = redis s !! k.

Lemma update_context_same_but_key (s : State) (cid : UUID) (context : Val) :
  redis_fault s = None →
  same_but_key (context_key s cid) s (update_context cid context s).2.
Proof.
  intros Hfault. unfold same_but_key. run_se.
  repeat case_match; simplify_eq; simpl;
    repeat match goal with
    | H : encode _ = Raise _ |- _ => apply encode_raises in H
    | H : decode _ = Raise _ |- _ => apply decode_raises in H
    | H : exc_class ?e = _, H' : context [exc_class ?e] |- _ =>
        rewrite H in H'; simpl in H'
    end;
    repeat split; try done; try congruence;
    try (intros k Hk; by rewrite lookup_insert_ne).
Qed.

Lemma clear_context_same_but_key (s : State) (cid : UUID) :
  redis_fault s = None →
  same_but_key (context_key s cid) s (clear_context cid s).2.
Proof.
  intros Hfault. rewrite clear_context_answered by done.
  unfold same_but_key. simpl. repeat split; try done.
  intros k Hk. by rewrite lookup_delete_ne.
Qed.

Lemma context_key_inj (s : State) (cid cid' : UUID) :
  context_key s cid = context_key s cid' → cid = cid'.
Proof.
  unfold context_key. intros Heq.
  by repeat (apply (inj (String.append _)) in Heq).
Qed.

(** A read that the server answers depends on the state only through
    the breaker, the clock, the version and the entry under the key. *)
Lemma get_conversation_context_same (s s' : State) (cid : UUID) :
  redis_fault s = None →
  circuit_breaker s' = circuit_breaker s →
  clock s' = clock s →
  version s' = version s →
  redis_fault s' = redis_fault s →
  redis s' !! context_key s cid = redis s !! context_key s cid →
  (get_conversation_context cid s').1 = (get_conversation_context cid s).1.
Proof.
  intros Hfault Hcb Hclock Hversion Hfault' Hkey.
  pose proof (is_circuit_open_same s s' Hcb Hclock) as Hsame.
  destruct (is_circuit_open_answers s) as (open & Hopen & _).
  rewrite Hopen in Hsame. destruct open.
  - rewrite (get_conversation_context_turned_away s cid Hopen).
    by rewrite (get_conversation_context_turned_away s' cid Hsame).
  - rewrite (get_conversation_context_let_through s cid Hopen Hfault).
    rewrite (get_conversation_context_let_through s' cid Hsame)
      by congruence.
    unfold answer.
    replace (context_key s' cid) with (context_key s cid)
      by (unfold context_key; by rewrite Hversion).
    by rewrite Hkey, Hclock.
Qed.

(** X12 ([ContextService], the three operations): while the server
    answers, conversations do not interfere, whatever state the breaker
    is in.  Writing the context of one conversation (also when the write
    raises while its payload is prepared, or is given something that is
    not a dict) or clearing it does not change what a read of any other
    conversation returns.  A write or delete that the server refuses is
    outside this statement: it records a failure on the breaker that all
    conversations share. *)
Theorem contexts_are_isolated (s : State) (cid cid' : UUID) (context : Val) :
  cid ≠ cid' →
  redis_fault s = None →
  (get_conversation_context cid' (update_context cid context s).2).1
  = (get_conversation_context cid' s).1
  ∧ (get_conversation_context cid' (clear_context cid s).2).1
    = (get_conversation_context cid' s).1.
Proof.
  intros Hne Hfault.
  assert (Hkey : context_key s cid' ≠ context_key s cid).
  { intros Heq. by apply context_key_inj in Heq. }
  split.
  - destruct (update_context_same_but_key s cid context Hfault)
      as (? & ? & ? & ? & ? & Hother).
    apply get_conversation_context_same; auto.
  - destruct (clear_context_same_but_key s cid Hfault)
      as (? & ? & ? & ? & ? & Hother).
    apply get_conversation_context_same; auto.
Qed.

(** X13 ([ContextService.update_context] then
    [get_conversation_context]): a stored context lives for
    [context_ttl] seconds.  With the server answering, a context whose
    serialization does not exceed the compression threshold is stored,
    whatever state the breaker is in.  A later read that the breaker lets
    through ([_is_circuit_open] answers [False] at the instant of the
    read) returns the context, stamped, at every instant before the clock
    reading of the write plus [context_ttl] seconds, and a fresh empty
    context from that instant on; a read made while the breaker is open
    is turned away with the circuit-open [RedisError].  The hypotheses on
    the JSON library are that it reads back what it wrote and writes
    neither the empty text nor a text that starts with the compression
    prefix. *)
Theorem context_expires_after_ttl (s : State) (cid : UUID) (context : Dict)
    (t : datetime) :
  redis_fault s = None →
  Z.of_nat (length (json_dumps (VDict (stamped s context))))
    ≤ compression_threshold s →
  json_dumps (VDict (stamped s context)) ≠ [] →
  startswith (json_dumps (VDict (stamped s context))) (lit "compressed:") = false →
  json_loads (json_dumps (VDict (stamped s context)))
  = Ok (VDict (stamped s context)) →
  (update_context cid (VDict context) s).1 = Ok true
  ∧ ((_is_circuit_open (set_clock t s)).1 = Ok false →
     (get_conversation_context cid
        (set_clock t (update_context cid (VDict context) s).2)).1
     = if t <? clock s + context_ttl s * 1000000
       then Ok (VDict (stamped s context))
       else Ok (empty_context t))
  ∧ ((_is_circuit_open (set_clock t s)).1 = Ok true →
     (get_conversation_context cid
        (set_clock t (update_context cid (VDict context) s).2)).1
     = Raise circuit_open_error).
Proof.
  intros Hfault Hshort Hne Hprefix Hloads.
  rewrite (update_context_stored s cid context Hfault Hshort).
  split; [done |]. cbn [snd]. split.
  - intros Hclosed.
    rewrite get_conversation_context_let_through;
      [| by rewrite <- Hclosed; apply is_circuit_open_same | done].
    unfold answer, context_key. simpl. rewrite lookup_insert_eq.
    destruct (t <? clock s + context_ttl s * 1000000); [| done].
    unfold parse_raw_data. rewrite Hprefix, Hloads.
    by destruct (json_dumps (VDict (stamped s context))).
  - intros Hopen.
    rewrite get_conversation_context_turned_away;
      [done | by rewrite <- Hopen; apply is_circuit_open_same].
Qed.

(** A read that the open breaker turns away. *)
Lemma get_conversation_context_rejected (s : State) (cid : UUID)
    (last : datetime) :
  threshold (circuit_breaker s) ≤ failures (circuit_breaker s) →
  last_failure (circuit_breaker s) = Some last →
  timedelta_seconds (clock s - last) < reset_timeout (circuit_breaker s) →
  get_conversation_context cid s = (Raise circuit_open_error, failure_recorded s).
Proof.
  intros Hge Hlast Hrecent.
  unfold get_conversation_context, mbind at 1, SE_bind at 1, get_state at 1.
  unfold try_except at 1, mbind at 1, SE_bind at 1.
  by rewrite (circuit_open_within_timeout s last).
Qed.

(** Reads of one conversation made one after the other, each at its
    own instant: the results, and the service after the last one. *)
Fixpoint poll (cid : UUID) (times : list datetime) (s : State)
    : list (Result Val) * State :=
  match times with
  | [] => ([], s)
  | t :: times =>
      let read := get_conversation_context cid (set_clock t s) in
      let rest := poll cid times read.2 in
      (read.1 :: rest.1, rest.2)
  end.

(** Each instant comes less than [timeout] seconds after the one
    before, in the seconds component the breaker compares. *)
Fixpoint paced (timeout : Z) (last : datetime) (times : list datetime) : Prop :=
  match times with
  | [] => True
  | t :: times => timedelta_seconds (t - last) < timeout ∧ paced timeout t times
  end.

(** X14 ([get_conversation_context], [_is_circuit_open],
    [_record_failure]): an open breaker is kept open by the reads it
    turns away.  Each rejected read is recorded as a failure at its own
    instant, so that a caller who retries more often than the reset
    timeout is turned away every time, whether or not the server has
    recovered: no command is ever sent, the stored contexts are not
    touched, and the failure count grows by one per read. *)
Theorem polling_keeps_the_breaker_open (s : State) (cid : UUID)
    (last : datetime) (times : list datetime) :
  threshold (circuit_breaker s) ≤ failures (circuit_breaker s) →
  last_failure (circuit_breaker s) = Some last →
  paced (reset_timeout (circuit_breaker s)) last times →
  (poll cid times s).1 = replicate (length times) (Raise circuit_open_error)
  ∧ redis_commands (poll cid times s).2 = redis_commands s
  ∧ redis (poll cid times s).2 = redis s
  ∧ failures (circuit_breaker (poll cid times s).2)
    = failures (circuit_breaker s) + Z.of_nat (length times).
Proof.
  revert s last.
  induction times as [| t times IH]; intros s last Hge Hlast Hpaced.
  { simpl. repeat split; try done. lia. }
  destruct Hpaced as [Hrecent Hpaced]. cbn [poll].
  rewrite (get_conversation_context_rejected (set_clock t s) cid last)
    by done.
  cbn [fst snd].
  destruct (IH (failure_recorded (set_clock t s)) t) as (Hres & Hcmd & Hredis & Hfail).
  - simpl. lia.
  - done.
  - exact Hpaced.
  - rewrite Hres, Hcmd, Hredis, Hfail. simpl. repeat split; try done. lia.
Qed.

(** What an operation does to the error counter: nothing when it
    returns, one increment when it raises [RedisError], and never more
    than one increment. *)
Definition counts_its_errors {A} (s : State) (run : Result A * State) : Prop :=
  ERROR_COUNTER s ≤ ERROR_COUNTER run.2 ≤ ERROR_COUNTER s + 1
  ∧ (is_ok run.1 = true → ERROR_COUNTER run.2 = ERROR_COUNTER s)
  ∧ (∀ e, run.1 = Raise e → exc_class e = RedisError →
          ERROR_COUNTER run.2 = ERROR_COUNTER s + 1).

Ltac not_redis_error :=
  repeat match goal with
  | H : encode _ = Raise _ |- _ => apply encode_raises in H
  | H : decode _ = Raise _ |- _ => apply decode_raises in H
  | H : parse_raw_data _ = Raise _ |- _ =>
      apply parse_raw_data_raises in H;
      rewrite !elem_of_cons, elem_of_nil in H;
      destruct H as [H | [H | [H | [H | []]]]]
  | H : exc_class ?e = _, H' : context [exc_class ?e] |- _ =>
      rewrite H in H'; simpl in H'
  end.

(** X15 ([ContextService], the three operations and the module's
    [ERROR_COUNTER]): the error counter counts failed operations only.
    An operation that returns leaves the counter as it was, an operation
    that raises [RedisError] (the server failed, or the breaker turned
    the read away) has incremented it exactly once, and no operation
    increments it twice. *)
Theorem error_counter_counts_failures (s : State) (cid : UUID) (context : Val) :
  counts_its_errors s (get_conversation_context cid s)
  ∧ counts_its_errors s (update_context cid context s)
  ∧ counts_its_errors s (clear_context cid s).
Proof.
  unfold counts_its_errors. split; [| split].
  - unfold get_conversation_context, _is_circuit_open. run_se.
    repeat case_match; simplify_eq; simpl in *; not_redis_error;
      repeat split; intros; simplify_eq; simpl in *; try done; try lia;
      congruence.
  - run_se.
    repeat case_match; simplify_eq; simpl in *; not_redis_error;
      repeat split; intros; simplify_eq; simpl in *; try done; try lia;
      congruence.
  - run_se.
    repeat case_match; simplify_eq; simpl in *; not_redis_error;
      repeat split; intros; simplify_eq; simpl in *; try done; try lia;
      congruence.
Qed.

End WithLibraries.

#[local] Existing Instance Reference.json.
#[local] Existing Instance Reference.zlib.

(** The sample service read at second 10, its breaker open since
    second 2 and the server answering. *)
Definition open_service : State := at_time 10000000 None tripped.

Lemma clear_context_then_read_witness :
  (clear_context "c-1" sample_service).1 = Ok true
  ∧ (clear_context "c-1" (clear_context "c-1" sample_service).2).1 = Ok false
  ∧ (get_conversation_context "c-1" (clear_context "c-1" sample_service).2).1
    = Ok (empty_context 0)
  ∧ (clear_context "c-1" open_service).1 = Ok true
  ∧ (get_conversation_context "c-1" (clear_context "c-1" open_service).2).1
    = Raise circuit_open_error.
Proof.
  destruct (clear_context_then_read sample_service "c-1" eq_refl)
    as (Hcleared & Hagain & Hread & _).
  destruct (clear_context_then_read open_service "c-1" eq_refl)
    as (Hcleared' & _ & _ & Hrejected).
  split; [exact Hcleared |]. split; [exact Hagain |].
  split; [exact (Hread eq_refl) |]. split; [exact Hcleared' |].
  exact (Hrejected eq_refl).
Defined.

Lemma writes_feed_the_breaker_witness :
  update_context "c-3" (VDict short_context) (at_time 5000000 down tripped)
  = (Raise (mkExc RedisError "Failed to update context: Connection refused"),
     failure_recorded (set_redis_commands 1 (at_time 5000000 down tripped)))
  ∧ update_context "c-3" (VDict long_context) (at_time 5000000 down tripped)
    = (Raise decode_error, at_time 5000000 down tripped)
  ∧ is_ok (update_context "c-3" (VDict short_context) open_service).1 = true.
Proof.
  pose proof (writes_feed_the_breaker (at_time 5000000 down tripped) "c-3"
                short_context) as (_ & _ & _ & Hshort).
  pose proof (writes_feed_the_breaker (at_time 5000000 down tripped) "c-3"
                long_context) as (_ & _ & _ & Hlong).
  pose proof (writes_feed_the_breaker open_service "c-3" short_context)
    as (_ & _ & _ & Hopen).
  assert (Hpayload :
            payload (at_time 5000000 down tripped) short_context
            = Ok (json_dumps
                    (VDict (stamped (at_time 5000000 down tripped)
                              short_context))))
    by (vm_compute; reflexivity).
  assert (Hpayload' :
            payload (at_time 5000000 down tripped) long_context
            = Raise decode_error)
    by (vm_compute; reflexivity).
  assert (Hpayload'' :
            payload open_service short_context
            = Ok (json_dumps (VDict (stamped open_service short_context))))
    by (vm_compute; reflexivity).
  rewrite Hpayload in Hshort. rewrite Hpayload' in Hlong.
  rewrite Hpayload'' in Hopen.
  destruct Hshort as (_ & Hrefused & _). destruct Hlong as [Hraised _].
  destruct Hopen as (_ & _ & Hstored).
  split; [exact (Hrefused "Connection refused" eq_refl) |].
  split; [exact Hraised |].
  by rewrite (Hstored eq_refl).
Defined.

Lemma contexts_are_isolated_witness :
  (get_conversation_context "c-2"
     (update_context "c-3" (VDict short_context) sample_service).2).1
  = (get_conversation_context "c-2" sample_service).1
  ∧ (get_conversation_context "c-2" (clear_context "c-3" sample_service).2).1
    = (get_conversation_context "c-2" sample_service).1.
Proof.
  apply (contexts_are_isolated sample_service "c-3" "c-2" (VDict short_context));
    [discriminate | reflexivity].
Defined.

Lemma context_expires_after_ttl_witness :
  (get_conversation_context "c-3"
     (set_clock 3599999999
        (update_context "c-3" (VDict short_context) sample_service).2)).1
  = Ok (VDict (stamped sample_service short_context))
  ∧ (get_conversation_context "c-3"
       (set_clock 3600000000
          (update_context "c-3" (VDict short_context) sample_service).2)).1
    = Ok (empty_context 3600000000)
  ∧ (get_conversation_context "c-3"
       (set_clock 10000000
          (update_context "c-3" (VDict short_context) tripped).2)).1
    = Raise circuit_open_error.
Proof.
  split; [| split].
  - destruct (context_expires_after_ttl sample_service "c-3" short_context
                3599999999) as (_ & Hread & _).
    + reflexivity.
    + vm_compute. discriminate.
    + discriminate.
    + reflexivity.
    + vm_compute. reflexivity.
    + exact (Hread eq_refl).
  - destruct (context_expires_after_ttl sample_service "c-3" short_context
                3600000000) as (_ & Hread & _).
    + reflexivity.
    + vm_compute. discriminate.
    + discriminate.
    + reflexivity.
    + vm_compute. reflexivity.
    + exact (Hread eq_refl).
  - destruct (context_expires_after_ttl tripped "c-3" short_context 10000000)
      as (_ & _ & Hrejected).
    + reflexivity.
    + vm_compute. discriminate.
    + discriminate.
    + reflexivity.
    + vm_compute. reflexivity.
    + exact (Hrejected eq_refl).
Defined.

(** Reads at seconds 10, 35 and 60 of a service whose breaker opened at
    second 2, in front of a server that answers. *)
Lemma polling_keeps_the_breaker_open_witness :
  (poll "c-3" [10000000; 35000000; 60000000] tripped).1
  = replicate 3 (Raise circuit_open_error)
  ∧ redis_commands (poll "c-3" [10000000; 35000000; 60000000] tripped).2
    = redis_commands tripped
  ∧ redis (poll "c-3" [10000000; 35000000; 60000000] tripped).2 = redis tripped
  ∧ failures (circuit_breaker
                (poll "c-3" [10000000; 35000000; 60000000] tripped).2)
    = failures (circuit_breaker tripped) + 3.
Proof.
  apply (polling_keeps_the_breaker_open tripped "c-3" 2000000
           [10000000; 35000000; 60000000]).
  - vm_compute. discriminate.
  - reflexivity.
  - repeat split; vm_compute; reflexivity.
Defined.

End context_store_invariants.

(* ===================================================================== *)
(** ** The LLM service: what the two provider calls return *)
(* ===================================================================== *)

Module llm_invariants.

Import conversation llm_service llm_facts handoff_rule.

Section WithLibraries.
Context {pydantic_lib : Pydantic} {json_lib : Json} {zlib_lib : Zlib}
  {openai_lib : OpenAI}.

(** X16 ([LLMService.generate_response]): a response that is returned
    is the provider's reply with the whitespace at both ends removed; it
    is never empty and neither starts nor ends with whitespace (a reply of
    whitespace only is a [ValueError], not a response), and exactly one
    request was made for it. *)
Theorem generate_response_returns_stripped_text (s s2 : State)
    (message_content : str) (intent : Intent.t) (context : Val) (text : str) :
  generate_response message_content intent context s = (Ok text, s2) →
  ∃ recent content,
    acreate (length (requests s))
      (assistant_request s message_content intent recent) = Ok content
    ∧ s2 = set_requests
             (requests s ++ [assistant_request s message_content intent recent]) s
    ∧ text = strip content
    ∧ text ≠ []
    ∧ (∀ c, head text = Some c → isspace c = false)
    ∧ (∀ c, list.last text = Some c → isspace c = false).
Proof.
  run_llm.
  destruct (getitem context "messages") as [messages |]; simpl;
    [| by repeat case_match].
  destruct (last_five messages) as [recent |]; simpl; [| by repeat case_match].
  destruct (acreate _ _) as [content | e] eqn:Hanswer; simpl;
    [| by repeat case_match].
  case_bool_decide as Hempty; simpl; [done |].
  intros [= <- <-]. exists recent, content.
  pose proof (text_facts.strip_ends content) as [Hhead Hlast].
  by repeat split.
Qed.

Lemma Intent_validate_confidence (data : Dict) (i : Intent.t) :
  pydantic.Intent_validate data = Ok i → in_unit_interval (Intent.confidence i).
Proof.
  unfold pydantic.Intent_validate.
  destruct (data !! "confidence" ≫= pydantic.unit_float_field) as [c |] eqn:Hc;
    [| by repeat case_match].
  assert (Hunit : in_unit_interval c).
  { destruct (data !! "confidence") as [value |]; [| done]. simpl in Hc.
    unfold pydantic.unit_float_field in Hc.
    destruct (match value with
              | VFloat q => Some q
              | VInt z => Some (Qc_of_Z z)
              | VBool b => Some (Qc_of_Z (if b then 1 else 0))
              | VStr s => str_as_float s
              | _ => None
              end) as [q |]; [| done].
    simpl in Hc.
    destruct (Qc_leb 0 q) eqn:Hlo; [| done].
    destruct (Qc_leb q 1) eqn:Hhi; [| done].
    injection Hc as <-. split; by apply Qc_leb_true. }
  repeat case_match; try done; by intros [= <-].
Qed.

(** X17 ([LLMService.classify_intent] then [Intent.should_handoff]):
    every intent the classifier returns, the fallback included, has a
    confidence in [0, 1] and no metadata.  The handoff rule therefore
    never raises on it, and its sentiment and urgency conditions never
    apply: the decision is [requires_human], or a confidence below 0.7,
    or the type [REQUEST_HUMAN]. *)
Theorem classify_intent_returns_plain_intent (s s2 : State)
    (message_content : str) (context : Val) (intent : Intent.t) :
  classify_intent message_content context s = (Ok intent, s2) →
  in_unit_interval (Intent.confidence intent)
  ∧ Intent.metadata intent = ∅
  ∧ Intent_should_handoff intent
    = Ok (Intent.requires_human intent
          || Qc_ltb (Intent.confidence intent) (Q2Qc (7 # 10))
          || bool_decide (Intent.type intent = REQUEST_HUMAN)).
Proof.
  intros Hclassify.
  destruct (classify_intent_returns _ _ _ _ _ Hclassify)
    as (messages & recent & Hmessages & Hrecent & -> & Hmetadata).
  split; [| split; [done |]].
  - destruct (acreate (length (requests s))
                (classifier_request s message_content recent))
      as [content | e] eqn:Hanswer.
    + rewrite (classify_intent_answered s message_content context messages
                 recent content Hmessages Hrecent Hanswer) in Hclassify.
      injection Hclassify as Hintent.
      destruct (parse_classification content) as [i |] eqn:Hparse.
      * injection Hintent as <-. revert Hparse.
        unfold parse_classification, mbind, Result_bind, rbind.
        repeat case_match; try done. apply Intent_validate_confidence.
      * destruct (_ || _); [| done]. injection Hintent as <-.
        split; by vm_compute.
    + revert Hclassify. run_llm. rewrite Hmessages. simpl.
      rewrite Hrecent. simpl.
      unfold classifier_request in Hanswer. rewrite Hanswer. simpl.
      by repeat case_match.
  - apply conversation_should_handoff_plain; by rewrite Hmetadata.
Qed.

(** X18 ([LLMService.classify_intent], [generate_response]): a context
    without a usable ['messages'] entry is an error, not a fallback.  When
    [context['messages'][-5:]] cannot be evaluated (the context is not a
    dict, has no such key, or holds something that cannot be sliced), both
    methods raise the [KeyError] or [TypeError] of that expression before
    any request is made, and nothing is counted. *)
Theorem context_without_messages_raises (s : State) (message_content : str)
    (intent : Intent.t) (context : Val) (e : Exc) :
  rbind (getitem context "messages") last_five = Raise e →
  exc_class e ∈ [KeyError; TypeError]
  ∧ classify_intent message_content context s = (Raise e, s)
  ∧ generate_response message_content intent context s = (Raise e, s).
Proof.
  intros Hrecent.
  assert (Hclass : exc_class e ∈ [KeyError; TypeError]).
  { revert Hrecent. unfold getitem, dict_item, last_five.
    destruct context as [| | | | | | d]; simpl;
      try (intros [= <-]; simpl; rewrite !elem_of_cons; by auto).
    destruct (d !! "messages") as [[] |]; simpl; try done;
      intros [= <-]; simpl; rewrite !elem_of_cons; by auto. }
  split; [done |]. run_llm.
  destruct (getitem context "messages") as [messages |]; simpl in *.
  - rewrite Hrecent. simpl. destruct e as [cls msg]. simpl in Hclass.
    rewrite !elem_of_cons, elem_of_nil in Hclass.
    by destruct Hclass as [-> | [-> | []]].
  - injection Hrecent as ->. destruct e as [cls msg]. simpl in Hclass.
    rewrite !elem_of_cons, elem_of_nil in Hclass.
    by destruct Hclass as [-> | [-> | []]].
Qed.

(** *** The retry policy of [process_message] *)

(** The breaker is closed, the server answers and holds no context for
    the conversation: a read returns the empty context. *)
Definition reads_empty (cid : UUID) (s : State) : Prop :=
  let cs := context_service s in
  context_service.failures (context_service.circuit_breaker cs)
    < context_service.threshold (context_service.circuit_breaker cs)
  ∧ context_service.redis_fault cs = None
  ∧ context_service.redis cs !! context_service.context_key cs cid = None.

(** What the retry policy is measured in: requests made, clock reading,
    commands sent to the server, and the two error counts. *)
Definition measures (s : State) : nat * Z * Z * Z * Z :=
  (length (requests s),
   context_service.clock (context_service s),
   context_service.redis_commands (context_service s),
   default 0 (API_ERRORS s !! "classification_error"),
   default 0 (API_ERRORS s !! "api_error")).

(** An attempt during which the provider raises [APIError]: the context
    is read, one request is made, the error is counted under both labels
    and leaves the attempt as it is. *)
Lemma process_message_attempt_api_error (s : State) (message : Message.t)
    (conversation : Conversation.t) :
  (∀ n request, ∃ msg, acreate n request = Raise (mkExc APIError msg)) →
  reads_empty (Conversation.id conversation) s →
  ∃ msg s1,
    process_message_attempt message conversation s
    = (Raise (mkExc APIError msg), s1)
    ∧ reads_empty (Conversation.id conversation) s1
    ∧ measures s1
      = let '(requests, clock, commands, classification, api) := measures s in
        (S requests, clock, commands + 1, classification + 1, api + 1).
Proof.
  intros Hdown (Hlt & Hfault & Hkey).
  unfold process_message_attempt, try_except2.
  unfold mbind at 1, SE_bind at 1, with_context_service at 1.
  rewrite context_store_facts.get_conversation_context_answered by done.
  cbv zeta. rewrite Hkey.
  unfold mbind at 1, SE_bind at 1.
  unfold classify_intent at 1, try_except at 1.
  unfold mbind at 1, SE_bind at 1, get_state at 1.
  unfold mbind at 1, SE_bind at 1, lift at 1.
  change (getitem (context_service.empty_context _) "messages")
    with (Ok (VList []) : Result Val).
  unfold mbind at 1, SE_bind at 1, lift at 1.
  change (last_five (VList [])) with (Ok (VList []) : Result Val).
  unfold mbind at 1, SE_bind at 1, chat at 1.
  match goal with
  | |- context [acreate ?n ?request] =>
      destruct (Hdown n request) as [msg ->]
  end.
  exists msg. eexists. split; [reflexivity |].
  split; [done |].
  unfold measures. simpl. rewrite length_app. simpl.
  rewrite lookup_insert_eq.
  destruct (decide ("api_error" = "classification_error")) as [Heq |];
    [done |].
  rewrite lookup_insert_ne by done. rewrite lookup_insert_eq.
  rewrite lookup_insert_ne by done. simpl.
  repeat f_equal. lia.
Qed.

Lemma sleep_measures (seconds : Z) (cid : UUID) (s : State) :
  reads_empty cid s →
  ∃ s1, sleep seconds s = (Ok (), s1)
        ∧ reads_empty cid s1
        ∧ measures s1
          = let '(requests, clock, commands, classification, api) := measures s in
            (requests, clock + seconds * 1000000, commands, classification, api).
Proof. intros Hs. eexists. split; [reflexivity |]. split; done. Qed.

(** X19 ([LLMService.process_message] under its [@retry] decorator):
    when the context read returns the empty context (the breaker of the
    context service is closed, the server answers and holds nothing for
    the conversation) and the provider raises [APIError] on every call,
    the provider is asked three times and no more.  The two waits are of
    4 seconds each, so that the call takes 8 seconds of waiting; it ends
    in tenacity's [RetryError], not in the [APIError]; each attempt has
    read the context again and has counted the error twice, as
    [classification_error] and as [api_error]. *)
Theorem process_message_gives_up_after_three_attempts (s : State)
    (message : Message.t) (conversation : Conversation.t) :
  (∀ n request, ∃ msg, acreate n request = Raise (mkExc APIError msg)) →
  reads_empty (Conversation.id conversation) s →
  (process_message message conversation s).1
  = Raise (mkExc RetryError "RetryError")
  ∧ measures (process_message message conversation s).2
    = let '(requests, clock, commands, classification, api) := measures s in
      ((requests + 3)%nat, clock + 8000000, commands + 3, classification + 3,
       api + 3).
Proof.
  intros Hdown Hs.
  assert (Hrun : ∃ s3,
            process_message message conversation s
            = (Raise (mkExc RetryError "RetryError"), s3)
            ∧ measures s3
              = let '(requests, clock, commands, classification, api) :=
                  measures s in
                ((requests + 3)%nat, clock + 8000000, commands + 3,
                 classification + 3, api + 3)).
  { unfold process_message. unfold mbind at 1, SE_bind at 1, modify at 1.
    assert (Hs0 : reads_empty (Conversation.id conversation)
                    (set_inbound (Some message) s)) by done.
    assert (Hm0 : measures (set_inbound (Some message) s) = measures s) by done.
    revert Hs0 Hm0. generalize (set_inbound (Some message) s). intros s0 Hs0 Hm0.
    cbn [retrying]. unfold try_except at 1.
    destruct (process_message_attempt_api_error s0 message conversation Hdown
                Hs0)
      as (msg1 & s1 & -> & Hs1 & Hm1).
    change (isinstance (mkExc APIError msg1) [APIError]) with true. cbv iota.
    unfold mbind at 1, SE_bind at 1.
    destruct (sleep_measures (4 `max` (2 ^ (1 - 1) `min` 10))
                (Conversation.id conversation) s1 Hs1)
      as (s1' & -> & Hs1' & Hm1').
    unfold try_except at 1.
    destruct (process_message_attempt_api_error s1' message conversation Hdown
                Hs1')
      as (msg2 & s2 & -> & Hs2 & Hm2).
    change (isinstance (mkExc APIError msg2) [APIError]) with true. cbv iota.
    unfold mbind at 1, SE_bind at 1.
    destruct (sleep_measures (4 `max` (2 ^ (1 + 1 - 1) `min` 10))
                (Conversation.id conversation) s2 Hs2)
      as (s2' & -> & Hs2' & Hm2').
    unfold try_except at 1.
    destruct (process_message_attempt_api_error s2' message conversation Hdown
                Hs2')
      as (msg3 & s3 & -> & Hs3 & Hm3).
    change (isinstance (mkExc APIError msg3) [APIError]) with true. cbv iota.
    exists s3. split; [reflexivity |].
    rewrite Hm3, Hm2', Hm2, Hm1', Hm1, Hm0.
    destruct (measures s) as [[[[requests clock] commands] classification] api].
    change (4 `max` (2 ^ (1 - 1) `min` 10)) with 4.
    change (4 `max` (2 ^ (1 + 1 - 1) `min` 10)) with 4.
    repeat match goal with |- (_, _) = (_, _) => f_equal end; lia. }
  destruct Hrun as (s3 & -> & Hm3). done.
Qed.

(** *** What a call to [process_message] can cost *)

(** From [s] to [s']: at most [n] requests were made to the provider,
    [w] waits of four seconds have passed, and the contents of the
    context store are as they were. *)
Definition within (n : nat) (w : Z) (s s' : State) : Prop :=
  context_service.clock (context_service s')
  = context_service.clock (context_service s) + w * 4000000
  ∧ context_service.redis (context_service s')
    = context_service.redis (context_service s)
  ∧ ∃ asked, requests s' = requests s ++ asked ∧ (length asked ≤ n)%nat.

Definition stays_within {A} (n : nat) (w : Z) (m : SE State A) : Prop :=
  ∀ s, within n w s (m s).2.

Lemma within_refl (s : State) : within 0 0 s s.
Proof.
  split; [lia |]. split; [done |]. exists []. by rewrite app_nil_r.
Qed.

Lemma within_trans (n k : nat) (w v : Z) (s s' s'' : State) :
  within n w s s' → within k v s' s'' → within (n + k) (w + v) s s''.
Proof.
  intros (Hclock & Hredis & asked & Hasked & Hn)
         (Hclock' & Hredis' & asked' & Hasked' & Hk).
  split; [lia |]. split; [congruence |].
  exists (asked ++ asked'). rewrite Hasked', Hasked, app_assoc, length_app.
  split; [done | lia].
Qed.

Lemma within_mono (n k : nat) (w : Z) (s s' : State) :
  (n ≤ k)%nat → within n w s s' → within k w s s'.
Proof.
  intros Hle (Hclock & Hredis & asked & Hasked & Hn).
  split; [done |]. split; [done |]. exists asked. split; [done | lia].
Qed.

Lemma within_mono_stays {A} (n k : nat) (m : SE State A) :
  (n ≤ k)%nat → stays_within n 0 m → stays_within k 0 m.
Proof. intros Hle Hm s. by apply (within_mono n). Qed.

Lemma stays_bind {A B} (n k : nat) (m : SE State A) (f : A → SE State B) :
  stays_within n 0 m → (∀ a, stays_within k 0 (f a)) →
  stays_within (n + k) 0 (m ≫= f).
Proof.
  intros Hm Hf s. unfold mbind, SE_bind. specialize (Hm s).
  destruct (m s) as [[a | e] s1]; simpl in *.
  - apply (within_trans n k 0 0 s s1); [done | apply Hf].
  - apply (within_mono n); [lia | done].
Qed.

Lemma stays_bind_never {A B} (n : nat) (m : SE State A) (f : A → SE State B) :
  stays_within n 0 m → never_returns m → stays_within n 0 (m ≫= f).
Proof.
  intros Hm Hnever s. unfold mbind, SE_bind. specialize (Hm s).
  specialize (Hnever s). by destruct (m s) as [[a | e] s1].
Qed.

Lemma stays_try2 {A} (n : nat) (body : SE State A)
    (classes1 classes2 : list ExcClass) (handler1 handler2 : Exc → SE State A) :
  stays_within n 0 body →
  (∀ e, stays_within 0 0 (handler1 e)) → (∀ e, stays_within 0 0 (handler2 e)) →
  stays_within n 0 (try_except2 body classes1 handler1 classes2 handler2).
Proof.
  intros Hbody Hhandler1 Hhandler2 s. unfold try_except2. specialize (Hbody s).
  destruct (body s) as [[a | e] s1]; simpl in *; [done |].
  replace n with (n + 0)%nat by lia.
  destruct (isinstance e classes1);
    [apply (within_trans n 0 0 0 s s1); [done | apply Hhandler1] |].
  destruct (isinstance e classes2);
    [apply (within_trans n 0 0 0 s s1); [done | apply Hhandler2] |].
  by rewrite Nat.add_0_r.
Qed.

Ltac same_cost :=
  unfold within; simpl;
  split; [lia | split; [done | exists []; by rewrite app_nil_r]].

Lemma stays_count_and_reraise {A} (error_type : string) (e : Exc) :
  stays_within 0 0 (count_and_reraise (A := A) error_type e).
Proof. intros s. same_cost. Qed.

(** A read of the context moves neither the clock nor the contents of
    the store. *)
Lemma get_conversation_context_keeps (cid : UUID) (cs : context_service.State) :
  context_service.clock (context_service.get_conversation_context cid cs).2
  = context_service.clock cs
  ∧ context_service.redis (context_service.get_conversation_context cid cs).2
    = context_service.redis cs.
Proof.
  unfold context_service.get_conversation_context,
    context_service._is_circuit_open.
  context_store_facts.run_se. repeat case_match; simplify_eq; done.
Qed.

Lemma stays_with_context_service {A} (m : SE context_service.State A) :
  (∀ cs, context_service.clock (m cs).2 = context_service.clock cs
         ∧ context_service.redis (m cs).2 = context_service.redis cs) →
  stays_within 0 0 (with_context_service m).
Proof.
  intros Hm s. unfold with_context_service. specialize (Hm (context_service s)).
  destruct (m (context_service s)) as [r cs]. simpl in *.
  destruct Hm as [Hclock Hredis].
  split; [simpl; lia |]. split; [done |]. exists []. by rewrite app_nil_r.
Qed.

Lemma stays_classify_intent (message_content : str) (context : Val) :
  stays_within 1 0 (classify_intent message_content context).
Proof.
  intros s. run_llm.
  repeat case_match; simplify_eq; unfold within; simpl;
    (split; [lia |]); (split; [done |]);
    first [ by (exists []; rewrite app_nil_r; split; [done | simpl; lia])
          | by (eexists [_]; split; [done | simpl; lia]) ].
Qed.

Lemma stays_generate_response (message_content : str) (intent : Intent.t)
    (context : Val) :
  stays_within 1 0 (generate_response message_content intent context).
Proof.
  intros s. run_llm.
  repeat case_match; simplify_eq; unfold within; simpl;
    (split; [lia |]); (split; [done |]);
    first [ by (exists []; rewrite app_nil_r; split; [done | simpl; lia])
          | by (eexists [_]; split; [done | simpl; lia]) ].
Qed.

(** One attempt asks the provider at most twice, does not wait and
    writes nothing to the store: the write is never reached. *)
Lemma stays_process_message_attempt (message : Message.t)
    (conversation : Conversation.t) :
  stays_within 2 0 (process_message_attempt message conversation).
Proof.
  unfold process_message_attempt.
  apply stays_try2; try apply stays_count_and_reraise.
  apply (stays_bind 0 2).
  { apply stays_with_context_service, get_conversation_context_keeps. }
  intros context. apply (stays_bind 1 1); [apply stays_classify_intent |].
  intros intent. apply (stays_bind 0 1); [intros s; same_cost |].
  intros _. apply (stays_bind 0 1).
  { intros s. destruct (Qc_leb _ _); [| apply within_refl].
    unfold mbind, SE_bind, lift.
    destruct (Intent_should_handoff intent); apply within_refl. }
  intros confident. apply stays_bind_never.
  - destruct confident.
    + apply (stays_bind 1 0); [apply stays_generate_response |].
      intros response_text. apply (stays_bind 0 0).
      * by apply stays_with_context_service.
      * intros now s. apply within_refl.
    + apply (within_mono_stays 0); [lia |]. apply (stays_bind 0 0).
      * by apply stays_with_context_service.
      * intros now s. apply within_refl.
  - destruct confident.
    + apply never_returns_bind. intros response_text.
      apply never_returns_bind. by intros now s.
    + apply never_returns_bind. by intros now s.
Qed.

(** One level of the retry loop: the attempt, and after an [APIError]
    whatever the handler does. *)
Lemma within_try_except {A} (n k : nat) (w : Z) (attempt : SE State A)
    (classes : list ExcClass) (handler : Exc → SE State A) :
  stays_within n 0 attempt →
  (∀ e s1, ∃ v, 0 ≤ v ≤ w ∧ within k v s1 (handler e s1).2) →
  ∀ s, ∃ v, 0 ≤ v ≤ w
            ∧ within (n + k) v s (try_except attempt classes handler s).2.
Proof.
  intros Hattempt Hhandler s. unfold try_except. specialize (Hattempt s).
  assert (Hw : 0 ≤ w).
  { destruct (Hhandler (mkExc Exception "") s) as (v & Hv & _). lia. }
  destruct (attempt s) as [[a | e] s1]; simpl in *.
  - exists 0. split; [lia |]. apply (within_mono n); [lia | done].
  - destruct (isinstance e classes).
    + destruct (Hhandler e s1) as (v & Hv & Hwithin). exists v.
      split; [done |]. by apply (within_trans n k 0 v s s1).
    + exists 0. split; [lia |]. apply (within_mono n); [lia | done].
Qed.

Lemma sleep_then_within {A} (k : nat) (w : Z) (m : SE State A) :
  (∀ s, ∃ v, 0 ≤ v ≤ w ∧ within k v s (m s).2) →
  ∀ s, ∃ v, 0 ≤ v ≤ 1 + w ∧ within k v s ((sleep 4 ;; m) s).2.
Proof.
  intros Hm s. unfold mbind, SE_bind. simpl.
  match goal with
  | |- context [m ?s1] => destruct (Hm s1) as (v & Hv & Hwithin); set (s' := s1) in *
  end.
  exists (1 + v). split; [lia |].
  apply (within_trans 0 k 1 v s s'); [| done].
  unfold within, s'. simpl. split; [lia |]. split; [done |].
  exists []. by rewrite app_nil_r.
Qed.

Lemma process_message_within (s : State) (message : Message.t)
    (conversation : Conversation.t) :
  ∃ waits, 0 ≤ waits ≤ 2
           ∧ within 6 waits s (process_message message conversation s).2.
Proof.
  unfold process_message. unfold mbind at 1, SE_bind at 1, modify at 1.
  cbn [retrying].
  change (4 `max` (2 ^ (1 - 1) `min` 10)) with 4.
  change (4 `max` (2 ^ (1 + 1 - 1) `min` 10)) with 4.
  pose proof (stays_process_message_attempt message conversation) as Hattempt.
  match goal with
  | |- context [try_except ?a ?c ?h (set_inbound ?i s)] =>
      destruct (within_try_except 2 4 2 a c h Hattempt) with (s := set_inbound i s)
        as (v & Hv & Hwithin)
  end.
  - intros e1 s1. apply (sleep_then_within 4 1).
    apply (within_try_except 2 2 1); [done |].
    intros e2 s2. apply (sleep_then_within 2 0).
    apply (within_try_except 2 0 0); [done |].
    intros e3 s3. exists 0. split; [lia |]. apply within_refl.
  - exists v. split; [done |].
    destruct Hwithin as (Hclock & Hredis & asked & Hasked & Hn).
    split; [done |]. split; [done |]. by exists asked.
Qed.

(** X20 ([LLMService.process_message] under its [@retry] decorator): a
    call is bounded, whatever the provider, the store and the message do.
    It makes at most three attempts, hence at most six requests to the
    provider, and between attempts it waits four seconds, twice at
    most. *)
Theorem process_message_is_bounded (s : State) (message : Message.t)
    (conversation : Conversation.t) :
  ∃ (waits : Z) (asked : list ChatRequest),
    0 ≤ waits ≤ 2
    ∧ (length asked ≤ 6)%nat
    ∧ requests (process_message message conversation s).2 = requests s ++ asked
    ∧ context_service.clock
        (context_service (process_message message conversation s).2)
      = context_service.clock (context_service s) + waits * 4000000.
Proof.
  destruct (process_message_within s message conversation)
    as (waits & Hwaits & Hclock & _ & asked & Hasked & Hn).
  by exists waits, asked.
Qed.

(** X21 ([LLMService.process_message]): the context store is never
    written.  The only write, [update_context], comes after the outbound
    [Message] is built, and building it always fails; so whatever a call
    reads, classifies or generates, the contents of the store after it
    are the contents before it, and no conversation history is ever
    accumulated through this method. *)
Theorem process_message_never_writes_the_store (s : State)
    (message : Message.t) (conversation : Conversation.t) :
  context_service.redis
    (context_service (process_message message conversation s).2)
  = context_service.redis (context_service s).
Proof.
  by destruct (process_message_within s message conversation)
    as (waits & _ & _ & Hredis & _).
Qed.

End WithLibraries.

#[local] Existing Instance Reference.pydantic.
#[local] Existing Instance Reference.json.
#[local] Existing Instance Reference.zlib.

(** A generated text with blanks before it and a newline after it. *)
Definition padded_reply : OpenAI :=
  Reference.scripted [Ok (lit "  Hi there!" ++ [10%N])].

Lemma generate_response_returns_stripped_text_witness :
  (generate_response (openai_lib := padded_reply) (lit "Hello") greeting_intent
     no_history sample_llm).1 = Ok (lit "Hi there!")
  ∧ ∃ content,
      acreate (OpenAI := padded_reply) 0
        (assistant_request sample_llm (lit "Hello") greeting_intent (VList []))
      = Ok content
      ∧ lit "Hi there!" = strip content.
Proof.
  split; [reflexivity |].
  destruct (generate_response_returns_stripped_text (openai_lib := padded_reply)
              sample_llm
              (set_requests
                 [assistant_request sample_llm (lit "Hello") greeting_intent
                    (VList [])] sample_llm)
              (lit "Hello") greeting_intent no_history (lit "Hi there!")
              eq_refl)
    as (recent & content & Hanswer & _ & Hstrip & _).
  exists content. split; [| exact Hstrip].
  rewrite <- Hanswer. reflexivity.
Defined.

Lemma classify_intent_returns_plain_intent_witness :
  in_unit_interval (Intent.confidence greeting_intent)
  ∧ Intent.metadata greeting_intent = ∅
  ∧ Intent_should_handoff greeting_intent = Ok false.
Proof.
  apply (classify_intent_returns_plain_intent (openai_lib := greeting_reply)
           sample_llm
           (set_requests [classifier_request sample_llm (lit "Hello") (VList [])]
              sample_llm)
           (lit "Hello") no_history greeting_intent).
  vm_compute. reflexivity.
Defined.

(** The context that the stored text [{}] reads as. *)
Lemma context_without_messages_raises_witness :
  classify_intent (openai_lib := greeting_reply) (lit "Hello") (VDict ∅)
    sample_llm
  = (Raise (mkExc KeyError "messages"), sample_llm)
  ∧ generate_response (openai_lib := greeting_reply) (lit "Hello")
      greeting_intent (VDict ∅) sample_llm
    = (Raise (mkExc KeyError "messages"), sample_llm).
Proof.
  apply (context_without_messages_raises (openai_lib := greeting_reply)
           sample_llm (lit "Hello") greeting_intent (VDict ∅)
           (mkExc KeyError "messages")).
  reflexivity.
Defined.

(** A provider that is overloaded whenever it is asked. *)
Definition always_overloaded : OpenAI :=
  {| acreate := λ _ _, Raise (mkExc APIError "overloaded") |}.

Lemma process_message_gives_up_after_three_attempts_witness :
  (process_message (openai_lib := always_overloaded) inbound_hello
     conversation_c3 sample_llm).1
  = Raise (mkExc RetryError "RetryError")
  ∧ measures
      (process_message (openai_lib := always_overloaded) inbound_hello
         conversation_c3 sample_llm).2
    = (3%nat, 8000000, 3, 3, 3).
Proof.
  apply (process_message_gives_up_after_three_attempts
           (openai_lib := always_overloaded) sample_llm inbound_hello
           conversation_c3).
  - intros n request. exists "overloaded". reflexivity.
  - repeat split.
Defined.

End llm_invariants.

(* ===================================================================== *)
(** ** api/endpoints/intent.py: the request validator *)
(* ===================================================================== *)

Module intent_endpoint.

(** [str.isspace()]: at least one character, and whitespace only. *)
Definition str_isspace (s : str) : bool :=
  negb (bool_decide (s = [])) && forallb isspace s.

(** [IntentRequest.validate_message(cls, value)] *)
Definition validate_message (value : str) : Result str :=
  if bool_decide (value = []) || str_isspace value
  then Raise (mkExc ValueError "Message cannot be empty or whitespace")
  else Ok (strip value).

Lemma rejected_iff_blank (value : str) :
  bool_decide (value = []) || str_isspace value = true
  ↔ Forall (λ c, isspace c = true) value.
Proof.
  unfold str_isspace. destruct value as [| c r].
  - split; [by constructor | done].
  - rewrite bool_decide_eq_false_2 by done.
    change (false || negb false && forallb isspace (c :: r))
      with (forallb isspace (c :: r)).
    generalize (c :: r). intros l. induction l as [| d l IH]; simpl.
    + split; [by constructor | done].
    + rewrite andb_true_iff, IH. split.
      * intros [? ?]. by constructor.
      * intros Hall. split;
          [exact (Forall_inv Hall) | exact (Forall_inv_tail Hall)].
Qed.

(** X22 ([IntentRequest.validate_message]): the validator rejects, with
    [ValueError], exactly the messages that hold no character other than
    whitespace, the empty message among them.  Every other message is
    accepted and replaced by its stripped text, which is not empty,
    neither starts nor ends with whitespace, and is accepted unchanged
    when validated again. *)
Theorem validate_message_strips (value : str) :
  (Forall (λ c, isspace c = true) value →
   validate_message value
   = Raise (mkExc ValueError "Message cannot be empty or whitespace"))
  ∧ (¬ Forall (λ c, isspace c = true) value →
     validate_message value = Ok (strip value)
     ∧ strip value ≠ []
     ∧ (∀ c, head (strip value) = Some c → isspace c = false)
     ∧ (∀ c, list.last (strip value) = Some c → isspace c = false)
     ∧ validate_message (strip value) = Ok (strip value)).
Proof.
  unfold validate_message. split.
  - intros Hblank. apply rejected_iff_blank in Hblank. by rewrite Hblank.
  - intros Hvalue.
    destruct (bool_decide (value = []) || str_isspace value) eqn:Hblank.
    { by apply rejected_iff_blank in Hblank. }
    assert (Hne : strip value ≠ []).
    { intros Hnil. by apply text_facts.strip_nil in Hnil. }
    destruct (text_facts.strip_ends value) as [Hhead Hlast].
    repeat split; try done.
    destruct (bool_decide (strip value = []) || str_isspace (strip value))
      eqn:Hblank'.
    + apply rejected_iff_blank, text_facts.strip_nil in Hblank'.
      by rewrite text_facts.strip_strip in Hblank'.
    + by rewrite text_facts.strip_strip.
Qed.

Lemma validate_message_strips_witness :
  validate_message (lit "  I need a quote ") = Ok (lit "I need a quote")
  ∧ validate_message (lit "I need a quote") = Ok (lit "I need a quote")
  ∧ validate_message [32; 9; 10]%N
    = Raise (mkExc ValueError "Message cannot be empty or whitespace")
  ∧ validate_message []
    = Raise (mkExc ValueError "Message cannot be empty or whitespace").
Proof.
  destruct (validate_message_strips (lit "  I need a quote ")) as [_ Haccepted].
  destruct Haccepted as (Hstripped & _ & _ & _ & Hagain).
  { intros Hblank. apply Forall_inv_tail, Forall_inv_tail, Forall_inv in Hblank.
    discriminate Hblank. }
  destruct (validate_message_strips [32; 9; 10]%N) as [Hrejected _].
  destruct (validate_message_strips []) as [Hempty _].
  split; [exact Hstripped |]. split; [exact Hagain |].
  split; [apply Hrejected; by repeat constructor |].
  apply Hempty. constructor.
Defined.

End intent_endpoint.

(* ===================================================================== *)
(** ** api/endpoints/conversation.py: the background update *)
(* ===================================================================== *)

Module conversation_endpoints.

Import conversation.

(** What [_update_conversation] can read and change: the conversation
    object the request handler passed (it is updated in place), the
    [ContextService] of the endpoints with the world behind it, the
    module's labelled error counter, and what was printed (the exception
    whose text each printed line reports). *)
Record State := mkState {
  conversation : Conversation.t;
  context_service : context_service.State;
  ERROR_COUNTER : gmap string Z;
  printed : list Exc
}.

Definition set_conversation (v : Conversation.t) (s : State) : State :=
  mkState v (context_service s) (ERROR_COUNTER s) (printed s).
Definition set_context_service (v : context_service.State) (s : State) : State :=
  mkState (conversation s) v (ERROR_COUNTER s) (printed s).
Definition set_ERROR_COUNTER (v : gmap string Z) (s : State) : State :=
  mkState (conversation s) (context_service s) v (printed s).
Definition set_printed (v : list Exc) (s : State) : State :=
  mkState (conversation s) (context_service s) (ERROR_COUNTER s) v.

(** A method of the conversation object, and one of the service. *)
Definition with_conversation {A} (m : SE Conversation.t A) : SE State A := λ s,
  let '(r, c) := m (conversation s) in (r, set_conversation c s).

Definition with_context_service {A} (m : SE context_service.State A)
    : SE State A := λ s,
  let '(r, cs) := m (context_service s) in (r, set_context_service cs s).

Definition ERROR_COUNTER_inc (error_type : string) : SE State () :=
  modify (λ s,
    set_ERROR_COUNTER
      (<[error_type := default 0 (ERROR_COUNTER s !! error_type) + 1]>
         (ERROR_COUNTER s)) s).

Definition print (e : Exc) : SE State () :=
  modify (λ s, set_printed (printed s ++ [e]) s).

Section WithLibraries.
Context {json_lib : Json} {zlib_lib : Zlib}.

(** [ConversationEndpoints._update_conversation(self, conversation,
    message, response, intent)]; [add_message] and [build_context] read
    the clock where they are called. *)
Definition _update_conversation (message response : Message.t)
    (intent : Intent.t) : SE State () :=
  try_except
    ((* Add messages to conversation *)
     now ← with_context_service context_service.utcnow;
     with_conversation (add_message now message);;
     now ← with_context_service context_service.utcnow;
     with_conversation (add_message now response);;
     (* Update conversation state *)
     handoff ← lift (Intent_should_handoff intent);
     (if handoff : bool
      then with_conversation (modify (Conversation.set_status HUMAN_NEEDED))
      else mret ());;
     (* Update context *)
     self ← get_state;
     now ← with_context_service context_service.utcnow;
     let context := context_service.build_context now (conversation self) in
     with_context_service
       (context_service.update_context (Conversation.id (conversation self))
          context);;
     mret ())
    [Exception]
    (λ e, ERROR_COUNTER_inc "update_error";;
          (* Log error but don't raise to prevent request failure *)
          print e).

End WithLibraries.

End conversation_endpoints.

Module conversation_endpoints_facts.

Import conversation conversation_endpoints.

Lemma isinstance_Exception (e : Exc) : isinstance e [Exception] = true.
Proof. destruct e as [[] msg]; reflexivity. Qed.

(** A call to [add_message] that returns has appended the message; one
    that raises has appended it or has done nothing. *)
Lemma add_message_appends (now : datetime) (m : Message.t) (c : Conversation.t) :
  match (add_message now m c).1 with
  | Ok _ =>
      Conversation.messages (add_message now m c).2
      = Conversation.messages c ++ [m]
  | Raise _ =>
      Conversation.messages (add_message now m c).2 = Conversation.messages c
      ∨ Conversation.messages (add_message now m c).2
        = Conversation.messages c ++ [m]
  end.
Proof.
  destruct (decide (Message.conversation_id m = Conversation.id c)) as [Hid | Hid].
  - rewrite (conversation_invariants.add_message_owned now m c Hid).
    destruct (Message.intent m) as [i |]; [| done].
    destruct (Intent_should_handoff i) as [[|] | e]; simpl; auto.
  - unfold add_message, mbind, SE_bind, get_state, raise.
    rewrite bool_decide_eq_true_2 by done. simpl. by left.
Qed.

Section WithLibraries.
Context {json_lib : Json} {zlib_lib : Zlib}.

(** A write that does not return has stored nothing. *)
Lemma update_context_raises_keeps_store (cs : context_service.State)
    (cid : UUID) (context : Val) :
  is_ok (context_service.update_context cid context cs).1 = false →
  context_service.redis (context_service.update_context cid context cs).2
  = context_service.redis cs.
Proof.
  context_store_facts.run_se. repeat case_match; simplify_eq; done.
Qed.

(** The statements inside the [try]. *)
Definition update_body (message response : Message.t) (intent : Intent.t)
    : SE State () :=
  now ← with_context_service context_service.utcnow;
  with_conversation (add_message now message);;
  now ← with_context_service context_service.utcnow;
  with_conversation (add_message now response);;
  handoff ← lift (Intent_should_handoff intent);
  (if handoff : bool
   then with_conversation (modify (Conversation.set_status HUMAN_NEEDED))
   else mret ());;
  self ← get_state;
  now ← with_context_service context_service.utcnow;
  let context := context_service.build_context now (conversation self) in
  with_context_service
    (context_service.update_context (Conversation.id (conversation self))
       context);;
  mret ().

Lemma update_body_effect (message response : Message.t) (intent : Intent.t)
    (s : State) :
  ERROR_COUNTER (update_body message response intent s).2 = ERROR_COUNTER s
  ∧ printed (update_body message response intent s).2 = printed s
  ∧ (∃ k, Conversation.messages
            (conversation (update_body message response intent s).2)
          = Conversation.messages (conversation s)
            ++ take k [message; response])
  ∧ (is_ok (update_body message response intent s).1 = false →
     context_service.redis
       (context_service (update_body message response intent s).2)
     = context_service.redis (context_service s)).
Proof.
  destruct s as [c cs counter out]. unfold update_body.
  unfold mbind, SE_bind, with_context_service, with_conversation,
    context_service.utcnow, lift, get_state, modify, mret, SE_ret.
  simpl.
  pose proof (add_message_appends (context_service.clock cs) message c) as Hm.
  destruct (add_message (context_service.clock cs) message c)
    as [[[] | e1] c1]; simpl in *.
  2: { repeat split; try done.
       destruct Hm as [-> | ->]; [exists 0%nat | exists 1%nat]; simpl;
         by rewrite ?app_nil_r. }
  pose proof (add_message_appends (context_service.clock cs) response c1) as Hr.
  destruct (add_message (context_service.clock cs) response c1)
    as [[[] | e2] c2]; simpl in *.
  2: { repeat split; try done.
       destruct Hr as [-> | ->]; rewrite Hm; [exists 1%nat | exists 2%nat];
         simpl; by rewrite <- ?app_assoc. }
  assert (Hboth : Conversation.messages c2
                  = Conversation.messages c ++ take 2 [message; response]).
  { rewrite Hr, Hm. simpl. by rewrite <- app_assoc. }
  destruct (Intent_should_handoff intent) as [handoff | e3]; simpl.
  2: { repeat split; try done. by exists 2%nat. }
  destruct handoff; simpl.
  - pose proof (update_context_raises_keeps_store cs
                  (Conversation.id (Conversation.set_status HUMAN_NEEDED c2))
                  (context_service.build_context (context_service.clock cs)
                     (Conversation.set_status HUMAN_NEEDED c2))) as Hstore.
    destruct (context_service.update_context _ _ cs) as [[ok | e4] cs4];
      simpl in *; repeat split; try done; try (by exists 2%nat); auto.
  - pose proof (update_context_raises_keeps_store cs (Conversation.id c2)
                  (context_service.build_context (context_service.clock cs) c2))
      as Hstore.
    destruct (context_service.update_context _ _ cs) as [[ok | e4] cs4];
      simpl in *; repeat split; try done; try (by exists 2%nat); auto.
Qed.

(** X23 ([ConversationEndpoints._update_conversation]): the background
    update never raises, and what it swallows leaves the conversation and
    the store out of step.  Either it runs to its end without counting an
    error, or it counts exactly one [update_error], prints the exception,
    and has written nothing to the context store; in both cases the
    conversation object keeps whatever had been appended to it by then:
    none, the first, or both of the two messages. *)
Theorem update_conversation_swallows_errors (s : State)
    (message response : Message.t) (intent : Intent.t) :
  (_update_conversation message response intent s).1 = Ok ()
  ∧ (∃ k, Conversation.messages
            (conversation (_update_conversation message response intent s).2)
          = Conversation.messages (conversation s)
            ++ take k [message; response])
  ∧ (ERROR_COUNTER (_update_conversation message response intent s).2
     = ERROR_COUNTER s
     ∧ printed (_update_conversation message response intent s).2 = printed s
     ∨ ERROR_COUNTER (_update_conversation message response intent s).2
       = <["update_error" := default 0 (ERROR_COUNTER s !! "update_error") + 1]>
           (ERROR_COUNTER s)
       ∧ (∃ e, printed (_update_conversation message response intent s).2
               = printed s ++ [e])
       ∧ context_service.redis
           (context_service (_update_conversation message response intent s).2)
         = context_service.redis (context_service s)).
Proof.
  change (_update_conversation message response intent)
    with (try_except (update_body message response intent) [Exception]
            (λ e, ERROR_COUNTER_inc "update_error";; print e)).
  unfold try_except.
  destruct (update_body_effect message response intent s)
    as (Hcounter & Hprinted & Hmessages & Hstore).
  destruct (update_body message response intent s) as [[[] | e] s1].
  - simpl in *. split; [done |]. split; [done |]. by left.
  - rewrite isinstance_Exception. simpl in *.
    split; [done |]. split; [done |]. right.
    rewrite Hcounter, Hprinted. split; [done |]. split; [by exists e | auto].
Qed.

(** The conversation after both messages were appended at the instant
    [now] and the handoff decision on [intent] was applied. *)
Definition updated (now : datetime) (message response : Message.t)
    (handoff : bool) (c : Conversation.t) : Conversation.t :=
  let c2 := (add_message now response (add_message now message c).2).2 in
  if handoff then Conversation.set_status HUMAN_NEEDED c2 else c2.

(** The entries of a context object. *)
Definition entries (context : Val) : Dict :=
  match context with VDict d => d | _ => ∅ end.

Lemma add_message_runs (now : datetime) (m : Message.t) (c : Conversation.t) :
  Message.conversation_id m = Conversation.id c →
  (∀ i, Message.intent m = Some i → is_ok (Intent_should_handoff i) = true) →
  add_message now m c = (Ok (), (add_message now m c).2)
  ∧ Conversation.id (add_message now m c).2 = Conversation.id c
  ∧ Conversation.messages (add_message now m c).2
    = Conversation.messages c ++ [m].
Proof.
  intros Hid Hrule.
  pose proof (conversation_facts.add_message_returns now m c Hid Hrule) as Hok.
  pose proof (conversation_facts.add_message_state now m c) as [Hsame Hst].
  simpl in Hsame, Hst. rewrite bool_decide_eq_false_2 in Hst by auto.
  destruct Hst as [Hmessages _].
  destruct (add_message now m c) as [r c1]. simpl in *. by subst r.
Qed.

(** X24 ([_update_conversation]: [add_message] twice, [should_handoff],
    [build_context], [update_context]; then [get_conversation_context]):
    when both messages belong to the conversation, the handoff rule can
    be evaluated on every intent involved, the server answers, the TTL is
    positive and the projection is stored uncompressed, then, whatever
    state the breaker is in, the update counts no error and the
    conversation holds both messages.  A read of the conversation that
    the breaker lets through ([_is_circuit_open] answers [False]) returns
    what [get_conversation_context] parses from the stored text, the
    serialization of [build_context] of the updated conversation stamped
    by [update_context]; a read while the breaker is open is turned away
    with the circuit-open [RedisError]. *)
Theorem update_conversation_stores_projection (s : State)
    (message response : Message.t) (intent : Intent.t) (handoff : bool)
    (stored : Val) :
  Message.conversation_id message = Conversation.id (conversation s) →
  Message.conversation_id response = Conversation.id (conversation s) →
  (∀ i, Message.intent message = Some i →
        is_ok (Intent_should_handoff i) = true) →
  (∀ i, Message.intent response = Some i →
        is_ok (Intent_should_handoff i) = true) →
  Intent_should_handoff intent = Ok handoff →
  context_service.redis_fault (context_service s) = None →
  0 < context_service.context_ttl (context_service s) →
  Z.of_nat
    (length
       (json_dumps
          (VDict
             (context_store_facts.stamped (context_service s)
                (entries
                   (context_service.build_context
                      (context_service.clock (context_service s))
                      (updated (context_service.clock (context_service s))
                         message response handoff (conversation s))))))))
    ≤ context_service.compression_threshold (context_service s) →
  context_service.parse_raw_data
    (json_dumps
       (VDict
          (context_store_facts.stamped (context_service s)
             (entries
                (context_service.build_context
                   (context_service.clock (context_service s))
                   (updated (context_service.clock (context_service s))
                      message response handoff (conversation s)))))))
  = Ok stored →
  json_dumps
    (VDict
       (context_store_facts.stamped (context_service s)
          (entries
             (context_service.build_context
                (context_service.clock (context_service s))
                (updated (context_service.clock (context_service s))
                   message response handoff (conversation s)))))) ≠ [] →
  (_update_conversation message response intent s).1 = Ok ()
  ∧ ERROR_COUNTER (_update_conversation message response intent s).2
    = ERROR_COUNTER s
  ∧ conversation (_update_conversation message response intent s).2
    = updated (context_service.clock (context_service s)) message response
        handoff (conversation s)
  ∧ Conversation.messages
      (conversation (_update_conversation message response intent s).2)
    = Conversation.messages (conversation s) ++ [message; response]
  ∧ ((context_service._is_circuit_open (context_service s)).1 = Ok false →
     (context_service.get_conversation_context
        (Conversation.id (conversation s))
        (context_service (_update_conversation message response intent s).2)).1
     = Ok stored)
  ∧ ((context_service._is_circuit_open (context_service s)).1 = Ok true →
     (context_service.get_conversation_context
        (Conversation.id (conversation s))
        (context_service (_update_conversation message response intent s).2)).1
     = Raise context_store_facts.circuit_open_error).
Proof.
  intros Hmessage Hresponse Hrule_m Hrule_r Hintent Hfault Httl Hshort
    Hparse Hne.
  destruct s as [c cs counter out]. simpl in *.
  destruct (add_message_runs (context_service.clock cs) message c Hmessage
              Hrule_m) as (Hrun1 & Hid1 & Hmessages1).
  destruct (add_message_runs (context_service.clock cs) response
              (add_message (context_service.clock cs) message c).2)
    as (Hrun2 & Hid2 & Hmessages2); [congruence | done |].
  assert (Hid : Conversation.id
                  (updated (context_service.clock cs) message response handoff c)
                = Conversation.id c).
  { unfold updated. destruct handoff; simpl; congruence. }
  assert (Hmessages :
            Conversation.messages
              (updated (context_service.clock cs) message response handoff c)
            = Conversation.messages c ++ [message; response]).
  { unfold updated. destruct handoff; simpl;
      rewrite Hmessages2, Hmessages1, <- app_assoc; done. }
  pose proof (context_store_invariants.update_context_stored cs
                (Conversation.id c)
                (entries
                   (context_service.build_context (context_service.clock cs)
                      (updated (context_service.clock cs) message response
                         handoff c)))
                Hfault Hshort) as Hupdate.
  assert (Hrun :
    _update_conversation message response intent (mkState c cs counter out)
    = (Ok (),
       mkState (updated (context_service.clock cs) message response handoff c)
         (context_service.update_context (Conversation.id c)
            (context_service.build_context (context_service.clock cs)
               (updated (context_service.clock cs) message response handoff c))
            cs).2
         counter out)).
  { unfold _update_conversation, try_except.
    unfold mbind, SE_bind, with_context_service, with_conversation,
      context_service.utcnow, lift, get_state, modify, mret, SE_ret.
    simpl. rewrite Hrun1. simpl. rewrite Hrun2. simpl. rewrite Hintent.
    unfold updated in *.
    destruct handoff; cbv beta iota zeta in Hupdate; simpl;
      rewrite ?Hid2, ?Hid1;
      change (context_service.build_context ?now ?c')
        with (VDict (entries (context_service.build_context now c')));
      rewrite Hupdate; reflexivity. }
  rewrite Hrun. simpl.
  split; [done |]. split; [done |]. split; [done |]. split; [done |].
  change (context_service.build_context ?now ?c')
    with (VDict (entries (context_service.build_context now c'))).
  rewrite Hupdate. cbn [snd]. split.
  - intros Hclosed.
    rewrite context_store_invariants.get_conversation_context_let_through;
      [| by rewrite <- Hclosed;
            apply context_store_invariants.is_circuit_open_same | done].
    unfold context_store_invariants.answer, context_service.context_key.
    simpl. rewrite lookup_insert_eq.
    destruct (Z.ltb_spec (context_service.clock cs)
                (context_service.clock cs
                 + context_service.context_ttl cs * 1000000)); [| lia].
    rewrite Hparse.
    by destruct (json_dumps _).
  - intros Hopen.
    rewrite context_store_invariants.get_conversation_context_turned_away;
      [done | by rewrite <- Hopen;
                 apply context_store_invariants.is_circuit_open_same].
Qed.

End WithLibraries.

#[local] Existing Instance Reference.json.
#[local] Existing Instance Reference.zlib.

(** The endpoints in front of the sample store, holding conversation
    [c-3] before any message; the inbound greeting and the reply to it. *)
Definition sample_endpoints : State :=
  mkState llm_facts.conversation_c3 context_store_facts.sample_service ∅ [].

Definition outbound_reply : Message.t :=
  Message.mk "m-2" "c-3" (lit "Hi there!") OUTBOUND 1
    (Some llm_facts.greeting_intent) ∅ 0 0.

(** What a read makes of a stored text. *)
Definition read_back (text : str) : Val :=
  match context_service.parse_raw_data text with
  | Ok context => context
  | Raise _ => VNone
  end.

Definition stored_projection : str :=
  json_dumps
    (VDict
       (context_store_facts.stamped context_store_facts.sample_service
          (entries
             (context_service.build_context 0
                (updated 0 llm_facts.inbound_hello outbound_reply false
                   llm_facts.conversation_c3))))).

(** The same endpoints in front of the service whose breaker is open. *)
Definition sample_endpoints_open : State :=
  mkState llm_facts.conversation_c3 context_store_invariants.open_service ∅ [].

Definition stored_projection_open : str :=
  json_dumps
    (VDict
       (context_store_facts.stamped context_store_invariants.open_service
          (entries
             (context_service.build_context 10000000
                (updated 10000000 llm_facts.inbound_hello outbound_reply false
                   llm_facts.conversation_c3))))).

Lemma update_conversation_stores_projection_witness :
  (_update_conversation llm_facts.inbound_hello outbound_reply
     llm_facts.greeting_intent sample_endpoints).1 = Ok ()
  ∧ Conversation.messages
      (conversation
         (_update_conversation llm_facts.inbound_hello outbound_reply
            llm_facts.greeting_intent sample_endpoints).2)
    = [llm_facts.inbound_hello; outbound_reply]
  ∧ (context_service.get_conversation_context "c-3"
       (context_service
          (_update_conversation llm_facts.inbound_hello outbound_reply
             llm_facts.greeting_intent sample_endpoints).2)).1
    = Ok (read_back stored_projection)
  ∧ ERROR_COUNTER
      (_update_conversation llm_facts.inbound_hello outbound_reply
         llm_facts.greeting_intent sample_endpoints_open).2 = ∅
  ∧ (context_service.get_conversation_context "c-3"
       (context_service
          (_update_conversation llm_facts.inbound_hello outbound_reply
             llm_facts.greeting_intent sample_endpoints_open).2)).1
    = Raise context_store_facts.circuit_open_error.
Proof.
  destruct (update_conversation_stores_projection sample_endpoints
              llm_facts.inbound_hello outbound_reply llm_facts.greeting_intent
              false (read_back stored_projection))
    as (Hreturns & _ & _ & Hmessages & Hread & _).
  - reflexivity.
  - reflexivity.
  - intros i Hi. discriminate Hi.
  - intros i Hi. injection Hi as <-. reflexivity.
  - reflexivity.
  - reflexivity.
  - reflexivity.
  - vm_compute. discriminate.
  - vm_compute. reflexivity.
  - vm_compute. discriminate.
  - destruct (update_conversation_stores_projection sample_endpoints_open
                llm_facts.inbound_hello outbound_reply llm_facts.greeting_intent
                false (read_back stored_projection_open))
      as (_ & Hcounter & _ & _ & _ & Hrejected).
    + reflexivity.
    + reflexivity.
    + intros i Hi. discriminate Hi.
    + intros i Hi. injection Hi as <-. reflexivity.
    + reflexivity.
    + reflexivity.
    + reflexivity.
    + vm_compute. discriminate.
    + vm_compute. reflexivity.
    + vm_compute. discriminate.
    + split; [exact Hreturns |]. split; [exact Hmessages |].
      split; [exact (Hread eq_refl) |]. split; [exact Hcounter |].
      exact (Hrejected eq_refl).
Defined.

End conversation_endpoints_facts.

(* ===================================================================== *)
(** ** models/intent.py: what the constructor keeps of its keywords *)
(* ===================================================================== *)

Module intent_validation_facts.

Import handoff_rule.

(** X25 ([Intent.__init__] of [models/intent.py]): an [Intent] that is
    constructed has a confidence in [0, 1], and its metadata is the
    caller's metadata with the two stamps added: every other key the
    caller passed is kept with its value, and no other key appears. *)
Theorem Intent_init_keeps_caller_metadata {pydantic_lib : Pydantic}
    (utcnow : datetime) (data caller_metadata : Dict) (i : Intent.t) :
  dict_get data "metadata" (VDict ∅) = VDict caller_metadata →
  intent.Intent_init utcnow data = Ok i →
  in_unit_interval (Intent.confidence i)
  ∧ ∀ key, key ≠ "created_at" → key ≠ "model_version" →
           Intent.metadata i !! key = caller_metadata !! key.
Proof.
  unfold intent.Intent_init. intros -> Hinit. split.
  - by apply llm_invariants.Intent_validate_confidence in Hinit.
  - apply intent_facts.Intent_validate_metadata
      with (d := <["model_version" := VStr (lit "1.0.0")]>
                   (<["created_at" := VStr (isoformat utcnow)]> caller_metadata))
      in Hinit; [| apply lookup_insert_eq].
    intros key Hcreated Hversion. rewrite Hinit.
    by rewrite !lookup_insert_ne.
Qed.

#[local] Existing Instance Reference.pydantic.

Lemma Intent_init_keeps_caller_metadata_witness :
  in_unit_interval (Intent.confidence intent_facts.conflicting_intent)
  ∧ Intent.metadata intent_facts.conflicting_intent !! "processing_time_ms"
    = Some (VInt 150).
Proof.
  destruct (Intent_init_keeps_caller_metadata 1709210096000250
              intent_facts.conflicting_keywords
              (<["model_version" := VStr (lit "9.9.9")]>
               (<["created_at" := VStr (lit "yesterday")]>
               (<["processing_time_ms" := VInt 150]> ∅)))
              intent_facts.conflicting_intent)
    as [Hconfidence Hkept].
  - reflexivity.
  - vm_compute. reflexivity.
  - split; [exact Hconfidence |].
    rewrite (Hkept "processing_time_ms"); [reflexivity | done | done].
Defined.

End intent_validation_facts.
